(** * metric-tools: the download-data extractor ([afs/extract_download_data.py])

    A shallow embedding of the classification tables, the two ingestors
    ([read_log_file], [read_native_file]), the aggregation store and the
    report emitter ([get_keys], [write_csvs]), followed by the properties
    the specification states about them.

    Conventions.
    - Python [str] values are [string]s; a character is an 8-bit code point
      (the Latin-1 range), on which ASCII case folding and the whitespace
      class below agree with Python's.
    - Python [int] is [Z]; nothing wraps around.
    - A raised exception is a value of [exn]; code that can raise returns
      [result].
    - The three-level [defaultdict] is a nested [gmap]; a missing cell reads
      as 0 and [+=] creates the cell, also when it adds 0.
    - The local time zone of the process is a fixed offset [tz] (seconds
      east of UTC). *)

From Stdlib Require Import ZArith Ascii String List Bool Lia Permutation Sorted.
From stdpp Require Import base option gmap strings list fin_maps.

Local Open Scope string_scope.
Local Open Scope Z_scope.

(** ** Python string operations *)

Module PyStr.

Definition code (c : ascii) : nat := nat_of_ascii c.

(** [str.isspace] on one character. *)
Definition is_space (c : ascii) : bool :=
  let n := code c in
  ((9 <=? n) && (n <=? 13) || (28 <=? n) && (n <=? 32) || (n =? 133) || (n =? 160))%nat.

Definition is_digit (c : ascii) : bool :=
  let n := code c in ((48 <=? n) && (n <=? 57))%nat.

Definition lower (c : ascii) : ascii :=
  let n := code c in
  if ((65 <=? n) && (n <=? 90))%nat then ascii_of_nat (n + 32) else c.

Definition upper (c : ascii) : ascii :=
  let n := code c in
  if ((97 <=? n) && (n <=? 122))%nat then ascii_of_nat (n - 32) else c.

Fixpoint lstrip (s : string) : string :=
  match s with
  | EmptyString => EmptyString
  | String c s' => if is_space c then lstrip s' else s
  end.

Fixpoint rstrip (s : string) : string :=
  match s with
  | EmptyString => EmptyString
  | String c s' =>
      match rstrip s' with
      | EmptyString => if is_space c then EmptyString else String c EmptyString
      | r => String c r
      end
  end.

Definition strip (s : string) : string := lstrip (rstrip s).

(** [s.startswith(p)] *)
Fixpoint startswith (p s : string) : bool :=
  match p, s with
  | EmptyString, _ => true
  | String a p', String b s' => Ascii.eqb a b && startswith p' s'
  | String _ _, EmptyString => false
  end.

(** [p in s] *)
Fixpoint contains (p s : string) : bool :=
  startswith p s ||
  match s with
  | EmptyString => false
  | String _ s' => contains p s'
  end.

(** [s[:n]] *)
Fixpoint take (n : nat) (s : string) : string :=
  match n, s with
  | S n', String c s' => String c (take n' s')
  | _, _ => EmptyString
  end.

(** [s.split(sep)] for a one-character separator: never empty. *)
Fixpoint split_on (sep : ascii) (s : string) : list string :=
  match s with
  | EmptyString => [EmptyString]
  | String c s' =>
      if Ascii.eqb c sep then EmptyString :: split_on sep s'
      else match split_on sep s' with
           | w :: ws => String c w :: ws
           | [] => [String c EmptyString]
           end
  end.

(** The word being read at the head of [s], and the words after it. *)
Fixpoint words (s : string) : string * list string :=
  match s with
  | EmptyString => (EmptyString, [])
  | String c s' =>
      let '(w, ws) := words s' in
      if is_space c
      then (EmptyString, match w with EmptyString => ws | _ => w :: ws end)
      else (String c w, ws)
  end.

(** [s.split()] : split on runs of whitespace, no empty word. *)
Definition split_ws (s : string) : list string :=
  let '(w, ws) := words s in
  match w with EmptyString => ws | _ => w :: ws end.

(** [sep.join(l)] *)
Fixpoint join (sep : string) (l : list string) : string :=
  match l with
  | [] => EmptyString
  | [w] => w
  | w :: ws => w ++ sep ++ join sep ws
  end.

Definition digit_val (c : ascii) : Z := Z.of_nat (code c) - 48.

(** The digits of a decimal literal, most significant first; a single
    underscore may separate two digits. [prev] tells whether the previous
    character was a digit. *)
Fixpoint digits (prev : bool) (acc : Z) (s : string) : option Z :=
  match s with
  | EmptyString => if prev then Some acc else None
  | String c s' =>
      if is_digit c then digits true (10 * acc + digit_val c) s'
      else if Ascii.eqb c "_" then (if prev then digits false acc s' else None)
      else None
  end.

(** [int(s)]: [None] stands for [ValueError]. *)
Definition int (s : string) : option Z :=
  match strip s with
  | String "+" s' => digits false 0 s'
  | String "-" s' => Z.opp <$> digits false 0 s'
  | s' => digits false 0 s'
  end.

End PyStr.

(** ** Regular expressions: the fragment of Python's [re] the program uses

    A backtracking matcher in continuation-passing style, with Python's
    priorities: alternatives left to right, repetition greedy. *)

Module Re.

Inductive regex : Type :=
| Eps                                          (* the empty pattern *)
| Set_ (neg : bool) (rs : list (ascii * ascii))  (* [a-bc-d...] and [^...] *)
| Dot                                          (* . : any character but a newline *)
| Bol                                          (* ^ *)
| Eol                                          (* $ *)
| Seq (r1 r2 : regex)
| Alt (r1 r2 : regex)                          (* r1|r2 *)
| Star (r : regex)                             (* r* *)
| Grp (n : nat) (r : regex).                   (* the n-th capturing group *)

(** A position in the subject: how many characters are behind, what is
    ahead, and the groups captured so far (latest first). *)
Record mstate : Type := MState {
  m_pos : nat;
  m_rest : string;
  m_groups : list (nat * string)
}.

Definition in_ranges (rs : list (ascii * ascii)) (c : ascii) : bool :=
  existsb (fun '(lo, hi) => (PyStr.code lo <=? PyStr.code c)%nat && (PyStr.code c <=? PyStr.code hi)%nat) rs.

(** Membership of [c] in a class; under IGNORECASE both cases of [c] count. *)
Definition set_test (ic neg : bool) (rs : list (ascii * ascii)) (c : ascii) : bool :=
  xorb neg (in_ranges rs c || ic && (in_ranges rs (PyStr.lower c) || in_ranges rs (PyStr.upper c))).

Definition newline : ascii := ascii_of_nat 10.

Definition advance (st : mstate) (s' : string) : mstate :=
  MState (S (m_pos st)) s' (m_groups st).

(** The text between two positions of one subject. *)
Definition between (st st' : mstate) : string :=
  PyStr.take (m_pos st' - m_pos st) (m_rest st).

Definition set_group (n : nat) (st st' : mstate) : mstate :=
  MState (m_pos st') (m_rest st') ((n, between st st') :: m_groups st').

Definition or_else {A} (x y : option A) : option A :=
  match x with Some _ => x | None => y end.

(** The loop of a greedy repetition of [m]: one more round if it moves
    forward and the rest then matches, else stop here. No round can begin
    once [fuel], the number of characters ahead plus one, is spent. *)
Fixpoint star_loop (m : mstate -> (mstate -> option mstate) -> option mstate)
    (k : mstate -> option mstate) (fuel : nat) (st : mstate) : option mstate :=
  match fuel with
  | O => k st
  | S fuel' =>
      or_else
        (m st (fun st1 => if (m_pos st <? m_pos st1)%nat then star_loop m k fuel' st1 else None))
        (k st)
  end.

Fixpoint rmatch (ic : bool) (r : regex) (st : mstate)
    (k : mstate -> option mstate) : option mstate :=
  match r with
  | Eps => k st
  | Set_ neg rs =>
      match m_rest st with
      | String c s' => if set_test ic neg rs c then k (advance st s') else None
      | EmptyString => None
      end
  | Dot =>
      match m_rest st with
      | String c s' => if Ascii.eqb c newline then None else k (advance st s')
      | EmptyString => None
      end
  | Bol => if (m_pos st =? 0)%nat then k st else None
  | Eol =>
      match m_rest st with
      | EmptyString => k st
      | String c EmptyString => if Ascii.eqb c newline then k st else None
      | _ => None
      end
  | Seq r1 r2 => rmatch ic r1 st (fun st1 => rmatch ic r2 st1 k)
  | Alt r1 r2 => or_else (rmatch ic r1 st k) (rmatch ic r2 st k)
  | Star r1 => star_loop (rmatch ic r1) k (S (String.length (m_rest st))) st
  | Grp n r1 => rmatch ic r1 st (fun st1 => k (set_group n st st1))
  end.

(** A compiled pattern: the expression and its IGNORECASE flag. *)
Record pattern : Type := Pattern { p_re : regex; p_ic : bool }.

Definition compile (r : regex) : pattern := Pattern r false.
Definition compile_ic (r : regex) : pattern := Pattern r true.

(** [p.match(s)] *)
Definition match_ (p : pattern) (s : string) : option mstate :=
  rmatch (p_ic p) (p_re p) (MState 0 s []) Some.

(** [p.search(s)]: the first start position, left to right, that matches. *)
Fixpoint search_from (p : pattern) (i : nat) (s : string) : option mstate :=
  or_else (rmatch (p_ic p) (p_re p) (MState i s []) Some)
    match s with
    | EmptyString => None
    | String _ s' => search_from p (S i) s'
    end.

Definition search (p : pattern) (s : string) : option mstate := search_from p 0 s.

(** [m.group(n)] for a group that took part in the match. *)
Fixpoint assoc (n : nat) (gs : list (nat * string)) : option string :=
  match gs with
  | [] => None
  | (i, s) :: gs' => if (i =? n)%nat then Some s else assoc n gs'
  end.

Definition group (n : nat) (m : mstate) : option string := assoc n (m_groups m).

(** *** Pattern syntax *)

Definition chr (c : ascii) : regex := Set_ false [(c, c)].

Fixpoint lit (s : string) : regex :=
  match s with
  | EmptyString => Eps
  | String c EmptyString => chr c
  | String c s' => Seq (chr c) (lit s')
  end.

Definition opt (r : regex) : regex := Alt r Eps.           (* r? *)
Definition plus (r : regex) : regex := Seq r (Star r).     (* r+ *)
Definition digit : regex := Set_ false [("0", "9")]%char.   (* \d *)
Definition oneof (s : string) : regex :=                     (* [abc] *)
  Set_ false (map (fun c => (c, c)) (list_ascii_of_string s)).
Definition noneof (s : string) : regex :=                    (* [^abc] *)
  Set_ true (map (fun c => (c, c)) (list_ascii_of_string s)).
(** [\s] *)
Definition space : regex :=
  Set_ false (map (fun '(a, b) => (ascii_of_nat a, ascii_of_nat b))
                  [(9, 13); (28, 32); (133, 133); (160, 160)]%nat).

Fixpoint seqs (l : list regex) : regex :=
  match l with
  | [] => Eps
  | [r] => r
  | r :: l' => Seq r (seqs l')
  end.

Fixpoint alts (l : list regex) : regex :=
  match l with
  | [] => Eps
  | [r] => r
  | r :: l' => Alt r (alts l')
  end.

End Re.

(** ** The classification tables [OS_MAP] and [ARCH_MAP] *)

Import Re.

#[global] Instance regex_eq_dec : EqDecision regex.
Proof. solve_decision. Defined.

#[global] Instance pattern_eq_dec : EqDecision pattern.
Proof. solve_decision. Defined.

(** [d[k] = v] on an [OrderedDict]: a key that is present keeps its place. *)
Fixpoint od_set {K V} `{EqDecision K} (d : list (K * V)) (k : K) (v : V) : list (K * V) :=
  match d with
  | [] => [(k, v)]
  | (k', v') :: d' => if decide (k' = k) then (k, v) :: d' else (k', v') :: od_set d' k v
  end.

(** The loop that rebinds a table to an [OrderedDict] keyed by the compiled,
    case-insensitive patterns. *)
Definition compile_table (table : list (regex * string)) : list (pattern * string) :=
  fold_left (fun d '(re, label) => od_set d (compile_ic re) label) table [].

Definition WINDOWS := "Windows".
Definition LINUX := "Linux".
Definition MACOS := "MacOS".
Definition OTHER := "Other".

Definition OS_MAP_rules : list (regex * string) := [
  (lit "winnt",   WINDOWS);
  (lit "windows", WINDOWS);
  (lit "winn50",  WINDOWS);
  (Seq (lit ".deb") Eol, LINUX);                                  (* \.deb$ *)
  (lit "_deb_",   LINUX);
  (Seq (lit ".rpm") Eol, LINUX);                                  (* \.rpm$ *)
  (lit "linux",   LINUX);
  (lit "rhel",    LINUX);
  (lit "rhap",    LINUX);
  (lit "rhas",    LINUX);
  (lit "fedora",  LINUX);
  (lit "redhat",  LINUX);
  (lit "centos",  LINUX);
  (lit "ubuntu",  LINUX);
  (lit "debian",  LINUX);
  (seqs [lit "mac"; opt (lit " "); lit "os"; opt (lit " "); opt (lit "x")], MACOS);  (* mac ?os ?x? *)
  (lit "irix",    OTHER);
  (lit "dux",     OTHER);
  (lit "solaris", OTHER);
  (lit "sun4u_sol_", OTHER);
  (lit "aix",     OTHER);
  (lit "hpux",    OTHER);
  (lit "bsd",     OTHER);
  (lit "vax-openvms", OTHER);
  (lit "ydl3",    LINUX);
  (lit "yd5",     LINUX);
  (lit "all",     "All");
  (lit "_sl_",    LINUX);
  (lit "sles",    LINUX);
  (lit "_sol_",   LINUX);
  (seqs [lit ".orig.tar."; oneof "gx"; lit "z"], LINUX);          (* \.orig\.tar\.[gx]z *)
  (seqs [lit "-src.tar."; oneof "gbx"; lit "z"; opt (lit "2")], "All")  (* -src\.tar\.[gbx]z2? *)
].

Definition OS_MAP : list (pattern * string) := compile_table OS_MAP_rules.

Definition X86 := "x86".
Definition X86_64 := "x86-64".

Definition ARCH_MAP_rules : list (regex * string) := [
  (seqs [lit "linux-x86-"; opt (lit "g"); lit "libc"], X86);      (* linux-x86-g?libc *)
  (seqs [lit "linux-x86"; Dot; lit "tar"], X86);                  (* linux-x86.tar *)
  (lit "linux-x86-redhat",  X86);
  (lit "linux-x86-rhel",    X86);
  (lit "linux-x86-debian",  X86);
  (seqs [lit "winnt-x86-5"; Dot; lit "0"], X86);                  (* winnt-x86-5.0 *)
  (lit "amd64",  X86_64);
  (lit "x86_64", X86_64);
  (lit "i386",   X86);
  (lit "i686",   X86);
  (lit "x64",    X86_64);
  (lit "ia64",   OTHER);
  (lit "ppc64",  OTHER);
  (lit "sun4u",  OTHER);
  (lit "sparc",  OTHER);
  (lit "alpha",  OTHER);
  (lit "-ppc-",  OTHER);
  (lit "ppc_aix", OTHER);
  (lit "hppar",  OTHER);
  (lit "sgi",    OTHER);
  (lit "powerpc", OTHER);
  (lit "vax-openvms", OTHER);
  (seqs [lit "aix"; Star Dot; lit "aix"], OTHER);                 (* aix.*aix *)
  (lit "x86-dynamic", X86);
  (lit "x86.exe",   X86);                                         (* x86\.exe *)
  (lit "x86.zip",   X86);                                         (* x86\.zip *)
  (lit "x86.msi",   X86);                                         (* x86\.msi *)
  (lit "x86.tar",   X86);                                         (* x86\.tar *)
  (lit "-all-all", "All");
  (lit "-x86_rhap",   X86);
  (lit "-x86_rhas",   X86);
  (lit "-x86_redhat", X86);
  (lit "-x86_deb",    X86);
  (lit "-x86_sl",     X86);
  (lit "-x86_freebsd", X86);
  (lit "-x86_macos",  X86);
  (lit "-x86_centos", X86);
  (lit ".src.",  "All");                                          (* \.src\. *)
  (seqs [Bol; lit "all"; Eol], "All");                            (* ^all$ *)
  (seqs [lit "."; Grp 1 (Alt (lit "orig") (lit "debian")); lit ".tar."; oneof "gx"; lit "z"], "All");
                                                                  (* \.(orig|debian)\.tar\.[gx]z *)
  (seqs [lit "-src.tar."; oneof "gbx"; lit "z"; opt (lit "2")], "All")  (* -src\.tar\.[gbx]z2? *)
].

Definition ARCH_MAP : list (pattern * string) := compile_table ARCH_MAP_rules.

(** The loop shared by [get_os] and [get_arch]: the label of the first
    pattern, in the order of the table's items, that is found in the name. *)
Fixpoint first_label (table : list (pattern * string)) (filename : string) : string :=
  match table with
  | [] => "Unknown"
  | (re, label) :: table' =>
      match search re filename with
      | Some _ => label
      | None => first_label table' filename
      end
  end.

Definition get_os (filename : string) : string := first_label OS_MAP filename.

Definition get_arch (filename : string) : string := first_label ARCH_MAP filename.

(** ** Exceptions *)

Inductive exn : Type :=
| KeyError (key : string)
| ValueError
| IndexError
| AttributeError
| UnboundLocalError.

Inductive result (A : Type) : Type :=
| Ok (a : A)
| Raise (e : exn).

Arguments Ok {A} a.
Arguments Raise {A} e.

Definition bind {A B} (x : result A) (f : A -> result B) : result B :=
  match x with
  | Ok a => f a
  | Raise e => Raise e
  end.

Notation "x <- e1 ;; e2" := (bind e1 (fun x => e2))
  (at level 100, e1 at next level, right associativity).

Definition or_raise {A} (e : exn) (x : option A) : result A :=
  match x with
  | Some a => Ok a
  | None => Raise e
  end.

(** ** Calendar days: the part of [datetime] the program uses *)

Record datetime : Type := Datetime { year : Z; month : Z; day : Z }.

#[global] Instance datetime_eq_dec : EqDecision datetime.
Proof. solve_decision. Defined.

#[global] Instance datetime_countable : Countable datetime.
Proof.
  apply (inj_countable' (fun d => (year d, month d, day d))
                        (fun '(y, m, d) => Datetime y m d)).
  intros []. reflexivity.
Defined.

Module Cal.

Definition is_leap (y : Z) : bool :=
  (y mod 4 =? 0) && (negb (y mod 100 =? 0) || (y mod 400 =? 0)).

(** [_DAYS_IN_MONTH[m] + (m == 2 and leap)] *)
Definition days_in_month_of (leap : bool) (m : Z) : Z :=
  nth (Z.to_nat m) [0; 31; 28; 31; 30; 31; 30; 31; 31; 30; 31; 30; 31] 0
  + (if (m =? 2) && leap then 1 else 0).

(** [_DAYS_BEFORE_MONTH[m] + (m > 2 and leap)] *)
Definition days_before_month_of (leap : bool) (m : Z) : Z :=
  nth (Z.to_nat m) [0; 0; 31; 59; 90; 120; 151; 181; 212; 243; 273; 304; 334] 0
  + (if (2 <? m) && leap then 1 else 0).

Definition days_in_month (y m : Z) : Z := days_in_month_of (is_leap y) m.

Definition days_before_month (y m : Z) : Z := days_before_month_of (is_leap y) m.

Definition days_before_year (y : Z) : Z :=
  let y1 := y - 1 in y1 * 365 + y1 / 4 - y1 / 100 + y1 / 400.

(** Proleptic Gregorian ordinal: 1 is 0001-01-01. *)
Definition ymd2ord (y m d : Z) : Z :=
  days_before_year y + days_before_month y m + d.

Definition DI400Y := 146097.
Definition DI100Y := 36524.
Definition DI4Y := 1461.

Definition ord2ymd (ord : Z) : Z * Z * Z :=
  let n := ord - 1 in
  let n400 := n / DI400Y in let n := n mod DI400Y in
  let y := n400 * 400 + 1 in
  let n100 := n / DI100Y in let n := n mod DI100Y in
  let n4 := n / DI4Y in let n := n mod DI4Y in
  let n1 := n / 365 in let n := n mod 365 in
  let y := y + n100 * 100 + n4 * 4 + n1 in
  if (n1 =? 4) || (n100 =? 4) then (y - 1, 12, 31)
  else
    let leapyear := (n1 =? 3) && (negb (n4 =? 24) || (n100 =? 3)) in
    let m := Z.shiftr (n + 50) 5 in
    let preceding := days_before_month_of leapyear m in
    if n <? preceding
    then
      let m' := m - 1 in
      let preceding' := preceding - days_in_month_of leapyear m' in
      (y, m', n - preceding' + 1)
    else (y, m, n - preceding + 1).

Definition EPOCH_ORD := 719163.   (* 1970-01-01 *)
Definition MAX_ORD := 3652059.    (* 9999-12-31 *)

(** [datetime.fromtimestamp(ts)] followed by [datetime(dt.year, dt.month,
    dt.day)]; a day outside the years 1..9999 raises. *)
Definition fromtimestamp (tz ts : Z) : result datetime :=
  let ord := (ts + tz) / 86400 + EPOCH_ORD in
  if (ord <? 1) || (MAX_ORD <? ord) then Raise ValueError
  else let '(y, m, d) := ord2ymd ord in Ok (Datetime y m d).

(** [date.timestamp()] of a local midnight. *)
Definition timestamp (tz : Z) (date : datetime) : Z :=
  (ymd2ord (year date) (month date) (day date) - EPOCH_ORD) * 86400 - tz.

Definition weekdays := ["mon"; "tue"; "wed"; "thu"; "fri"; "sat"; "sun"].
Definition months :=
  ["jan"; "feb"; "mar"; "apr"; "may"; "jun"; "jul"; "aug"; "sep"; "oct"; "nov"; "dec"].

(** The pattern [strptime] builds for the format ["%a, %d %b %Y %H"]:
    [(?P<a>mon|...),\s+(?P<d>3[0-1]|[1-2]\d|0[1-9]|[1-9]| [1-9])\s+(?P<b>jan|...)\s+(?P<Y>\d\d\d\d)\s+(?P<H>2[0-3]|[0-1]\d|\d)],
    compiled with IGNORECASE. *)
Definition date_format_re : pattern :=
  compile_ic (seqs [
    Grp 1 (alts (map lit weekdays)); lit ","; plus space;
    Grp 2 (alts [Seq (lit "3") (Set_ false [("0", "1")]%char);
                 Seq (Set_ false [("1", "2")]%char) digit;
                 Seq (lit "0") (Set_ false [("1", "9")]%char);
                 Set_ false [("1", "9")]%char;
                 Seq (lit " ") (Set_ false [("1", "9")]%char)]);
    plus space;
    Grp 3 (alts (map lit months)); plus space;
    Grp 4 (seqs [digit; digit; digit; digit]); plus space;
    Grp 5 (alts [Seq (lit "2") (Set_ false [("0", "3")]%char);
                 Seq (Set_ false [("0", "1")]%char) digit;
                 digit])]).

Fixpoint str_lower (s : string) : string :=
  match s with
  | EmptyString => EmptyString
  | String c s' => String (PyStr.lower c) (str_lower s')
  end.

Fixpoint index_of (x : string) (l : list string) : option nat :=
  match l with
  | [] => None
  | y :: l' => if String.eqb x y then Some O else S <$> index_of x l'
  end.

(** [datetime.strptime(s, "%a, %d %b %Y %H")] with the names of the C
    locale; [None] stands for [ValueError]. The result is year, month, day
    and hour. *)
Definition strptime (s : string) : option (Z * Z * Z * Z) :=
  m ← match_ date_format_re s;
  (if m_rest m is EmptyString then Some tt else None) ≫= fun _ =>
  d ← group 2 m ≫= PyStr.int;
  b ← group 3 m ≫= fun b => index_of (str_lower b) months;
  y ← group 4 m ≫= PyStr.int;
  h ← group 5 m ≫= PyStr.int;
  let mo := Z.of_nat b + 1 in
  if (1 <=? y) && (1 <=? d) && (d <=? days_in_month y mo) then Some (y, mo, d, h) else None.

End Cal.

(** ** The aggregation store

    [data[date][dimension][key]], a [defaultdict] at each of its three
    levels. *)

Abbreviation bins := (gmap string (gmap string Z)).
Abbreviation store := (gmap datetime (gmap string (gmap string Z))).

(** [data[date][dim][key]] read as a number: a missing cell is 0. *)
Definition cell (data : store) (date : datetime) (dim key : string) : Z :=
  default 0 (default ∅ (default ∅ (data !! date) !! dim) !! key).

(** [data[date][dim][key] += w] *)
Definition store_add (data : store) (date : datetime) (dim key : string) (w : Z) : store :=
  let by_dim := default ∅ (data !! date) in
  let by_key := default ∅ (by_dim !! dim) in
  <[date := <[dim := <[key := default 0 (by_key !! key) + w]> by_key]> by_dim]> data.

(** What one accepted record adds to the store. *)
Record hit : Type := Hit {
  h_date : datetime;
  h_version : string;
  h_version_major : string;
  h_os : string;
  h_arch : string;
  h_weight : Z
}.

(** An Event of the specification: day, dimension, key and weight. *)
Definition event : Type := datetime * string * string * Z.

Definition osarch (h : hit) : string := h_os h ++ "/" ++ h_arch h.

(** The four Events of a record, in the order the code stores them. *)
Definition events (h : hit) : list event :=
  [(h_date h, "version", h_version h, h_weight h);
   (h_date h, "version_major", h_version_major h, h_weight h);
   (h_date h, "osarch", osarch h, h_weight h);
   (h_date h, "os", h_os h, h_weight h)].

(** [accumulate(event)] *)
Definition accumulate (data : store) (e : event) : store :=
  let '(date, dim, key, w) := e in store_add data date dim key w.

(** The four [+=] statements that end the body of both loops. *)
Definition store_hit (data : store) (h : hit) : store :=
  fold_left accumulate (events h) data.

(** ** Filename patterns *)

Definition verchars : regex := Set_ false [("0", "9"); (".", ".")]%char.   (* "[\d.]" *)
Definition version_re : regex := Seq (plus verchars) digit.            (* "[\d.]+\d" *)
Definition condor_re : regex := seqs [opt (lit "h"); opt (lit "t"); lit "condor"].  (* "h?t?condor" *)
Definition hits_re (n : nat) : regex :=                                 (* " \((\d+) hits?\)" *)
  seqs [lit " ("; Grp n (plus digit); lit " hit"; opt (lit "s"); lit ")"].

(** r"h?t?condor-([\d.]+\d)(?:_preview)?[-.](REST)", where REST is ".*" *)
Definition re_binary : pattern :=
  compile (seqs [condor_re; lit "-"; Grp 1 version_re; opt (lit "_preview");
                 oneof "-."; Grp 2 (Star Dot)]).

(** r"h?t?condor_src-([\d.]+\d)(?:_preview)?[-.](REST)", where REST is ".*" *)
Definition re_source : pattern :=
  compile (seqs [condor_re; lit "_src-"; Grp 1 version_re; opt (lit "_preview");
                 oneof "-."; Grp 2 (Star Dot)]).

(** r"h?t?condor_([\d.]+\d)-(.*\.deb)" *)
Definition re_binary_deb : pattern :=
  compile (seqs [condor_re; lit "_"; Grp 1 version_re; lit "-";
                 Grp 2 (Seq (Star Dot) (lit ".deb"))]).

(** r"h?t?condor_([\d.]+\d)\..*(orig|debian)\.tar\.[xg]z" *)
Definition re_source_deb : pattern :=
  compile (seqs [condor_re; lit "_"; Grp 1 version_re; lit "."; Star Dot;
                 Grp 2 (Alt (lit "orig") (lit "debian")); lit ".tar."; oneof "xg"; lit "z"]).

(** r"/.*/h?t?condor-([\d.]+\d)-.*\.(x86_64|i386|i686|ia64)\.rpm \((\d+) hits?\)" *)
Definition re_rpm : pattern :=
  compile (seqs [lit "/"; Star Dot; lit "/"; condor_re; lit "-"; Grp 1 version_re; lit "-";
                 Star Dot; lit "."; Grp 2 (alts [lit "x86_64"; lit "i386"; lit "i686"; lit "ia64"]);
                 lit ".rpm"; hits_re 3]).

(** r"/.*/h?t?condor-([\d.]+\d)-(REST)\.src\.rpm \((\d+) hits?\)", where REST is ".*" *)
Definition re_src_rpm : pattern :=
  compile (seqs [lit "/"; Star Dot; lit "/"; condor_re; lit "-"; Grp 1 version_re; lit "-";
                 Grp 2 (Star Dot); lit ".src.rpm"; hits_re 3]).

(** r"/.*/h?t?condor[_-]([\d.]+\d)-.*_(amd64|i386|all)\.deb \((\d+) hits?\)" *)
Definition re_deb : pattern :=
  compile (seqs [lit "/"; Star Dot; lit "/"; condor_re; oneof "_-"; Grp 1 version_re; lit "-";
                 Star Dot; lit "_"; Grp 2 (alts [lit "amd64"; lit "i386"; lit "all"]);
                 lit ".deb"; hits_re 3]).

(** r"/.*/h?t?condor[_-]([\d.]+\d)-.*\.(orig|debian)\.tar\.[xg]z \((\d+) hits?\)" *)
Definition re_src_deb : pattern :=
  compile (seqs [lit "/"; Star Dot; lit "/"; condor_re; oneof "_-"; Grp 1 version_re; lit "-";
                 Star Dot; lit "."; Grp 2 (Alt (lit "orig") (lit "debian")); lit ".tar.";
                 oneof "xg"; lit "z"; hits_re 3]).

(** The filename of a tarball line: r"h?t?condor<infix>[-_][\d.]+\d[-.][^/ ]+" *)
Definition tarball_name_re (infix : string) : regex :=
  seqs [condor_re; lit infix; oneof "-_"; plus verchars; digit; oneof "-."; plus (noneof "/ ")].

(** r"/.*/tarball/.*/(h?t?condor[-_][\d.]+\d[-.][^/ ]+) \((\d+) hits?\)" *)
Definition re_tarball : pattern :=
  compile (seqs [lit "/"; Star Dot; lit "/tarball/"; Star Dot; lit "/";
                 Grp 1 (tarball_name_re ""); hits_re 2]).

(** r"/.*/tarball/.*/(h?t?condor_src[-_][\d.]+\d[-.][^/ ]+) \((\d+) hits?\)" *)
Definition re_src_tarball : pattern :=
  compile (seqs [lit "/"; Star Dot; lit "/tarball/"; Star Dot; lit "/";
                 Grp 1 (tarball_name_re "_src"); hits_re 2]).

(** [".".join(version.split(".")[0:2])] *)
Definition major_of (version : string) : string :=
  PyStr.join "." (firstn 2 (PyStr.split_on "." version)).

(** [d[key]] on the [dict] built by [dict(zip(headers, cols))]. *)
Fixpoint getitem (d : list (string * string)) (key : string) : result string :=
  match d with
  | [] => Raise (KeyError key)
  | (k, v) :: d' => if String.eqb k key then Ok v else getitem d' key
  end.

(** [zip(a, b)] *)
Fixpoint zip {A B} (a : list A) (b : list B) : list (A * B) :=
  match a, b with
  | x :: a', y :: b' => (x, y) :: zip a' b'
  | _, _ => []
  end.

(** [l[i]] *)
Definition index {A} (l : list A) (i : nat) : result A := or_raise IndexError (nth_error l i).

(** [m.group(n)] used as a string: a group that did not take part is
    [None], and the method call on it raises. *)
Definition group_str (n : nat) (m : mstate) : result string :=
  or_raise AttributeError (group n m).

(** The [if]/[elif]/[else] that picks the pattern of a filename of the
    structured log, and its match. [None]: the line is logged as
    unparseable and skipped. *)
Definition log_family (filename : string) : option mstate :=
  if PyStr.startswith "condor-" filename || PyStr.startswith "htcondor-" filename
  then match_ re_binary filename
  else if PyStr.startswith "condor_src-" filename || PyStr.startswith "htcondor_src-" filename
  then match_ re_source filename
  else match_ re_binary_deb filename.

(** The same choice for the filename of a tarball line of the digest, which
    also knows the source tarballs of Debian. *)
Definition tarball_family (filename : string) : option mstate :=
  if PyStr.startswith "condor-" filename || PyStr.startswith "htcondor-" filename
  then match_ re_binary filename
  else if PyStr.startswith "condor_src-" filename || PyStr.startswith "htcondor_src-" filename
  then match_ re_source filename
  else or_else (match_ re_binary_deb filename) (match_ re_source_deb filename).

(** The command line: the inclusive window of epoch seconds. *)
Record Args : Type := MkArgs { start : Z; end_ : Z }.

Section Ingest.

Variable tz : Z.
Variable args : Args.

Definition headers : list string := ["timestamp"; "status"; "filename"].

(** [ts < args.start or ts > args.end] *)
Definition outside_window (ts : Z) : bool := (ts <? start args) || (end_ args <? ts).

(** The test on version_major of [read_log_file]: true when the line is
    reported as a weird version and skipped. *)
Definition weird_version (version_major : string) : bool :=
  negb (PyStr.contains "." version_major) || (String.length version_major <? 3)%nat.

(** *** [read_log_file]: the body of the loop, up to the store.
    [Ok None] is a [continue]. *)
Definition log_line (line : string) : result (option hit) :=
  let cols := PyStr.split_ws (PyStr.rstrip line) in
  let data := zip headers (firstn (length headers) cols) in
  ts_str <- getitem data "timestamp";;
  ts <- or_raise ValueError (PyStr.int ts_str);;
  if outside_window ts then Ok None else
  status <- getitem data "status";;
  if negb (String.eqb status "END") then Ok None else
  filename <- getitem data "filename";;
  if PyStr.contains "sha256sum" filename then Ok None else
  if PyStr.startswith "condordebugsyms" filename then Ok None else
  if PyStr.startswith "condor-drone-" filename then Ok None else
  match log_family filename with
  | None => Ok None
  | Some m =>
      version <- group_str 1 m;;
      let version_major := major_of version in
      if weird_version version_major then Ok None else
      let os := get_os filename in
      let arch := get_arch filename in
      date <- Cal.fromtimestamp tz ts;;
      Ok (Some (Hit date version version_major os arch 1))
  end.

Definition read_log_line (data : store) (line : string) : result store :=
  h <- log_line line;;
  Ok (match h with Some h => store_hit data h | None => data end).

(** [read_log_file(log_file, data_out, args)] on the lines of the file. *)
Fixpoint read_log_file (lines : list string) (data : store) : result store :=
  match lines with
  | [] => Ok data
  | line :: lines' => data' <- read_log_line data line;; read_log_file lines' data'
  end.

(** *** [read_native_file]

    The variables the loop carries from line to line; [date_warning] is
    unbound until the first message starts. *)
Record nstate : Type := NState {
  ns_date : option datetime;
  ns_in_header : bool;
  ns_date_warning : option bool
}.

Definition nstate_init : nstate := NState None true None.

(** The part of the body after the window test: a line of the body of a
    message dated [date]. *)
Definition body_line (date : datetime) (line : string) : result (option hit) :=
  is_path <-
    (if PyStr.startswith "/" line
     then top <- index (PyStr.split_on "/" line) 1;;
          Ok (existsb (String.eqb top) ["s"; "condor"; "htcondor"])
     else Ok false);;
  if negb is_path then Ok None else
  let l := PyStr.rstrip line in
  found <-
    match or_else (match_ re_rpm l) (match_ re_deb l) with
    | Some m =>
        (* binary packages *)
        version <- group_str 1 m;;
        arch_str <- group_str 2 m;;
        hits <- group_str 3 m;;
        Ok (Some (version, major_of version, "Linux", get_arch arch_str, hits))
    | None =>
    match or_else (match_ re_src_rpm l) (match_ re_src_deb l) with
    | Some m =>
        (* source packages *)
        version <- group_str 1 m;;
        hits <- group_str 3 m;;
        Ok (Some (version, major_of version, "Linux", "All", hits))
    | None =>
    match or_else (match_ re_tarball l) (match_ re_src_tarball l) with
    | Some m =>
        (* tarballs *)
        filename <- group_str 1 m;;
        hits <- group_str 2 m;;
        if PyStr.contains "sha256sum" filename then Ok None else
        match tarball_family filename with
        | None => Ok None
        | Some m' =>
            version <- group_str 1 m';;
            Ok (Some (version, major_of version, get_os filename, get_arch filename, hits))
        end
    | None => Ok None
    end end end;;
  match found with
  | None => Ok None
  | Some (version, version_major, os, arch, hits) =>
      w <- or_raise ValueError (PyStr.int hits);;
      Ok (Some (Hit date version version_major os arch w))
  end.

(** The body of the loop: the next values of the loop variables and what
    the line adds to the store. *)
Definition native_line (st : nstate) (line : string) : result (nstate * option hit) :=
  if (5 <=? String.length line)%nat && String.eqb (PyStr.take 5 line) "From "
  then Ok (NState None true (Some false), None)
  else if PyStr.contains "From " line
  then Ok (st, None)
  else if (5 <=? String.length line)%nat && String.eqb (PyStr.take 5 line) "Date:"
  then
    field <- index (PyStr.split_on ":" line) 1;;
    let date :=
      match Cal.strptime (PyStr.strip field) with
      | Some (y, m, d, _) => Some (Datetime y m d)
      | None => ns_date st                         (* except ValueError *)
      end in
    match date with
    | None => Raise AttributeError                 (* date.year on None *)
    | Some d => Ok (NState (Some (Datetime (year d) (month d) (day d)))
                           (ns_in_header st) (ns_date_warning st), None)
    end
  else if ns_in_header st && String.eqb (PyStr.strip line) ""
  then Ok (NState (ns_date st) false (ns_date_warning st), None)
  else if ns_in_header st
  then Ok (st, None)
  else
    match ns_date st with
    | None => Raise AttributeError                 (* date.timestamp() on None *)
    | Some date =>
        if outside_window (Cal.timestamp tz date)
        then match ns_date_warning st with
             | None => Raise UnboundLocalError
             | Some _ => Ok (NState (ns_date st) (ns_in_header st) (Some true), None)
             end
        else h <- body_line date line;; Ok (st, h)
    end.

Definition read_native_line (s : nstate * store) (line : string) : result (nstate * store) :=
  r <- native_line (fst s) line;;
  Ok (fst r, match snd r with Some h => store_hit (snd s) h | None => snd s end).

Fixpoint read_native_lines (lines : list string) (s : nstate * store) : result (nstate * store) :=
  match lines with
  | [] => Ok s
  | line :: lines' => s' <- read_native_line s line;; read_native_lines lines' s'
  end.

(** [read_native_file(native_file, args)] on the lines of the mailbox. *)
Definition read_native_file (lines : list string) : result store :=
  s <- read_native_lines lines (nstate_init, ∅);;
  Ok (snd s).

End Ingest.

(** ** The key index: [get_keys] *)

(** Insertion sort, standing for [list.sort]: stable, with [le] the order
    "not greater than". *)
Fixpoint insert_by {A} (le : A -> A -> bool) (x : A) (l : list A) : list A :=
  match l with
  | [] => [x]
  | y :: l' => if le x y then x :: l else y :: insert_by le x l'
  end.

Definition sort_by {A} (le : A -> A -> bool) (l : list A) : list A :=
  fold_right (insert_by le) [] l.

(** [a <= b] on strings, by code points. *)
Definition str_le (a b : string) : bool :=
  match String.compare a b with Gt => false | _ => true end.

(** [a <= b] on lists of integers. *)
Fixpoint ints_le (a b : list Z) : bool :=
  match a, b with
  | [], _ => true
  | _ :: _, [] => false
  | x :: a', y :: b' => (x <? y) || ((x =? y) && ints_le a' b')
  end.

(** [a <= b] on days. *)
Definition date_le (a b : datetime) : bool :=
  ints_le [year a; month a; day a] [year b; month b; day b].

(** [f(x) for x in l] where [f] may raise. *)
Fixpoint map_result {A B} (f : A -> result B) (l : list A) : result (list B) :=
  match l with
  | [] => Ok []
  | x :: l' => y <- f x;; ys <- map_result f l';; Ok (y :: ys)
  end.

(** The sort key [list(map(int, v.split(".")))]. *)
Definition version_key (v : string) : result (list Z) :=
  map_result (fun c => or_raise ValueError (PyStr.int c)) (PyStr.split_on "." v).

(** [l.sort(key=lambda v: list(map(int, v.split("."))))] *)
Definition sort_versions (l : list string) : result (list string) :=
  keyed <- map_result (fun v => k <- version_key v;; Ok (k, v)) l;;
  Ok (map snd (sort_by (fun a b => ints_le (fst a) (fst b)) keyed)).

(** The keys seen in one dimension on any day. The order in which Python
    lists a [set] is not specified: it is taken here to be the order of
    [elements]; it only decides the place of keys whose sort keys are
    equal. *)
Definition dim_keys (data : store) (dim : string) : gset string :=
  ⋃ (map (fun p => dom (default ∅ (snd p !! dim))) (map_to_list data)).

Definition get_keys (data : store) : result (gmap string (list string)) :=
  versions_major <- sort_versions (elements (dim_keys data "version_major"));;
  versions <- sort_versions (elements (dim_keys data "version"));;
  let oss := sort_by str_le (elements (dim_keys data "os")) in
  let osarchs := sort_by str_le (elements (dim_keys data "osarch")) in
  Ok (<["version_major" := versions_major]>
      (<["version" := versions]>
      (<["os" := oss]>
      (<["osarch" := osarchs]> ∅)))).

(** ** The report: [write_csvs] *)

(** A row of a table: the day, one cell per key, and the total. *)
Record row : Type := Row { r_date : datetime; r_cells : list Z; r_total : Z }.

(** A CSV file: its header and the rows written so far. *)
Record table : Type := Table { t_header : list string; t_rows : list row }.

(** What [write_csvs] carries through its loop: [data["cum"]], the files
    and [total_total]. The key ["cum"] is no day, so the running totals
    never meet the cells of a day. *)
Record wstate : Type := WState {
  w_cum : bins;
  w_files : gmap string table;
  w_total_total : Z
}.

Definition fs_names : list string :=
  ["version_major"; "version"; "os"; "osarch";
   "cum_version_major"; "cum_version"; "cum_os"; "cum_osarch"].

(** [s.lstrip(chars)] *)
Fixpoint lstrip_chars (chars : string) (s : string) : string :=
  match s with
  | EmptyString => EmptyString
  | String c s' =>
      if existsb (Ascii.eqb c) (list_ascii_of_string chars) then lstrip_chars chars s' else s
  end.

Definition sumZ (l : list Z) : Z := fold_right Z.add 0 l.

Definition cum_cell (cum : bins) (keyname key : string) : Z :=
  default 0 (default ∅ (cum !! keyname) !! key).

(** [data["cum"][keyname][key] += v] *)
Definition cum_add (cum : bins) (keyname key : string) (v : Z) : bins :=
  let by_key := default ∅ (cum !! keyname) in
  <[keyname := <[key := default 0 (by_key !! key) + v]> by_key]> cum.

Definition lookup_keys (keys : gmap string (list string)) (name : string) : result (list string) :=
  or_raise (KeyError name) (keys !! name).

Definition write_line (keyname : string) (r : row) (files : gmap string table) : gmap string table :=
  match files !! keyname with
  | Some t => <[keyname := Table (t_header t) (t_rows t ++ [r])]> files
  | None => files
  end.

(** The header lines. *)
Definition write_headers (keys : gmap string (list string)) : result (gmap string table) :=
  fold_left
    (fun acc keyname =>
       files <- acc;;
       cols <- lookup_keys keys (lstrip_chars "cum_" keyname);;
       Ok (<[keyname := Table ("Date" :: cols ++ ["Total"]) []]> files))
    fs_names (Ok ∅).

Section Report.

Variable tz : Z.
Variable args : Args.
Variable data : store.
Variable keys : gmap string (list string).

(** The body of the inner loop: the line of one day in one file. *)
Definition write_row (date : datetime) (st : wstate) (keyname : string) : result wstate :=
  r <-
    (if PyStr.startswith "cum_" keyname
     then
       let dim := lstrip_chars "cum_" keyname in
       cols <- lookup_keys keys dim;;
       let cum := fold_left (fun c key => cum_add c keyname key (cell data date dim key))
                            cols (w_cum st) in
       let cells := map (cum_cell cum keyname) cols in
       Ok (cum, Row date cells (sumZ cells))
     else
       cols <- lookup_keys keys keyname;;
       let cells := map (cell data date keyname) cols in
       Ok (w_cum st, Row date cells (sumZ cells)));;
  let '(cum, line) := r in
  Ok (WState cum (write_line keyname line (w_files st))
        (if String.eqb keyname "os" then w_total_total st + r_total line
         else w_total_total st)).

Definition in_window (date : datetime) : bool :=
  (start args <=? Cal.timestamp tz date) && (Cal.timestamp tz date <=? end_ args).

(** The body of the outer loop. *)
Definition write_date (st : wstate) (date : datetime) : result wstate :=
  if negb (in_window date) then Ok st
  else fold_left (fun acc keyname => st' <- acc;; write_row date st' keyname) fs_names (Ok st).

Definition write_dates (dates : list datetime) (st : wstate) : result wstate :=
  fold_left (fun acc date => st' <- acc;; write_date st' date) dates (Ok st).

End Report.

(** [write_csvs(data, args)]: the eight tables and the total of the
    summary. *)
Definition write_csvs (tz : Z) (args : Args) (data : store) : result wstate :=
  let dates := sort_by date_le (map fst (map_to_list data)) in
  keys <- get_keys data;;
  files <- write_headers keys;;
  write_dates tz args data keys dates (WState ∅ files 0).

(** [main]: the mailbox, then every log file, then the report. *)
Definition ingest (tz : Z) (args : Args) (native : list string) (logs : list (list string))
  : result store :=
  data <- read_native_file tz args native;;
  fold_left (fun acc log => d <- acc;; read_log_file tz args log d) logs (Ok data).

Definition main (tz : Z) (args : Args) (native : list string) (logs : list (list string))
  : result wstate :=
  data <- ingest tz args native logs;;
  write_csvs tz args data.

(** ** What a match tells: the language of a pattern *)

Module ReLang.

(** The concatenations of words of [L]. *)
Inductive star_of (L : string -> Prop) : string -> Prop :=
| star_nil : star_of L EmptyString
| star_app (w1 w2 : string) : L w1 -> star_of L w2 -> star_of L (w1 ++ w2).

(** The words a pattern can consume. The anchors consume nothing; their
    condition on the context is left out, so that [lang] contains every
    word some match consumes, and more. *)
Fixpoint lang (ic : bool) (r : regex) (w : string) : Prop :=
  match r with
  | Eps | Bol | Eol => w = EmptyString
  | Set_ neg rs => exists c, w = String c EmptyString /\ set_test ic neg rs c = true
  | Dot => exists c, w = String c EmptyString /\ c <> newline
  | Seq r1 r2 => exists w1 w2, w = w1 ++ w2 /\ lang ic r1 w1 /\ lang ic r2 w2
  | Alt r1 r2 => lang ic r1 w \/ lang ic r2 w
  | Star r1 => star_of (lang ic r1) w
  | Grp _ r1 => lang ic r1 w
  end.

(** The patterns inside the groups numbered [n]. *)
Fixpoint bodies (n : nat) (r : regex) : list regex :=
  match r with
  | Seq r1 r2 | Alt r1 r2 => bodies n r1 ++ bodies n r2
  | Star r1 => bodies n r1
  | Grp i r1 => (if (i =? n)%nat then [r1] else []) ++ bodies n r1
  | _ => []
  end.

(** The numbers of the groups that every match of [r] sets. *)
Fixpoint defined (r : regex) : list nat :=
  match r with
  | Seq r1 r2 => defined r1 ++ defined r2
  | Alt r1 r2 => List.filter (fun n => existsb (Nat.eqb n) (defined r2)) (defined r1)
  | Grp i r1 => i :: defined r1
  | _ => []
  end.

(** [st'] can be reached from [st] by matching [r]: a word of [r] was
    consumed; every group of [st'] was there before or holds a word of
    one of the groups of [r]; the groups that were set, and those every
    match of [r] sets, are set. *)
Definition reach (ic : bool) (r : regex) (st st' : mstate) : Prop :=
  exists w,
    m_rest st = w ++ m_rest st' /\
    m_pos st' = (m_pos st + String.length w)%nat /\
    lang ic r w /\
    (forall n s, assoc n (m_groups st') = Some s ->
       assoc n (m_groups st) = Some s \/ exists b, In b (bodies n r) /\ lang ic b s) /\
    (forall n, is_Some (assoc n (m_groups st)) \/ In n (defined r) ->
       is_Some (assoc n (m_groups st'))).

Definition all_digits (s : string) : Prop :=
  Forall (fun c => PyStr.is_digit c = true) (list_ascii_of_string s).

End ReLang.

(** ** Names of the specification *)

(** The two dimensions the classifier knows, their rules as declared, and
    [classify(dimension, token)]. *)
Inductive dimension : Type := OS | Architecture.

Definition rules_of (d : dimension) : list (regex * string) :=
  match d with
  | OS => OS_MAP_rules
  | Architecture => ARCH_MAP_rules
  end.

Definition classify (d : dimension) (token : string) : string :=
  match d with
  | OS => get_os token
  | Architecture => get_arch token
  end.

(** The matcher of a rule: a case-insensitive search. *)
Definition rule_matches (rule : regex * string) (token : string) : bool :=
  match search (compile_ic (fst rule)) token with
  | Some _ => true
  | None => false
  end.

(** The filenames the specification wants skipped. *)
Definition skip_listed (filename : string) : bool :=
  PyStr.contains "sha256sum" filename
  || PyStr.startswith "condordebugsyms" filename
  || PyStr.startswith "condor-drone-" filename.

(** The filename a line of the digest shows to the tarball family, when
    neither package family matches it. *)
Definition tarball_filename (l : string) : option string :=
  match or_else (match_ re_rpm l) (match_ re_deb l),
        or_else (match_ re_src_rpm l) (match_ re_src_deb l) with
  | None, None => m ← or_else (match_ re_tarball l) (match_ re_src_tarball l); group 1 m
  | _, _ => None
  end.

(** The end of a line as [for line in f] yields it. *)
Definition nl : string := String newline EmptyString.

(** A version_major as the specification wants it: at least two
    dot-separated components, each an integer. *)
Definition two_numeric_components (version_major : string) : bool :=
  let parts := PyStr.split_on "." version_major in
  (2 <=? length parts)%nat
  && forallb (fun c => match PyStr.int c with Some _ => true | None => false end) parts.

(** ** Reading the two inputs in turns *)

(** A line of the mailbox or a line of a structured log. *)
Inductive source_line : Type :=
| Native (line : string)
| Log (line : string).

(** The ways to merge the lines of the mailbox and the lines of the logs,
    each input in its own order. *)
Inductive interleaving : list string -> list string -> list source_line -> Prop :=
| il_nil : interleaving [] [] []
| il_native x xs ys zs :
    interleaving xs ys zs -> interleaving (x :: xs) ys (Native x :: zs)
| il_log y xs ys zs :
    interleaving xs ys zs -> interleaving xs (y :: ys) (Log y :: zs).

Section Mixed.

Variable tz : Z.
Variable args : Args.

(** One step of a run that reads both inputs in turns into one store: the
    body of the loop of the input the line comes from. *)
Definition read_mixed_line (s : nstate * store) (l : source_line) : result (nstate * store) :=
  match l with
  | Native line => read_native_line tz args s line
  | Log line => data <- read_log_line tz args (snd s) line;; Ok (fst s, data)
  end.

Fixpoint read_mixed (lines : list source_line) (s : nstate * store) : result (nstate * store) :=
  match lines with
  | [] => Ok s
  | l :: lines' => s' <- read_mixed_line s l;; read_mixed lines' s'
  end.

(** The records a run accepts, in the order it meets them. *)
Definition hit_list (h : option hit) : list hit :=
  match h with Some h => [h] | None => [] end.

Fixpoint native_hits (lines : list string) (st : nstate) : result (nstate * list hit) :=
  match lines with
  | [] => Ok (st, [])
  | line :: lines' =>
      r <- native_line tz args st line;;
      r' <- native_hits lines' (fst r);;
      Ok (fst r', (hit_list (snd r) ++ snd r')%list)
  end.

Fixpoint log_hits (lines : list string) : result (list hit) :=
  match lines with
  | [] => Ok []
  | line :: lines' =>
      h <- log_line tz args line;;
      hs <- log_hits lines';;
      Ok ((hit_list h ++ hs)%list)
  end.

Fixpoint mixed_hits (lines : list source_line) (st : nstate) : result (nstate * list hit) :=
  match lines with
  | [] => Ok (st, [])
  | Native line :: lines' =>
      r <- native_line tz args st line;;
      r' <- mixed_hits lines' (fst r);;
      Ok (fst r', (hit_list (snd r) ++ snd r')%list)
  | Log line :: lines' =>
      h <- log_line tz args line;;
      r' <- mixed_hits lines' st;;
      Ok (fst r', (hit_list h ++ snd r')%list)
  end.

End Mixed.

(** [m[k] = f(m[k])] on a [defaultdict] whose missing values are [d]. *)
Definition upd {K V} `{Countable K} (k : K) (f : V -> V) (d : V) (m : gmap K V) : gmap K V :=
  <[k := f (default d (m !! k))]> m.

(** ** Reading the tables *)

(** The rows written to a file. *)
Definition file_rows (out : wstate) (name : string) : list row :=
  match w_files out !! name with
  | Some t => t_rows t
  | None => []
  end.

(** The four dimensions, as the names of the daily tables. *)
Definition dims : list string := ["version_major"; "version"; "os"; "osarch"].

(** The values of the [j]-th key column, from the first row to the last. *)
Definition column (j : nat) (rows : list row) : list Z :=
  map (fun r => nth j (r_cells r) 0) rows.

(** A list of numbers that never goes down. *)
Fixpoint ascending (l : list Z) : Prop :=
  match l with
  | a :: (b :: _) as l' => a <= b /\ ascending l'
  | _ => True
  end.

(** A list of days, each before the next. *)
Fixpoint dates_ascending (l : list datetime) : Prop :=
  match l with
  | a :: (b :: _) as l' => date_le a b = true /\ a <> b /\ dates_ascending l'
  | _ => True
  end.

(** The row of a day in a daily table. *)
Definition daily_row (data : store) (dim : string) (cols : list string) (date : datetime) : row :=
  Row date (map (cell data date dim) cols) (sumZ (map (cell data date dim) cols)).

(** The rows of a cumulative table for the days [dates], from the running
    totals [acc]. *)
Fixpoint cum_rows (data : store) (dim : string) (cols : list string) (acc : list Z)
    (dates : list datetime) : list row :=
  match dates with
  | [] => []
  | date :: dates' =>
      let acc' := zip_with Z.add acc (map (cell data date dim) cols) in
      Row date acc' (sumZ acc') :: cum_rows data dim cols acc' dates'
  end.

(** ** Names used by the statements and the proofs *)

Import ReLang.

(** A matcher that only succeeds through a state that [r] reaches. *)
Definition sound_at (ic : bool) (m : mstate -> (mstate -> option mstate) -> option mstate)
    (r : regex) : Prop :=
  forall st k res, m st k = Some res -> exists st', reach ic r st st' /\ k st' = Some res.

(** The patterns of the lines of the digest and the number of the group
    that holds the count of hits. *)
Definition digest_patterns : list (pattern * nat) :=
  [(re_rpm, 3%nat); (re_deb, 3%nat); (re_src_rpm, 3%nat); (re_src_deb, 3%nat);
   (re_tarball, 2%nat); (re_src_tarball, 2%nat)].

(** A result that is no exception. *)
Definition is_ok {A} (r : result A) : bool :=
  match r with
  | Ok _ => true
  | Raise _ => false
  end.

(** The weight of an Event. *)
Definition weight (e : event) : Z := snd e.

(** A store whose cells are all 0 or more. *)
Definition nonneg_store (data : store) : Prop :=
  forall date dim key, 0 <= cell data date dim key.

(** The key index: the columns of the four dimensions. *)
Definition the_keys (c_vm c_v c_os c_oa : list string) : gmap string (list string) :=
  <["version_major" := c_vm]> (<["version" := c_v]> (<["os" := c_os]> (<["osarch" := c_oa]> ∅))).

Definition the_columns (c_vm c_v c_os c_oa : list string) : list (string * list string) :=
  [("version_major", c_vm); ("version", c_v); ("os", c_os); ("osarch", c_oa)].

(** All eight files are open. *)
Definition files_open (st : wstate) : Prop :=
  forall name, In name fs_names -> is_Some (w_files st !! name).

(** The name of the cumulative table of a dimension. *)
Definition cum_name (dim : string) : string := "cum_" ++ dim.

(** The cells of a day in a daily table. *)
Definition day_cells (data : store) (dim : string) (cols : list string) (date : datetime)
  : list Z :=
  map (cell data date dim) cols.

(** The running totals of a table after a day. *)
Definition totals_after (data : store) (cum : bins) (dim : string) (cols : list string)
    (date : datetime) : list Z :=
  zip_with Z.add (map (cum_cell cum (cum_name dim)) cols) (map (cell data date dim) cols).

Definition rows_in (files : gmap string table) (name : string) : list row :=
  match files !! name with
  | Some t => t_rows t
  | None => []
  end.

(** A report with headers only. *)
Definition no_rows (out : wstate) : bool :=
  forallb (fun name => match w_files out !! name with
                       | Some t => match t_rows t with [] => true | _ => false end
                       | None => false
                       end) fs_names
  && (w_total_total out =? 0).

(** *** Example inputs *)

Definition example_log_line : string :=
  "1551455077 END condor-8.9.0-462330-Windows-x64.zip extra".

Definition later_log_line : string :=
  "1551455078 END condor-8.9.0-462330-Windows-x64.zip extra".

Definition example_events (date : datetime) : list event :=
  [(date, "version", "8.9.0", 1); (date, "version_major", "8.9", 1);
   (date, "osarch", "Windows/x86-64", 1); (date, "os", "Windows", 1)].

Definition example_from_line : string := "From mirror@example.org Sat Mar  6 02:30:32 2021".
Definition example_date_header : string := "Date: Sat, 06 Mar 2021 02:30:32 -0600 (CST)".
Definition example_body_line : string := "/condor/8.9.0/foo/condor-8.9.0-1.x86_64.rpm (12 hits)".

Definition example_digest_events (date : datetime) : list event :=
  [(date, "version", "8.9.0", 12); (date, "version_major", "8.9", 12);
   (date, "osarch", "Linux/x86-64", 12); (date, "os", "Linux", 12)].

Definition example_mailbox : list string :=
  [example_from_line ++ nl; example_date_header ++ nl; nl; example_body_line ++ nl].

Definition checksum_log_row : string := "1551455077 END condor-8.9.0.tar.gz.sha256sum".
Definition checksum_digest_row : string :=
  "/s/tarball/8.9/condor-8.9.0.tar.gz.sha256sum (1 hit)" ++ nl.

(** The store and the report of the example mailbox and the example log. *)
Definition example_store : store :=
  fold_left accumulate (example_events (Datetime 2019 3 1))
    (fold_left accumulate (example_digest_events (Datetime 2021 3 6)) ∅).

Definition example_report : wstate :=
  match write_csvs 0 (MkArgs 0 2000000000) example_store with
  | Ok out => out
  | Raise _ => WState ∅ ∅ 0
  end.

(** The columns of a line of the structured log:
    [line.rstrip().split()]. *)
Definition log_columns (line : string) : list string := PyStr.split_ws (PyStr.rstrip line).

(** ** The store as a tally of events *)

(** [key in data[date][dim]], without creating anything. *)
Definition has_key (data : store) (date : datetime) (dim key : string) : Prop :=
  is_Some (default ∅ (default ∅ (data !! date) !! dim) !! key).

(** Whether an event lands in the cell [data[date][dim][key]]. *)
Definition event_at (date : datetime) (dim key : string) (e : event) : bool :=
  let '(date', dim', key', _) := e in
  bool_decide (date' = date) && String.eqb dim' dim && String.eqb key' key.

(** The sum of the weights of the events of a cell. *)
Definition tally (es : list event) (date : datetime) (dim key : string) : Z :=
  sumZ (map weight (List.filter (event_at date dim key) es)).

(** The events of a list of records, in order. *)
Definition all_events (hs : list hit) : list event := concat (map events hs).

(** The records [main] accepts: those of the mailbox, then those of each
    log file in turn. *)
Definition ingest_hits (tz : Z) (args : Args) (native : list string) (logs : list (list string))
  : result (list hit) :=
  r <- native_hits tz args native nstate_init;;
  ls <- map_result (log_hits tz args) logs;;
  Ok (snd r ++ concat ls)%list.

(** The total weight of the records of one day. *)
Definition day_weight (hs : list hit) (date : datetime) : Z :=
  sumZ (map h_weight (List.filter (fun h => bool_decide (h_date h = date)) hs)).

(** ** The order of the columns *)

(** The order of two version strings in a header: by their sort keys,
    the integers between the dots. *)
Definition version_le (v1 v2 : string) : bool :=
  match version_key v1, version_key v2 with
  | Ok k1, Ok k2 => ints_le k1 k2
  | _, _ => false
  end.

(** The sort order of the columns of a dimension. *)
Definition column_le (dim : string) : string -> string -> bool :=
  if String.eqb dim "version_major" || String.eqb dim "version" then version_le else str_le.

(** ** The files of the report *)

(** The header line of a file. *)
Definition file_header (out : wstate) (name : string) : option (list string) :=
  t_header <$> (w_files out !! name).

(** The days [write_csvs] writes a line for, in the order of the lines. *)
Definition report_days (tz : Z) (args : Args) (data : store) : list datetime :=
  List.filter (in_window tz args) (sort_by date_le (map fst (map_to_list data))).

(** The key under which a record is counted in a dimension. *)
Definition hit_key (dim : string) (h : hit) : string :=
  if String.eqb dim "version" then h_version h
  else if String.eqb dim "version_major" then h_version_major h
  else if String.eqb dim "osarch" then osarch h
  else h_os h.

(** ** The records the two readers accept *)

(** A record one of the two loops stores: from a line of a structured
    log, or from a line of the mailbox in some state of its loop. *)
Definition accepted (tz : Z) (args : Args) (h : hit) : Prop :=
  (exists line, log_line tz args line = Ok (Some h))
  \/ (exists st line st', native_line tz args st line = Ok (st', Some h)).

(** The labels of [OS_MAP] and of [ARCH_MAP], and the label of a name no
    pattern is found in. *)
Definition os_labels : list string := [WINDOWS; LINUX; MACOS; OTHER; "All"; "Unknown"].
Definition arch_labels : list string := [X86; X86_64; OTHER; "All"; "Unknown"].

(** A text of digits and dots that ends with a digit and has two
    characters or more: what [[\d.]+\d] matches. *)
Fixpoint version_text (v : string) : bool :=
  match v with
  | EmptyString => false
  | String c EmptyString => false
  | String c (String d EmptyString) => (PyStr.is_digit c || Ascii.eqb c ".") && PyStr.is_digit d
  | String c v' => (PyStr.is_digit c || Ascii.eqb c ".") && version_text v'
  end.

(** The patterns whose first group gives the version of a record. *)
Definition version_patterns : list pattern :=
  [re_binary; re_source; re_binary_deb; re_source_deb; re_rpm; re_deb; re_src_rpm; re_src_deb].

(** ** The log files: [get_log_files] *)

(** r"sendfile-v\d+\.\d+" *)
Definition sendfile_re : pattern :=
  compile (seqs [lit "sendfile-v"; plus digit; lit "."; plus digit]).

(** [get_log_files(log_path)] on the names of the entries of the
    directory, in the order [glob] yields them: the names the glob
    pattern "sendfile-v*" selects and the expression matches. *)
Definition get_log_files (names : list string) : list string :=
  List.filter
    (fun name =>
       PyStr.startswith "sendfile-v" name
       && match match_ sendfile_re name with Some _ => true | None => false end)
    names.

(** A name that begins with sendfile-v, a run of digits, a dot and a
    digit. *)
Definition sendfile_name (name : string) : Prop :=
  exists c ds d rest,
    name = "sendfile-v" ++ String c ds ++ "." ++ String d rest
    /\ PyStr.is_digit c = true /\ all_digits ds /\ PyStr.is_digit d = true.

(** ** Letter case *)

(** Two positions of two subjects that differ in the case of their
    letters at most. *)
Definition same_place (st st' : mstate) : Prop :=
  m_pos st = m_pos st' /\ Cal.str_lower (m_rest st) = Cal.str_lower (m_rest st').

(** Two continuations that fail together at such positions. *)
Definition fail_together (k k' : mstate -> option mstate) : Prop :=
  forall st st', same_place st st' -> (k st = None <-> k' st' = None).

(** *** Proof steps *)

Ltac bool_cases :=
  repeat match goal with
  | |- context [(?a <=? ?b)%nat] => destruct (Nat.leb_spec a b)
  | |- context [(?a =? ?b)%nat] => destruct (Nat.eqb_spec a b)
  end; simpl; try reflexivity; try lia.

Ltac decide_names :=
  repeat match goal with
  | |- context [decide (?a = ?b)] =>
      first [ rewrite (decide_True (P := a = b)) by reflexivity
            | rewrite (decide_False (P := a = b)) by discriminate ]
  end.

(** * Properties *)
(** ** The matcher is sound for the language *)

Lemma app_cons_s (x : ascii) (a b : string) : String x a ++ b = String x (a ++ b).
Proof. reflexivity. Qed.

Lemma app_nil_l_s (b : string) : "" ++ b = b.
Proof. reflexivity. Qed.

Lemma app_assoc_s (a b c : string) : (a ++ b) ++ c = a ++ (b ++ c).
Proof.
  induction a as [|x a IH]; [reflexivity|].
  rewrite !app_cons_s. f_equal. exact IH.
Qed.

Lemma app_nil_r_s (a : string) : a ++ "" = a.
Proof.
  induction a as [|x a IH]; [reflexivity|].
  rewrite app_cons_s. f_equal. exact IH.
Qed.

Lemma length_app_s (a b : string) :
  String.length (a ++ b) = (String.length a + String.length b)%nat.
Proof.
  induction a as [|x a IH]; [reflexivity|].
  rewrite app_cons_s. simpl. f_equal. exact IH.
Qed.

Lemma take_app_s (a b : string) : PyStr.take (String.length a) (a ++ b) = a.
Proof.
  induction a as [|x a IH]; [now destruct b|].
  rewrite app_cons_s. simpl. f_equal. exact IH.
Qed.

Lemma reach_between (st st' : mstate) (w : string) :
  m_rest st = w ++ m_rest st' -> m_pos st' = (m_pos st + String.length w)%nat ->
  between st st' = w.
Proof.
  intros Hr Hp. unfold between. rewrite Hr, Hp.
  replace (m_pos st + String.length w - m_pos st)%nat with (String.length w) by lia.
  apply take_app_s.
Qed.

Lemma reach_here ic r st : lang ic r "" -> defined r = [] -> reach ic r st st.
Proof.
  intros HL Hd. exists "". repeat split; simpl; auto.
  rewrite Hd. intros n [H | []]. exact H.
Qed.

Lemma or_else_Some {A} (x y : option A) (z : A) :
  or_else x y = Some z -> x = Some z \/ (x = None /\ y = Some z).
Proof. destruct x; simpl; auto. Qed.

(** Two matches one after the other. *)
Lemma reach_chain ic r1 r2 r st st1 st2 :
  reach ic r1 st st1 -> reach ic r2 st1 st2 ->
  (forall w1 w2, lang ic r1 w1 -> lang ic r2 w2 -> lang ic r (w1 ++ w2)) ->
  (forall n b, In b (bodies n r1) \/ In b (bodies n r2) -> In b (bodies n r)) ->
  (forall n, In n (defined r) -> In n (defined r1) \/ In n (defined r2)) ->
  reach ic r st st2.
Proof.
  intros (w1 & Hr1 & Hp1 & HL1 & Hg1 & Hd1) (w2 & Hr2 & Hp2 & HL2 & Hg2 & Hd2) HL Hb Hd.
  exists (w1 ++ w2). repeat split.
  - rewrite Hr1, Hr2. symmetry. apply app_assoc_s.
  - rewrite Hp2, Hp1, length_app_s. lia.
  - auto.
  - intros n s Hs. destruct (Hg2 n s Hs) as [H1 | (b & Hin & Hlb)].
    + destruct (Hg1 n s H1) as [H0 | (b & Hin & Hlb)]; [now left|].
      right. exists b. split; [apply Hb; now left | exact Hlb].
    + right. exists b. split; [apply Hb; now right | exact Hlb].
  - intros n [H | H].
    + apply Hd2. left. apply Hd1. now left.
    + destruct (Hd n H) as [H1 | H2].
      * apply Hd2. left. apply Hd1. now right.
      * apply Hd2. now right.
Qed.

(** A match of one side of an alternative. *)
Lemma reach_alt ic r1 r st st1 :
  reach ic r1 st st1 ->
  (forall w, lang ic r1 w -> lang ic r w) ->
  (forall n b, In b (bodies n r1) -> In b (bodies n r)) ->
  (forall n, In n (defined r) -> In n (defined r1)) ->
  reach ic r st st1.
Proof.
  intros (w & Hr & Hp & HL & Hg & Hd) HL' Hb' Hd'.
  exists w. repeat split; auto.
  - intros n s Hs. destruct (Hg n s Hs) as [|(b & Hb & Hlb)]; [now left|].
    right. exists b. split; auto.
  - intros n [H | H]; apply Hd; auto.
Qed.

Section Sound.

Variable ic : bool.


Lemma star_loop_sound r m :
  sound_at ic m r -> forall fuel, sound_at ic (fun st k => star_loop m k fuel st) (Star r).
Proof.
  intros Hm fuel. induction fuel as [|fuel IH]; intros st k res H; simpl in H.
  - exists st. split; [apply reach_here; constructor | exact H].
  - apply or_else_Some in H. destruct H as [H | [_ H]].
    + apply Hm in H. destruct H as (st1 & Hreach & Hk).
      destruct (m_pos st <? m_pos st1)%nat; [|discriminate].
      apply IH in Hk. destruct Hk as (st2 & Hreach2 & Hk2).
      exists st2. split; [|exact Hk2].
      destruct Hreach as (w1 & Hr1 & Hp1 & HL1 & Hg1 & Hd1).
      destruct Hreach2 as (w2 & Hr2 & Hp2 & HL2 & Hg2 & Hd2).
      exists (w1 ++ w2). repeat split.
      * rewrite Hr1, Hr2. symmetry. apply app_assoc_s.
      * rewrite Hp2, Hp1, length_app_s. lia.
      * simpl. now constructor.
      * intros n s Hs. destruct (Hg2 n s Hs) as [H1 | H1]; [|now right].
        destruct (Hg1 n s H1) as [H0 | H0]; [now left | now right].
      * intros n [H | []]. apply Hd2. left. apply Hd1. now left.
    + exists st. split; [apply reach_here; constructor | exact H].
Qed.

Lemma rmatch_sound r : sound_at ic (rmatch ic r) r.
Proof.
  induction r as [| neg rs | | | | r1 IH1 r2 IH2 | r1 IH1 r2 IH2 | r1 IH1 | n r1 IH1];
    intros st k res H; simpl in H.
  - exists st. split; [now apply reach_here | exact H].
  - destruct (m_rest st) as [|c s'] eqn:Hrest; [discriminate|].
    destruct (set_test ic neg rs c) eqn:Hc; [|discriminate].
    exists (advance st s'). split; [|exact H].
    exists (String c ""). simpl. repeat split; auto; [lia | now exists c | now intros n [|[]]].
  - destruct (m_rest st) as [|c s'] eqn:Hrest; [discriminate|].
    destruct (Ascii.eqb c newline) eqn:Hc; [discriminate|].
    exists (advance st s'). split; [|exact H].
    exists (String c ""). simpl. repeat split; auto; [lia | | now intros n [|[]]].
    exists c. split; [reflexivity|]. now apply Ascii.eqb_neq.
  - destruct (m_pos st =? 0)%nat; [|discriminate].
    exists st. split; [now apply reach_here | exact H].
  - exists st. split; [now apply reach_here |].
    destruct (m_rest st) as [|c [|]]; try discriminate; [exact H|].
    destruct (Ascii.eqb c newline); [exact H | discriminate].
  - apply IH1 in H. destruct H as (st1 & Hr1 & H). apply IH2 in H. destruct H as (st2 & Hr2 & H).
    exists st2. split; [|exact H].
    eapply reach_chain; eauto.
    + intros w1 w2 H1 H2. simpl. eauto.
    + intros n b Hb. simpl. apply in_or_app. exact Hb.
    + intros n Hn. simpl in Hn. apply in_app_or in Hn. exact Hn.
  - apply or_else_Some in H. destruct H as [H | [_ H]].
    + apply IH1 in H. destruct H as (st1 & Hr1 & H).
      exists st1. split; [|exact H]. eapply reach_alt; eauto.
      * intros w Hw. now left.
      * intros n b Hb. simpl. apply in_or_app. now left.
      * intros n Hn. simpl in Hn. apply filter_In in Hn. tauto.
    + apply IH2 in H. destruct H as (st1 & Hr1 & H).
      exists st1. split; [|exact H]. eapply reach_alt; eauto.
      * intros w Hw. now right.
      * intros n b Hb. simpl. apply in_or_app. now right.
      * intros n Hn. simpl in Hn. apply filter_In in Hn. destruct Hn as [_ Hn].
        apply existsb_exists in Hn. destruct Hn as (x & Hx & Hnx).
        apply Nat.eqb_eq in Hnx. now subst.
  - exact (star_loop_sound r1 (rmatch ic r1) IH1 (S (String.length (m_rest st))) st k res H).
  - apply IH1 in H. destruct H as (st1 & (w & Hr & Hp & HL & Hg & Hd) & H).
    exists (set_group n st st1). split; [|exact H].
    exists w. simpl. repeat split; auto.
    + intros i s Hs. destruct (n =? i)%nat eqn:Hni.
      * injection Hs as <-. right. exists r1. split; [now left|].
        now rewrite (reach_between st st1 w Hr Hp).
      * destruct (Hg i s Hs) as [|(b & Hb & Hlb)]; [now left|].
        right. exists b. split; [exact Hb | exact Hlb].
    + intros i Hi. destruct (n =? i)%nat eqn:Hni; [eauto|].
      apply Hd. destruct Hi as [Hi | [Hi | Hi]]; auto.
      apply Nat.eqb_neq in Hni. contradiction.
Qed.

End Sound.

(** What [p.match(s)] returns: a word of the pattern is a prefix of [s],
    each group holds a word of one of the groups with its number, and the
    groups on every path of the pattern are set. *)
Lemma match_sound p s m :
  match_ p s = Some m ->
  (exists w, s = w ++ m_rest m /\ lang (p_ic p) (p_re p) w) /\
  (forall n g, group n m = Some g ->
     exists b, In b (bodies n (p_re p)) /\ lang (p_ic p) b g) /\
  (forall n, In n (defined (p_re p)) -> is_Some (group n m)).
Proof.
  unfold match_. intros H. apply rmatch_sound in H.
  destruct H as (st' & (w & Hr & Hp & HL & Hg & Hd) & H). injection H as <-.
  split; [exists w; auto|]. split.
  - intros n g Hn. destruct (Hg n g Hn) as [H0 | H1]; [discriminate | exact H1].
  - intros n Hn. apply Hd. now right.
Qed.

Lemma digit_test c : set_test false false [("0", "9")]%char c = PyStr.is_digit c.
Proof.
  unfold set_test, in_ranges, PyStr.is_digit. cbn [existsb andb].
  rewrite xorb_false_l, !orb_false_r. reflexivity.
Qed.

Lemma lang_digit w : lang false digit w -> exists c, w = String c "" /\ PyStr.is_digit c = true.
Proof.
  intros (c & -> & Hc). exists c. split; [reflexivity|]. now rewrite <- digit_test.
Qed.

Lemma all_digits_cons c s : all_digits (String c s) <-> PyStr.is_digit c = true /\ all_digits s.
Proof. unfold all_digits. simpl. split; [intros H; now inversion H | intros []; now constructor]. Qed.

Lemma lang_star_digit w : lang false (Star digit) w -> all_digits w.
Proof.
  simpl. induction 1 as [|w1 w2 H1 H2 IH]; [constructor|].
  apply lang_digit in H1. destruct H1 as (c & -> & Hc).
  rewrite app_cons_s, app_nil_l_s. apply all_digits_cons. auto.
Qed.

Lemma lang_plus_digit w :
  lang false (plus digit) w -> exists c s, w = String c s /\ PyStr.is_digit c = true /\ all_digits s.
Proof.
  intros (w1 & w2 & -> & H1 & H2). apply lang_digit in H1. destruct H1 as (c & -> & Hc).
  exists c, w2. repeat split; auto. now apply lang_star_digit.
Qed.

Lemma digits_nonneg s : forall prev acc w, PyStr.digits prev acc s = Some w -> 0 <= acc -> 0 <= w.
Proof.
  induction s as [|c s IH]; intros prev acc w H Hacc; simpl in H.
  - destruct prev; [injection H as <-; exact Hacc | discriminate].
  - destruct (PyStr.is_digit c) eqn:Hc.
    + apply IH in H; [exact H|].
      unfold PyStr.is_digit in Hc. unfold PyStr.digit_val.
      apply andb_true_iff in Hc. destruct Hc as [Hc _]. apply Nat.leb_le in Hc. lia.
    + destruct (Ascii.eqb c "_"); [|discriminate]. destruct prev; [|discriminate]. eauto.
Qed.

Lemma digits_total s : all_digits s -> forall acc, exists w, PyStr.digits true acc s = Some w.
Proof.
  induction s as [|c s IH]; intros Hs acc; simpl.
  - eauto.
  - apply all_digits_cons in Hs. destruct Hs as [Hc Hs]. rewrite Hc. auto.
Qed.


Lemma digit_not_space c : PyStr.is_digit c = true -> PyStr.is_space c = false.
Proof.
  unfold PyStr.is_digit, PyStr.is_space. intros H.
  apply andb_true_iff in H. destruct H as [H1 H2]. apply Nat.leb_le in H1, H2.
  bool_cases.
Qed.

Lemma rstrip_digits s : all_digits s -> PyStr.rstrip s = s.
Proof.
  induction s as [|c s IH]; intros Hs; [reflexivity|].
  apply all_digits_cons in Hs. destruct Hs as [Hc Hs]. simpl. rewrite (IH Hs).
  destruct s; [now rewrite (digit_not_space c Hc) | reflexivity].
Qed.

(** [int] of a run of digits succeeds and is not negative. *)
Lemma int_digits c s :
  PyStr.is_digit c = true -> all_digits s ->
  exists w, PyStr.int (String c s) = Some w /\ 0 <= w.
Proof.
  intros Hc Hs. unfold PyStr.int, PyStr.strip.
  rewrite rstrip_digits by (apply all_digits_cons; auto).
  simpl. rewrite (digit_not_space c Hc).
  assert (Hd : exists w, PyStr.digits false 0 (String c s) = Some w).
  { simpl. rewrite Hc. now apply digits_total. }
  destruct Hd as (w & Hw). exists w.
  assert (c <> "+"%char /\ c <> "-"%char) as [Hp Hm].
  { split; intros ->; discriminate Hc. }
  split; [|now apply (digits_nonneg _ _ _ _ Hw)].
  rewrite <- Hw.
  destruct c as [[] [] [] [] [] [] [] []]; try reflexivity; congruence.
Qed.

Lemma bind_Ok {A B} (x : result A) (f : A -> result B) (b : B) :
  bind x f = Ok b -> exists a, x = Ok a /\ f a = Ok b.
Proof. destruct x; simpl; [eauto | discriminate]. Qed.

Lemma or_else_match (p1 p2 : pattern) (l : string) (m : mstate) :
  or_else (match_ p1 l) (match_ p2 l) = Some m -> match_ p1 l = Some m \/ match_ p2 l = Some m.
Proof. intros H. apply or_else_Some in H. tauto. Qed.

(** A group on every path of the pattern is a string after a match. *)
Lemma group_str_defined p s m n :
  match_ p s = Some m -> existsb (Nat.eqb n) (defined (p_re p)) = true ->
  exists g, group_str n m = Ok g /\ group n m = Some g.
Proof.
  intros Hm Hn. apply match_sound in Hm. destruct Hm as (_ & _ & Hd).
  apply existsb_exists in Hn. destruct Hn as (x & Hx & Hnx). apply Nat.eqb_eq in Hnx. subst x.
  destruct (Hd n Hx) as (g & Hg). exists g. unfold group_str. now rewrite Hg.
Qed.


Lemma hits_digits p n s m :
  In (p, n) digest_patterns -> match_ p s = Some m ->
  exists c g w, group_str n m = Ok (String c g) /\
    PyStr.is_digit c = true /\ all_digits g /\
    PyStr.int (String c g) = Some w /\ 0 <= w.
Proof.
  intros Hin Hm.
  assert (Hdef : existsb (Nat.eqb n) (defined (p_re p)) = true).
  { simpl in Hin. intuition (try match goal with H : (_, _) = (_, _) |- _ => injection H as <- <- end);
      reflexivity. }
  destruct (group_str_defined p s m n Hm Hdef) as (g & Hgs & Hg).
  apply match_sound in Hm. destruct Hm as (_ & Hb & _).
  destruct (Hb n g Hg) as (b & Hbin & Hlang).
  assert (HL : lang false (plus digit) g).
  { simpl in Hin.
    intuition (try match goal with H : (_, _) = (_, _) |- _ => injection H as <- <- end);
      vm_compute in Hbin; destruct Hbin as [<- | []]; exact Hlang. }
  apply lang_plus_digit in HL. destruct HL as (c & g' & -> & Hc & Hg').
  destruct (int_digits c g' Hc Hg') as (w & Hw & Hpos).
  exists c, g', w. auto.
Qed.

Lemma split_on_cons sep s : exists w ws, PyStr.split_on sep s = w :: ws.
Proof.
  induction s as [|c s (w & ws & IH)]; simpl; [eauto|].
  destruct (Ascii.eqb c sep); [eauto|]. rewrite IH. eauto.
Qed.

Lemma index1_after_sep (sep : ascii) (s : string) :
  PyStr.startswith (String sep "") s = true ->
  exists top, index (PyStr.split_on sep s) 1 = Ok top.
Proof.
  destruct s as [|c s]; simpl; [discriminate|].
  intros H. rewrite andb_true_r in H. apply Ascii.eqb_eq in H. subst c.
  rewrite Ascii.eqb_refl. destruct (split_on_cons sep s) as (w & ws & ->).
  exists w. reflexivity.
Qed.

Lemma tarball_family_version filename m :
  tarball_family filename = Some m -> exists v, group_str 1 m = Ok v.
Proof.
  unfold tarball_family. intros H.
  assert (Hp : exists p, In p [re_binary; re_source; re_binary_deb; re_source_deb] /\
                         match_ p filename = Some m).
  { destruct (_ || _); [exists re_binary; split; [simpl; auto | exact H]|].
    destruct (_ || _); [exists re_source; split; [simpl; auto | exact H]|].
    apply or_else_match in H.
    destruct H; [exists re_binary_deb | exists re_source_deb]; (split; [simpl; auto | assumption]). }
  destruct Hp as (p & Hin & Hm).
  assert (Hdef : existsb (Nat.eqb 1) (defined (p_re p)) = true).
  { simpl in Hin. intuition (subst; reflexivity). }
  destruct (group_str_defined p filename m 1%nat Hm Hdef) as (g & Hg & _). eauto.
Qed.

Lemma log_family_version filename m :
  log_family filename = Some m -> exists v, group_str 1 m = Ok v.
Proof.
  unfold log_family. intros H.
  assert (Hp : exists p, In p [re_binary; re_source; re_binary_deb] /\
                         match_ p filename = Some m).
  { destruct (_ || _); [exists re_binary; split; [simpl; auto | exact H]|].
    destruct (_ || _); [exists re_source; split; [simpl; auto | exact H]|].
    exists re_binary_deb; split; [simpl; auto | exact H]. }
  destruct Hp as (p & Hin & Hm).
  assert (Hdef : existsb (Nat.eqb 1) (defined (p_re p)) = true).
  { simpl in Hin. intuition (subst; reflexivity). }
  destruct (group_str_defined p filename m 1%nat Hm Hdef) as (g & Hg & _). eauto.
Qed.

Lemma package_groups p l m :
  In p [re_rpm; re_deb; re_src_rpm; re_src_deb] -> match_ p l = Some m ->
  exists v1 v2 c g w,
    group_str 1 m = Ok v1 /\ group_str 2 m = Ok v2 /\ group_str 3 m = Ok (String c g) /\
    PyStr.is_digit c = true /\ all_digits g /\ PyStr.int (String c g) = Some w /\ 0 <= w.
Proof.
  intros Hin Hm.
  assert (Hin' : In (p, 3%nat) digest_patterns).
  { simpl in Hin |- *. intuition (subst; auto). }
  destruct (hits_digits p 3%nat l m Hin' Hm) as (c & g & w & Hg & Hc & Hgd & Hw & Hpos).
  assert (H1 : existsb (Nat.eqb 1) (defined (p_re p)) = true).
  { simpl in Hin. intuition (subst; reflexivity). }
  assert (H2 : existsb (Nat.eqb 2) (defined (p_re p)) = true).
  { simpl in Hin. intuition (subst; reflexivity). }
  destruct (group_str_defined p l m 1%nat Hm H1) as (v1 & Hv1 & _).
  destruct (group_str_defined p l m 2%nat Hm H2) as (v2 & Hv2 & _).
  exists v1, v2, c, g, w. auto 10.
Qed.

Lemma tarball_groups p l m :
  In p [re_tarball; re_src_tarball] -> match_ p l = Some m ->
  exists v1 c g w,
    group_str 1 m = Ok v1 /\ group 1 m = Some v1 /\ group_str 2 m = Ok (String c g) /\
    PyStr.is_digit c = true /\ all_digits g /\ PyStr.int (String c g) = Some w /\ 0 <= w.
Proof.
  intros Hin Hm.
  assert (Hin' : In (p, 2%nat) digest_patterns).
  { simpl in Hin |- *. intuition (subst; auto 10). }
  destruct (hits_digits p 2%nat l m Hin' Hm) as (c & g & w & Hg & Hc & Hgd & Hw & Hpos).
  assert (H1 : existsb (Nat.eqb 1) (defined (p_re p)) = true).
  { simpl in Hin. intuition (subst; reflexivity). }
  destruct (group_str_defined p l m 1%nat Hm H1) as (v1 & Hv1 & Hv1').
  exists v1, c, g, w. auto 10.
Qed.

Lemma or_else_match_in (p1 p2 : pattern) (l : string) (m : mstate) (ps : list pattern) :
  or_else (match_ p1 l) (match_ p2 l) = Some m -> In p1 ps -> In p2 ps ->
  exists p, In p ps /\ match_ p l = Some m.
Proof. intros H H1 H2. apply or_else_match in H. destruct H; eauto. Qed.

(** A line of a body is skipped, or stored with the count of hits it
    shows, which is a run of digits: nothing is raised. *)
Lemma body_line_cases date line :
  body_line date line = Ok None \/
  exists version os arch c g w,
    body_line date line = Ok (Some (Hit date version (major_of version) os arch w)) /\
    PyStr.is_digit c = true /\ all_digits g /\
    PyStr.int (String c g) = Some w /\ 0 <= w.
Proof.
  unfold body_line.
  destruct (PyStr.startswith "/" line) eqn:Hslash; [|now left].
  destruct (index1_after_sep "/"%char line Hslash) as (top & ->). simpl bind.
  destruct (negb _); [now left|].
  set (l := PyStr.rstrip line).
  destruct (or_else (match_ re_rpm l) (match_ re_deb l)) as [m|] eqn:E1.
  { apply (or_else_match_in _ _ _ _ [re_rpm; re_deb; re_src_rpm; re_src_deb]) in E1;
      [|simpl; auto..].
    destruct E1 as (p & Hin & Hm).
    destruct (package_groups p l m Hin Hm) as (v1 & v2 & c & g & w & -> & -> & -> & Hc & Hg & Hw & Hpos).
    simpl bind. rewrite Hw. simpl. right. exists v1, "Linux", (get_arch v2), c, g, w. auto. }
  destruct (or_else (match_ re_src_rpm l) (match_ re_src_deb l)) as [m|] eqn:E2.
  { apply (or_else_match_in _ _ _ _ [re_rpm; re_deb; re_src_rpm; re_src_deb]) in E2;
      [|simpl; auto..].
    destruct E2 as (p & Hin & Hm).
    destruct (package_groups p l m Hin Hm) as (v1 & v2 & c & g & w & -> & _ & -> & Hc & Hg & Hw & Hpos).
    simpl bind. rewrite Hw. simpl. right. exists v1, "Linux", "All", c, g, w. auto. }
  destruct (or_else (match_ re_tarball l) (match_ re_src_tarball l)) as [m|] eqn:E3; [|now left].
  apply (or_else_match_in _ _ _ _ [re_tarball; re_src_tarball]) in E3; [|simpl; auto..].
  destruct E3 as (p & Hin & Hm).
  destruct (tarball_groups p l m Hin Hm) as (filename & c & g & w & -> & _ & -> & Hc & Hg & Hw & Hpos).
  simpl bind.
  destruct (PyStr.contains "sha256sum" filename); [now left|].
  destruct (tarball_family filename) as [m'|] eqn:Hfam; [|now left].
  destruct (tarball_family_version filename m' Hfam) as (v & ->). simpl bind.
  rewrite Hw. simpl. right. exists v, (get_os filename), (get_arch filename), c, g, w. auto.
Qed.

(** ** The classifier *)

Lemma OS_MAP_items :
  OS_MAP = map (fun rule => (compile_ic (fst rule), snd rule)) OS_MAP_rules.
Proof. vm_compute. reflexivity. Qed.

Lemma ARCH_MAP_items :
  ARCH_MAP = map (fun rule => (compile_ic (fst rule), snd rule)) ARCH_MAP_rules.
Proof. vm_compute. reflexivity. Qed.

Lemma classify_first_label d token :
  classify d token =
  first_label (map (fun rule => (compile_ic (fst rule), snd rule)) (rules_of d)) token.
Proof.
  destruct d; unfold classify, get_os, get_arch; simpl rules_of;
    [now rewrite OS_MAP_items | now rewrite ARCH_MAP_items].
Qed.

Lemma rule_matches_search rule token :
  rule_matches rule token = false <-> search (compile_ic (fst rule)) token = None.
Proof. unfold rule_matches. destruct (search _ _); split; congruence. Qed.

(** The first pattern that is found decides. *)
Lemma first_label_first pre re label post token :
  (forall r, In r pre -> search (fst r) token = None) ->
  search re token <> None ->
  first_label (pre ++ (re, label) :: post)%list token = label.
Proof.
  induction pre as [|[re' l'] pre IH]; intros Hpre Hre; simpl.
  - destruct (search re token); [reflexivity | contradiction].
  - pose proof (Hpre (re', l') (or_introl eq_refl)) as H0. simpl in H0. rewrite H0.
    apply IH; [|exact Hre].
    intros r Hr. apply Hpre. now right.
Qed.

Lemma first_label_none table token :
  (forall r, In r table -> search (fst r) token = None) ->
  first_label table token = "Unknown".
Proof.
  induction table as [|[re l] table IH]; intros H; simpl; [reflexivity|].
  pose proof (H (re, l) (or_introl eq_refl)) as H0. simpl in H0. rewrite H0.
  apply IH. intros r Hr. apply H. now right.
Qed.

Lemma first_label_cases table token :
  (forall r, In r table -> search (fst r) token = None) \/
  exists pre re label post,
    table = (pre ++ (re, label) :: post)%list /\
    (forall r, In r pre -> search (fst r) token = None) /\
    search re token <> None /\ first_label table token = label.
Proof.
  induction table as [|[re l] table IH]; simpl; [left; tauto|].
  destruct (search re token) eqn:Hs.
  - right. exists [], re, l, table. simpl. repeat split; auto; [tauto | congruence].
  - destruct IH as [IH | (pre & re' & l' & post & -> & Hpre & Hre & Hl)].
    + left. intros r [<- | Hr]; auto.
    + right. exists ((re, l) :: pre), re', l', post. repeat split; auto.
      intros r [<- | Hr]; auto.
Qed.

Lemma labels_known d rule : In rule (rules_of d) -> snd rule <> "Unknown".
Proof.
  intros Hin.
  assert (H : forallb (fun r => negb (String.eqb (snd r) "Unknown")) (rules_of d) = true)
    by (destruct d; vm_compute; reflexivity).
  rewrite forallb_forall in H. specialize (H rule Hin).
  apply negb_true_iff, String.eqb_neq in H. exact H.
Qed.

(** C1. For each dimension and token, [classify] returns the label of the
    first rule, in the order the rules are declared, whose case-insensitive
    search finds its pattern in the token, and "Unknown" exactly when no
    rule matches; on any table, of two rules that both match, the one that
    stands first decides, whichever it is. *)
Theorem classify_first_match (d : dimension) (token : string) :
  (forall pre rule post,
     rules_of d = (pre ++ rule :: post)%list ->
     (forall r, In r pre -> rule_matches r token = false) ->
     rule_matches rule token = true ->
     classify d token = snd rule) /\
  (classify d token = "Unknown" <->
   forall rule, In rule (rules_of d) -> rule_matches rule token = false) /\
  (forall pre a mid b post,
     (forall r, In r pre -> search (fst r) token = None) ->
     search (fst a) token <> None -> search (fst b) token <> None ->
     first_label (pre ++ a :: mid ++ b :: post)%list token = snd a /\
     first_label (pre ++ b :: mid ++ a :: post)%list token = snd b).
Proof.
  set (compiled := map (fun rule => (compile_ic (fst rule), snd rule)) (rules_of d)).
  assert (Hsearch : forall rule, In rule (rules_of d) ->
            (rule_matches rule token = false <->
             search (fst (compile_ic (fst rule), snd rule)) token = None)).
  { intros rule _. apply rule_matches_search. }
  split; [|split].
  - intros pre [re label] post Hrules Hpre Hrule.
    rewrite classify_first_label, Hrules, map_app. simpl.
    apply first_label_first.
    + intros r Hr. apply in_map_iff in Hr. destruct Hr as (r0 & <- & Hr0). simpl.
      apply rule_matches_search. auto.
    + intros H. apply (rule_matches_search (re, label)) in H. congruence.
  - rewrite classify_first_label. fold compiled. split.
    + intros Hu rule Hin.
      destruct (first_label_cases compiled token)
        as [Hnone | (pre & re & label & post & Heq & Hpre & Hre & Hl)].
      * apply Hsearch; [exact Hin|]. apply Hnone. unfold compiled.
        apply in_map_iff. eauto.
      * exfalso. rewrite Hu in Hl. subst label.
        assert (Hin' : In (re, "Unknown") compiled)
          by (rewrite Heq; apply in_or_app; right; now left).
        unfold compiled in Hin'. apply in_map_iff in Hin'.
        destruct Hin' as (r0 & Hr0 & Hr0in). injection Hr0 as _ Hlab.
        exact (labels_known d r0 Hr0in Hlab).
    + intros Hnone. apply first_label_none. intros r Hr. unfold compiled in Hr.
      apply in_map_iff in Hr. destruct Hr as (r0 & <- & Hr0). apply Hsearch; auto.
  - intros pre [ra la] mid [rb lb] post Hpre Ha Hb. simpl in *. split.
    + now apply first_label_first.
    + now apply first_label_first.
Qed.

Lemma classify_first_match_witness :
  classify OS "condor-8.9.0-Windows-x64.zip" = "Windows".
Proof.
  destruct (classify_first_match OS "condor-8.9.0-Windows-x64.zip") as [H _].
  apply (H [(lit "winnt", WINDOWS)] (lit "windows", WINDOWS) (skipn 2 OS_MAP_rules)).
  - reflexivity.
  - intros r [<- | []]. vm_compute. reflexivity.
  - vm_compute. reflexivity.
Defined.

(** ** The worked examples *)


Lemma log_line_example tz args eol :
  eol = "" \/ eol = nl ->
  log_line tz args (example_log_line ++ eol) =
  if outside_window args 1551455077 then Ok None
  else date <- Cal.fromtimestamp tz 1551455077;;
       Ok (Some (Hit date "8.9.0" "8.9" "Windows" "x86-64" 1)).
Proof.
  intros [-> | ->]; unfold log_line;
    generalize (outside_window args) (Cal.fromtimestamp tz); intros o f;
    vm_compute; reflexivity.
Qed.

Lemma timestamp_eq tz y m d :
  Cal.timestamp tz (Datetime y m d) = (Cal.ymd2ord y m d - 719163) * 86400 - tz.
Proof. reflexivity. Qed.

(** The local day of an instant, for a UTC offset of less than a day. *)
Lemma fromtimestamp_example tz :
  -86400 < tz < 86400 ->
  exists date, Cal.fromtimestamp tz 1551455077 = Ok date /\
    Cal.timestamp tz date <= 1551455077 < Cal.timestamp tz date + 86400 /\
    In date [Datetime 2019 2 28; Datetime 2019 3 1; Datetime 2019 3 2].
Proof.
  intros Htz. unfold Cal.fromtimestamp.
  pose proof (Z.div_mod (1551455077 + tz) 86400 ltac:(lia)) as Hdm.
  pose proof (Z.mod_pos_bound (1551455077 + tz) 86400 ltac:(lia)) as Hm.
  remember ((1551455077 + tz) / 86400) as q eqn:Eq. clear Eq.
  remember ((1551455077 + tz) mod 86400) as r eqn:Er. clear Er.
  assert (Hq : q = 17955 \/ q = 17956 \/ q = 17957) by lia.
  destruct Hq as [-> | [-> | ->]].
  - exists (Datetime 2019 2 28). split; [vm_compute; reflexivity|].
    rewrite timestamp_eq. change (Cal.ymd2ord 2019 2 28) with 737118.
    split; [lia | simpl; auto].
  - exists (Datetime 2019 3 1). split; [vm_compute; reflexivity|].
    rewrite timestamp_eq. change (Cal.ymd2ord 2019 3 1) with 737119.
    split; [lia | simpl; auto].
  - exists (Datetime 2019 3 2). split; [vm_compute; reflexivity|].
    rewrite timestamp_eq. change (Cal.ymd2ord 2019 3 2) with 737120.
    split; [lia | simpl; auto].
Qed.


(** C7. The line [1551455077 END condor-8.9.0-462330-Windows-x64.zip extra]
    of a structured log, with or without its end of line, in a window that
    covers 1551455077, is stored as exactly four Events of weight 1:
    version 8.9.0, version_major 8.9, osarch Windows/x86-64 and os Windows,
    on the local day of that second, which is 2019-03-01 in UTC. *)
Theorem log_line_end_to_end (tz : Z) (args : Args) (eol : string) (data : store) :
  eol = "" \/ eol = nl ->
  start args <= 1551455077 <= end_ args ->
  -86400 < tz < 86400 ->
  exists date h,
    Cal.fromtimestamp tz 1551455077 = Ok date /\
    Cal.timestamp tz date <= 1551455077 < Cal.timestamp tz date + 86400 /\
    (tz = 0 -> date = Datetime 2019 3 1) /\
    log_line tz args (example_log_line ++ eol) = Ok (Some h) /\
    events h = example_events date /\
    read_log_file tz args [example_log_line ++ eol] data
      = Ok (fold_left accumulate (example_events date) data).
Proof.
  intros Heol Hwin Htz.
  destruct (fromtimestamp_example tz Htz) as (date & Hdate & Hts & Hin).
  exists date, (Hit date "8.9.0" "8.9" "Windows" "x86-64" 1).
  assert (Hline : log_line tz args (example_log_line ++ eol)
                  = Ok (Some (Hit date "8.9.0" "8.9" "Windows" "x86-64" 1))).
  { rewrite (log_line_example tz args eol Heol). unfold outside_window.
    replace (1551455077 <? start args) with false by (symmetry; apply Z.ltb_ge; lia).
    replace (end_ args <? 1551455077) with false by (symmetry; apply Z.ltb_ge; lia).
    simpl. rewrite Hdate. reflexivity. }
  repeat split; auto; try lia.
  - intros ->. vm_compute in Hdate. now injection Hdate as <-.
  - unfold read_log_file, read_log_line. rewrite Hline. reflexivity.
Qed.

Lemma log_line_end_to_end_witness :
  exists date h,
    Cal.fromtimestamp 0 1551455077 = Ok date /\
    Cal.timestamp 0 date <= 1551455077 < Cal.timestamp 0 date + 86400 /\
    (0 = 0 -> date = Datetime 2019 3 1) /\
    log_line 0 (MkArgs 1551400000 1551500000) (example_log_line ++ nl) = Ok (Some h) /\
    events h = example_events date /\
    read_log_file 0 (MkArgs 1551400000 1551500000) [example_log_line ++ nl] ∅
      = Ok (fold_left accumulate (example_events date) ∅).
Proof.
  apply (log_line_end_to_end 0 (MkArgs 1551400000 1551500000) nl ∅).
  - right. reflexivity.
  - simpl. lia.
  - lia.
Defined.

Lemma native_line_from tz args st :
  native_line tz args st (example_from_line ++ nl) = Ok (NState None true (Some false), None).
Proof. reflexivity. Qed.

Lemma native_line_date tz args st :
  native_line tz args st (example_date_header ++ nl)
  = Ok (NState (Some (Datetime 2021 3 6)) (ns_in_header st) (ns_date_warning st), None).
Proof. destruct st as [d h w]. vm_compute. reflexivity. Qed.

Lemma native_line_blank tz args d w :
  native_line tz args (NState d true w) nl = Ok (NState d false w, None).
Proof. reflexivity. Qed.

Lemma native_line_body tz args date w :
  outside_window args (Cal.timestamp tz date) = false ->
  native_line tz args (NState (Some date) false w) (example_body_line ++ nl)
  = Ok (NState (Some date) false w, Some (Hit date "8.9.0" "8.9" "Linux" "x86-64" 12)).
Proof.
  intros Hwin. unfold native_line.
  change ((5 <=? String.length (example_body_line ++ nl))%nat
          && (PyStr.take 5 (example_body_line ++ nl) =? "From ")%string) with false.
  change (PyStr.contains "From " (example_body_line ++ nl)) with false.
  change ((5 <=? String.length (example_body_line ++ nl))%nat
          && (PyStr.take 5 (example_body_line ++ nl) =? "Date:")%string) with false.
  cbv iota. simpl ns_in_header. simpl ns_date. cbv iota. simpl andb. cbv iota.
  rewrite Hwin.
  replace (body_line date (example_body_line ++ nl))
    with (Ok (Some (Hit date "8.9.0" "8.9" "Linux" "x86-64" 12)) : result (option hit));
    [reflexivity|].
  destruct date as [y m d]. vm_compute. reflexivity.
Qed.

Lemma read_native_lines_cons tz args line lines s :
  read_native_lines tz args (line :: lines) s
  = (s' <- read_native_line tz args s line;; read_native_lines tz args lines s').
Proof. reflexivity. Qed.

Lemma read_native_line_eq tz args st data line :
  read_native_line tz args (st, data) line
  = (r <- native_line tz args st line;;
     Ok (fst r, match snd r with Some h => store_hit data h | None => data end)).
Proof. reflexivity. Qed.

(** C8. In a message whose header is
    [Date: Sat, 06 Mar 2021 02:30:32 -0600 (CST)], the line
    [/condor/8.9.0/foo/condor-8.9.0-1.x86_64.rpm (12 hits)] of the body,
    when the window covers the midnight of 2021-03-06, is stored as four
    Events of weight 12 on 2021-03-06: version 8.9.0, version_major 8.9,
    os Linux, and architecture x86-64 in the key Linux/x86-64. *)
Theorem digest_line_end_to_end (tz : Z) (args : Args) (st : nstate) (data : store) :
  start args <= Cal.timestamp tz (Datetime 2021 3 6) <= end_ args ->
  native_line tz args (NState (Some (Datetime 2021 3 6)) false (Some false))
              (example_body_line ++ nl)
  = Ok (NState (Some (Datetime 2021 3 6)) false (Some false),
        Some (Hit (Datetime 2021 3 6) "8.9.0" "8.9" "Linux" "x86-64" 12)) /\
  events (Hit (Datetime 2021 3 6) "8.9.0" "8.9" "Linux" "x86-64" 12)
  = example_digest_events (Datetime 2021 3 6) /\
  read_native_lines tz args
    [example_from_line ++ nl; example_date_header ++ nl; nl; example_body_line ++ nl]
    (st, data)
  = Ok (NState (Some (Datetime 2021 3 6)) false (Some false),
        fold_left accumulate (example_digest_events (Datetime 2021 3 6)) data).
Proof.
  intros Hwin.
  assert (Hout : outside_window args (Cal.timestamp tz (Datetime 2021 3 6)) = false).
  { unfold outside_window. apply orb_false_iff. split; apply Z.ltb_ge; lia. }
  split; [now apply native_line_body|]. split; [reflexivity|].
  rewrite read_native_lines_cons, read_native_line_eq, native_line_from. cbn [bind fst snd].
  rewrite read_native_lines_cons, read_native_line_eq, native_line_date.
  cbn [bind fst snd ns_in_header ns_date_warning].
  rewrite read_native_lines_cons, read_native_line_eq, native_line_blank. cbn [bind fst snd].
  rewrite read_native_lines_cons, read_native_line_eq, (native_line_body tz args _ _ Hout).
  reflexivity.
Qed.

Lemma digest_line_end_to_end_witness :
  read_native_file 0 (MkArgs 1614000000 1615000000)
    [example_from_line ++ nl; example_date_header ++ nl; nl; example_body_line ++ nl]
  = Ok (fold_left accumulate (example_digest_events (Datetime 2021 3 6)) ∅).
Proof.
  unfold read_native_file.
  destruct (digest_line_end_to_end 0 (MkArgs 1614000000 1615000000) nstate_init ∅)
    as (_ & _ & ->); [|reflexivity].
  vm_compute. split; discriminate.
Defined.

(** ** A header without a usable date *)

(** C4, at the inputs where the code fails. A mailbox whose first [Date:]
    header of a message does not parse, or whose message has no [Date:]
    header and a line in its body, raises [AttributeError], also when an
    earlier message had a date: the run does not complete. *)
Theorem date_header_failure (tz : Z) (args : Args) :
  read_native_file tz args ["From a" ++ nl; "Date: garbage" ++ nl] = Raise AttributeError /\
  read_native_file tz args ["From a" ++ nl; "Subject: x" ++ nl; nl; "/condor/x" ++ nl]
    = Raise AttributeError /\
  read_native_file tz args
    [example_from_line ++ nl; example_date_header ++ nl; nl;
     "From b" ++ nl; "Date: garbage" ++ nl]
    = Raise AttributeError.
Proof. repeat split; vm_compute; reflexivity. Qed.

(** ** A day that is stored and not reported *)


Lemma log_line_later tz args :
  log_line tz args later_log_line =
  if outside_window args 1551455078 then Ok None
  else date <- Cal.fromtimestamp tz 1551455078;;
       Ok (Some (Hit date "8.9.0" "8.9" "Windows" "x86-64" 1)).
Proof.
  unfold log_line. generalize (outside_window args) (Cal.fromtimestamp tz). intros o f.
  vm_compute. reflexivity.
Qed.

(** The local day of a second, and its midnight, for a UTC offset of less
    than a day. *)
Lemma fromtimestamp_day tz ts :
  -86400 < tz < 86400 -> 1551455077 <= ts <= 1551455078 ->
  exists date, Cal.fromtimestamp tz ts = Ok date /\
    Cal.timestamp tz date = ts - (ts + tz) mod 86400 /\
    In date [Datetime 2019 2 28; Datetime 2019 3 1; Datetime 2019 3 2].
Proof.
  intros Htz Hts. unfold Cal.fromtimestamp.
  pose proof (Z.div_mod (ts + tz) 86400 ltac:(lia)) as Hdm.
  pose proof (Z.mod_pos_bound (ts + tz) 86400 ltac:(lia)) as Hm.
  remember ((ts + tz) / 86400) as q eqn:Eq. clear Eq.
  remember ((ts + tz) mod 86400) as r eqn:Er. clear Er.
  assert (Hq : q = 17955 \/ q = 17956 \/ q = 17957) by lia.
  destruct Hq as [-> | [-> | ->]].
  - exists (Datetime 2019 2 28). split; [vm_compute; reflexivity|].
    rewrite timestamp_eq. change (Cal.ymd2ord 2019 2 28) with 737118.
    split; [lia | simpl; auto].
  - exists (Datetime 2019 3 1). split; [vm_compute; reflexivity|].
    rewrite timestamp_eq. change (Cal.ymd2ord 2019 3 1) with 737119.
    split; [lia | simpl; auto].
  - exists (Datetime 2019 3 2). split; [vm_compute; reflexivity|].
    rewrite timestamp_eq. change (Cal.ymd2ord 2019 3 2) with 737120.
    split; [lia | simpl; auto].
Qed.


Lemma no_rows_spec out :
  no_rows out = true ->
  (forall name, In name fs_names -> exists t, w_files out !! name = Some t /\ t_rows t = []) /\
  w_total_total out = 0.
Proof.
  unfold no_rows. intros H. apply andb_true_iff in H. destruct H as [H1 H2].
  split; [|now apply Z.eqb_eq].
  intros name Hname. rewrite forallb_forall in H1. specialize (H1 name Hname).
  destruct (w_files out !! name) as [t|]; [|discriminate].
  exists t. split; [reflexivity|]. destruct (t_rows t); [reflexivity | discriminate].
Qed.

(** The report of a store that holds one record of a day outside the
    window: headers only. *)
Lemma report_without_rows tz args date :
  In date [Datetime 2019 2 28; Datetime 2019 3 1; Datetime 2019 3 2] ->
  in_window tz args date = false ->
  exists out,
    write_csvs tz args (store_hit ∅ (Hit date "8.9.0" "8.9" "Windows" "x86-64" 1)) = Ok out /\
    (forall name, In name fs_names ->
       exists t, w_files out !! name = Some t /\ t_rows t = []) /\
    w_total_total out = 0.
Proof.
  intros Hin Hwin. unfold write_csvs, write_dates, write_date.
  revert Hwin. generalize (in_window tz args). intros iw Hwin.
  simpl in Hin. destruct Hin as [<- | [<- | [<- | []]]].
  all: vm_compute; vm_compute in Hwin; rewrite Hwin; eexists; (split; [reflexivity|]);
    apply no_rows_spec; vm_compute; reflexivity.
Qed.

(** C10. For a UTC offset of less than a day there are a window whose start
    is no local midnight and a line of a structured log whose second lies
    in the window: the line is stored under its local day, one download on
    that day, and the report has no row in any of its eight tables and a
    grand total of 0, because the midnight of that day is before the start
    of the window. *)
Theorem stored_day_not_reported (tz : Z) :
  -86400 < tz < 86400 ->
  exists (args : Args) (line : string) (ts : Z) (h : hit) (out : wstate),
    (start args + tz) mod 86400 <> 0 /\
    start args <= ts <= end_ args /\
    log_line tz args line = Ok (Some h) /\
    Cal.fromtimestamp tz ts = Ok (h_date h) /\
    read_log_file tz args [line] ∅ = Ok (store_hit ∅ h) /\
    cell (store_hit ∅ h) (h_date h) "os" (h_os h) = 1 /\
    Cal.timestamp tz (h_date h) < start args /\
    write_csvs tz args (store_hit ∅ h) = Ok out /\
    (forall name, In name fs_names ->
       exists t, w_files out !! name = Some t /\ t_rows t = []) /\
    w_total_total out = 0.
Proof.
  intros Htz.
  assert (Hcase : exists ts line,
            (ts + tz) mod 86400 <> 0 /\ 1551455077 <= ts <= 1551455078 /\
            forall args, log_line tz args line =
              if outside_window args ts then Ok None
              else date <- Cal.fromtimestamp tz ts;;
                   Ok (Some (Hit date "8.9.0" "8.9" "Windows" "x86-64" 1))).
  { destruct (Z.eq_dec ((1551455077 + tz) mod 86400) 0) as [Hz | Hnz].
    - exists 1551455078, later_log_line. split; [|split; [lia|apply log_line_later]].
      pose proof (Z.div_mod (1551455077 + tz) 86400 ltac:(lia)) as H1.
      pose proof (Z.div_mod (1551455078 + tz) 86400 ltac:(lia)) as H2.
      pose proof (Z.mod_pos_bound (1551455078 + tz) 86400 ltac:(lia)) as H3.
      lia.
    - exists 1551455077, example_log_line. split; [exact Hnz|split; [lia|]].
      intros args. rewrite <- (log_line_example tz args "" (or_introl eq_refl)).
      f_equal. }
  destruct Hcase as (ts & line & Hmid & Hts & Hline).
  destruct (fromtimestamp_day tz ts Htz Hts) as (date & Hdate & Hstamp & Hin).
  pose proof (Z.mod_pos_bound (ts + tz) 86400 ltac:(lia)) as Hm.
  set (args := MkArgs ts ts).
  set (h := Hit date "8.9.0" "8.9" "Windows" "x86-64" 1).
  assert (Hlog : log_line tz args line = Ok (Some h)).
  { rewrite Hline. unfold outside_window. simpl.
    rewrite !Z.ltb_irrefl. simpl. rewrite Hdate. reflexivity. }
  assert (Hwin : in_window tz args date = false).
  { unfold in_window. simpl. apply andb_false_iff. left. apply Z.leb_gt. lia. }
  destruct (report_without_rows tz args date Hin Hwin) as (out & Hout & Hrows & Htotal).
  exists args, line, ts, h, out.
  split; [exact Hmid|]. split; [simpl; lia|]. split; [exact Hlog|]. split; [exact Hdate|].
  split; [unfold read_log_file, read_log_line; rewrite Hlog; reflexivity|].
  split.
  { subst h. simpl in Hin. destruct Hin as [<- | [<- | [<- | []]]]; vm_compute; reflexivity. }
  split; [change (h_date h) with date; rewrite Hstamp; simpl; lia|].
  split; [exact Hout|]. split; assumption.
Qed.

Lemma stored_day_not_reported_witness :
  exists (args : Args) (line : string) (ts : Z) (h : hit) (out : wstate),
    (start args + 0) mod 86400 <> 0 /\
    start args <= ts <= end_ args /\
    log_line 0 args line = Ok (Some h) /\
    Cal.fromtimestamp 0 ts = Ok (h_date h) /\
    read_log_file 0 args [line] ∅ = Ok (store_hit ∅ h) /\
    cell (store_hit ∅ h) (h_date h) "os" (h_os h) = 1 /\
    Cal.timestamp 0 (h_date h) < start args /\
    write_csvs 0 args (store_hit ∅ h) = Ok out /\
    (forall name, In name fs_names ->
       exists t, w_files out !! name = Some t /\ t_rows t = []) /\
    w_total_total out = 0.
Proof. apply (stored_day_not_reported 0). lia. Defined.

(** ** Words of the filename patterns *)

Lemma code_inj a b : PyStr.code a = PyStr.code b -> a = b.
Proof.
  unfold PyStr.code. intros H.
  rewrite <- (ascii_nat_embedding a), <- (ascii_nat_embedding b). now rewrite H.
Qed.

Lemma in_ranges_one lo c : in_ranges [(lo, lo)] c = true -> c = lo.
Proof.
  unfold in_ranges. cbn [existsb]. rewrite orb_false_r. intros H.
  apply andb_true_iff in H. destruct H as [H1 H2]. apply Nat.leb_le in H1, H2.
  apply code_inj. lia.
Qed.

Lemma set_test_plain rs c : set_test false false rs c = in_ranges rs c.
Proof. unfold set_test. cbn [andb]. now rewrite xorb_false_l, orb_false_r. Qed.

Lemma lang_chr c w : lang false (chr c) w -> w = String c "".
Proof.
  intros (c' & -> & H). rewrite set_test_plain in H. now rewrite (in_ranges_one c c' H).
Qed.

Lemma lang_lit s w : lang false (lit s) w -> w = s.
Proof.
  revert w. induction s as [|c s IH]; intros w H; [exact H|].
  destruct s as [|c' s'].
  - now apply lang_chr.
  - change (lit (String c (String c' s'))) with (Seq (chr c) (lit (String c' s'))) in H.
    destruct H as (w1 & w2 & -> & H1 & H2).
    apply lang_chr in H1. apply IH in H2. subst. reflexivity.
Qed.

Lemma lang_opt_lit s w : lang false (opt (lit s)) w -> w = s \/ w = "".
Proof. intros [H | H]; [left; now apply lang_lit | right; exact H]. Qed.

Lemma lang_oneof2 a b w :
  lang false (Set_ false [(a, a); (b, b)]) w -> w = String a "" \/ w = String b "".
Proof.
  intros (c & -> & H). rewrite set_test_plain in H. unfold in_ranges in H.
  cbn [existsb] in H. rewrite orb_false_r in H. apply orb_true_iff in H.
  destruct H as [H | H]; apply andb_true_iff in H; destruct H as [H1 H2];
    apply Nat.leb_le in H1, H2; [left | right]; f_equal; apply code_inj; lia.
Qed.

(** A word of [[\d.]+] begins with a digit or a dot. *)
Lemma lang_plus_verchars w :
  lang false (plus verchars) w ->
  exists c s, w = String c s /\ (PyStr.is_digit c = true \/ c = "."%char).
Proof.
  intros (w1 & w2 & -> & (c & -> & H) & _). exists c, w2. split; [reflexivity|].
  rewrite set_test_plain in H. unfold in_ranges in H. cbn [existsb] in H.
  rewrite orb_false_r in H. apply orb_true_iff in H. destruct H as [H | H].
  - left. exact H.
  - right. apply andb_true_iff in H. destruct H as [H1 H2]. apply Nat.leb_le in H1, H2.
    apply code_inj. lia.
Qed.

Lemma startswith_true p s : PyStr.startswith p s = true -> exists r, s = p ++ r.
Proof.
  revert s. induction p as [|a p IH]; intros s H; simpl in H; [now exists s|].
  destruct s as [|b s]; [discriminate|].
  apply andb_true_iff in H. destruct H as [Hab H]. apply Ascii.eqb_eq in Hab. subst b.
  destruct (IH s H) as (r & ->). now exists r.
Qed.

(** The filename of a tarball line begins like a package, not like the
    debug symbols or the drone. *)
Lemma lang_tarball_name infix w :
  infix = "" \/ infix = "_src" ->
  lang false (tarball_name_re infix) w ->
  PyStr.startswith "condordebugsyms" w = false /\
  PyStr.startswith "condor-drone-" w = false.
Proof.
  intros Hinfix H. unfold tarball_name_re, condor_re in H.
  cbn [seqs] in H.
  destruct H as (w0 & wr & -> & H0 & H).
  destruct H0 as (wh & w0' & -> & Hh & wt & wc & -> & Ht & Hc).
  destruct H as (wi & wr1 & -> & Hi & H).
  destruct H as (ws & wr2 & -> & Hs & H).
  destruct H as (wv & wr3 & -> & Hv & _).
  apply lang_opt_lit in Hh, Ht. apply lang_lit in Hc, Hi.
  apply lang_oneof2 in Hs. apply lang_plus_verchars in Hv.
  destruct Hv as (v & vs & -> & Hv). subst wc wi.
  assert (Hd : v <> "d"%char).
  { intros ->. destruct Hv as [Hv | Hv]; discriminate Hv. }
  destruct Hh as [-> | ->]; [split; reflexivity|].
  destruct Ht as [-> | ->]; [split; reflexivity|].
  destruct Hinfix as [-> | ->]; [|split; reflexivity].
  destruct Hs as [-> | ->]; [|split; reflexivity].
  split; [reflexivity|].
  match goal with |- ?b = false => destruct b eqn:E; [exfalso | reflexivity] end.
  apply startswith_true in E. destruct E as (r & E).
  repeat rewrite ?app_nil_l_s, ?app_cons_s in E.
  injection E as E1 E2. congruence.
Qed.

(** ** The version test *)

(** What an accepted line of a structured log went through. *)
Lemma log_line_accepted tz args line h :
  log_line tz args line = Ok (Some h) ->
  exists ts filename m,
    getitem (zip headers (firstn (length headers) (PyStr.split_ws (PyStr.rstrip line))))
            "filename" = Ok filename /\
    outside_window args ts = false /\
    skip_listed filename = false /\
    log_family filename = Some m /\
    group_str 1 m = Ok (h_version h) /\
    weird_version (major_of (h_version h)) = false /\
    Cal.fromtimestamp tz ts = Ok (h_date h) /\
    h = Hit (h_date h) (h_version h) (major_of (h_version h))
            (get_os filename) (get_arch filename) 1.
Proof.
  unfold log_line. intros H.
  apply bind_Ok in H. destruct H as (ts_str & _ & H).
  apply bind_Ok in H. destruct H as (ts & _ & H).
  destruct (outside_window args ts) eqn:Hwin; [discriminate|].
  apply bind_Ok in H. destruct H as (status & _ & H).
  destruct (negb _); [discriminate|].
  apply bind_Ok in H. destruct H as (filename & Hfile & H).
  destruct (PyStr.contains "sha256sum" filename) eqn:H1; [discriminate|].
  destruct (PyStr.startswith "condordebugsyms" filename) eqn:H2; [discriminate|].
  destruct (PyStr.startswith "condor-drone-" filename) eqn:H3; [discriminate|].
  destruct (log_family filename) as [m|] eqn:Hfam; [|discriminate].
  apply bind_Ok in H. destruct H as (version & Hver & H).
  destruct (weird_version (major_of version)) eqn:Hweird; [discriminate|].
  apply bind_Ok in H. destruct H as (date & Hdate & H).
  injection H as <-. simpl.
  exists ts, filename, m. unfold skip_listed. rewrite H1, H2, H3. auto 10.
Qed.

Lemma contains_cons p c s :
  PyStr.contains p (String c s) = PyStr.startswith p (String c s) || PyStr.contains p s.
Proof. reflexivity. Qed.

Lemma startswith_one a b s :
  PyStr.startswith (String a "") (String b s) = Ascii.eqb a b.
Proof. change (Ascii.eqb a b && true = Ascii.eqb a b). apply andb_true_r. Qed.

Lemma split_on_step sep c s :
  PyStr.split_on sep (String c s) =
  if Ascii.eqb c sep then "" :: PyStr.split_on sep s
  else match PyStr.split_on sep s with
       | w :: ws => String c w :: ws
       | [] => [String c ""]
       end.
Proof. reflexivity. Qed.

(** A string without a dot is the only component of its split. *)
Lemma split_on_one s :
  PyStr.contains "." s = false -> PyStr.split_on "." s = [s].
Proof.
  induction s as [|c s IH]; intros H; [reflexivity|].
  rewrite contains_cons in H. apply orb_false_iff in H. destruct H as [H1 H2].
  rewrite startswith_one in H1. rewrite split_on_step.
  rewrite Ascii.eqb_sym, H1. now rewrite (IH H2).
Qed.

(** The first component of a split holds no separator. *)
Lemma split_on_head s : forall w ws,
  PyStr.split_on "." s = w :: ws -> PyStr.contains "." w = false.
Proof.
  induction s as [|c s IH]; intros w ws Hs.
  - injection Hs as <- _. reflexivity.
  - rewrite split_on_step in Hs. destruct (Ascii.eqb c ".") eqn:Hc.
    + injection Hs as <- _. reflexivity.
    + destruct (PyStr.split_on "." s) as [|w0 ws0] eqn:Hs0.
      * injection Hs as <- _. rewrite contains_cons, startswith_one.
        rewrite Ascii.eqb_sym, Hc. reflexivity.
      * injection Hs as <- _. rewrite contains_cons, startswith_one.
        rewrite Ascii.eqb_sym, Hc. simpl. eapply IH. reflexivity.
Qed.

Lemma split_on_length sep s : (1 <= length (PyStr.split_on sep s))%nat.
Proof. destruct (split_on_cons sep s) as (w & ws & ->). simpl. lia. Qed.

Lemma major_of_one s : PyStr.contains "." s = false -> major_of s = s.
Proof. intros H. unfold major_of. now rewrite (split_on_one s H). Qed.

(** What the version test of the structured log guarantees: an accepted
    record has a version_major, the first two dot-separated components of
    the captured version joined by a dot, with a dot and at least three
    characters, so its version has two components or more. *)
Lemma log_version_guard (tz : Z) (args : Args) (line : string) (h : hit) :
  log_line tz args line = Ok (Some h) ->
  h_version_major h = major_of (h_version h) /\
  PyStr.contains "." (h_version_major h) = true /\
  (3 <= String.length (h_version_major h))%nat /\
  (2 <= length (PyStr.split_on "." (h_version h)))%nat.
Proof.
  intros H. apply log_line_accepted in H.
  destruct H as (ts & filename & m & _ & _ & _ & _ & _ & Hweird & _ & Hh).
  unfold weird_version in Hweird. apply orb_false_iff in Hweird.
  destruct Hweird as [Hdot Hlen]. apply negb_false_iff in Hdot. apply Nat.ltb_ge in Hlen.
  assert (Hmaj : h_version_major h = major_of (h_version h)) by (rewrite Hh; reflexivity).
  rewrite Hmaj. repeat split; auto.
  destruct (PyStr.contains "." (h_version h)) eqn:Hv.
  - destruct (PyStr.split_on "." (h_version h)) as [|w [|w' ws]] eqn:Hs; simpl; try lia.
    + pose proof (split_on_length "." (h_version h)) as Hl. rewrite Hs in Hl. simpl in Hl. lia.
    + exfalso. unfold major_of in Hdot. rewrite Hs in Hdot.
      change (PyStr.contains "." w = true) in Hdot.
      rewrite (split_on_head _ _ _ Hs) in Hdot. discriminate.
  - rewrite (major_of_one _ Hv) in Hdot. congruence.
Qed.

(** C3, at inputs where the code fails. The structured log stores the
    version 10..1 under the version_major "10.", whose second component is
    no integer; the digest, which has no version test, stores the version
    89 under the version_major "89", a single component, and the version
    8..9 under "8."; and with a key such as "10." or "8." in the store the
    report raises [ValueError] when it sorts the keys. *)
Theorem version_check_failure :
  log_line 0 (MkArgs 0 2000000000) "1551455077 END condor-10..1-x.tar.gz"
    = Ok (Some (Hit (Datetime 2019 3 1) "10..1" "10." "Unknown" "Unknown" 1)) /\
  two_numeric_components "10." = false /\
  body_line (Datetime 2021 3 6) ("/condor/x/condor-89-1.x86_64.rpm (12 hits)" ++ nl)
    = Ok (Some (Hit (Datetime 2021 3 6) "89" "89" "Linux" "x86-64" 12)) /\
  two_numeric_components "89" = false /\
  body_line (Datetime 2021 3 6) ("/condor/x/condor-8..9-1.x86_64.rpm (1 hit)" ++ nl)
    = Ok (Some (Hit (Datetime 2021 3 6) "8..9" "8." "Linux" "x86-64" 1)) /\
  two_numeric_components "8." = false /\
  main 0 (MkArgs 0 2000000000) [] [["1551455077 END condor-10..1-x.tar.gz"]]
    = Raise ValueError /\
  main 0 (MkArgs 0 2000000000)
    [example_from_line ++ nl; example_date_header ++ nl; nl;
     "/condor/x/condor-8..9-1.x86_64.rpm (1 hit)" ++ nl] []
    = Raise ValueError.
Proof.
  do 6 (split; [vm_compute; reflexivity|]).
  split; vm_cast_no_check (@eq_refl (result wstate) (Raise ValueError)).
Qed.

(** ** The weights *)


Lemma native_line_hit tz args st line st' h :
  native_line tz args st line = Ok (st', Some h) ->
  exists date, ns_date st = Some date /\ body_line date line = Ok (Some h).
Proof.
  unfold native_line. intros H.
  destruct (_ && _); [discriminate|].
  destruct (PyStr.contains "From " line); [discriminate|].
  destruct (_ && _).
  { apply bind_Ok in H. destruct H as (field & _ & H).
    destruct (match Cal.strptime _ with Some _ => _ | None => _ end); discriminate. }
  destruct (_ && _); [discriminate|].
  destruct (ns_in_header st); [discriminate|].
  destruct (ns_date st) as [date|]; [|discriminate].
  destruct (outside_window _ _).
  { destruct (ns_date_warning st); discriminate. }
  apply bind_Ok in H. destruct H as (h' & Hbody & H). injection H as _ ->.
  exists date. auto.
Qed.




(** ** The skip list *)

(** A line of a structured log whose third column is on the skip list is
    skipped, unless its first column is no integer and the run stops. *)
Lemma log_line_skip_listed tz args line filename :
  nth_error (PyStr.split_ws (PyStr.rstrip line)) 2 = Some filename ->
  skip_listed filename = true ->
  log_line tz args line = Ok None \/ log_line tz args line = Raise ValueError.
Proof.
  intros Hcol Hskip. unfold log_line.
  destruct (PyStr.split_ws (PyStr.rstrip line)) as [|a [|b [|c rest]]]; try discriminate.
  injection Hcol as ->.
  change (getitem (zip headers (firstn (length headers) (a :: b :: filename :: rest))) "timestamp")
    with (Ok a : result string).
  change (getitem (zip headers (firstn (length headers) (a :: b :: filename :: rest))) "status")
    with (Ok b : result string).
  change (getitem (zip headers (firstn (length headers) (a :: b :: filename :: rest))) "filename")
    with (Ok filename : result string).
  cbn [bind]. destruct (PyStr.int a) as [ts|]; [|now right]. cbn [bind or_raise].
  destruct (outside_window args ts); [now left|].
  destruct (negb _); [now left|].
  unfold skip_listed in Hskip.
  destruct (PyStr.contains "sha256sum" filename); [now left|].
  destruct (PyStr.startswith "condordebugsyms" filename); [now left|].
  destruct (PyStr.startswith "condor-drone-" filename); [now left | discriminate].
Qed.

Lemma tarball_filename_match l filename :
  tarball_filename l = Some filename ->
  or_else (match_ re_rpm l) (match_ re_deb l) = None /\
  or_else (match_ re_src_rpm l) (match_ re_src_deb l) = None /\
  exists p m, In p [re_tarball; re_src_tarball] /\ match_ p l = Some m /\
    or_else (match_ re_tarball l) (match_ re_src_tarball l) = Some m /\
    group 1 m = Some filename.
Proof.
  unfold tarball_filename. intros H.
  destruct (or_else (match_ re_rpm l) (match_ re_deb l)); [discriminate|].
  destruct (or_else (match_ re_src_rpm l) (match_ re_src_deb l)); [discriminate|].
  destruct (or_else (match_ re_tarball l) (match_ re_src_tarball l)) as [m|] eqn:E;
    [|discriminate].
  simpl in H. repeat split; auto.
  destruct (or_else_match_in _ _ _ _ [re_tarball; re_src_tarball] E) as (p & Hp & Hm);
    [simpl; auto..|].
  exists p, m. auto.
Qed.

Lemma tarball_filename_prefix l filename :
  tarball_filename l = Some filename ->
  PyStr.startswith "condordebugsyms" filename = false /\
  PyStr.startswith "condor-drone-" filename = false.
Proof.
  intros H. apply tarball_filename_match in H.
  destruct H as (_ & _ & p & m & Hp & Hm & _ & Hg).
  apply match_sound in Hm. destruct Hm as (_ & Hb & _).
  destruct (Hb 1%nat filename Hg) as (b & Hbin & Hlang).
  simpl in Hp. destruct Hp as [<- | [<- | []]].
  - vm_compute in Hbin. destruct Hbin as [<- | []].
    apply (lang_tarball_name "" filename); [now left | exact Hlang].
  - vm_compute in Hbin. destruct Hbin as [<- | []].
    apply (lang_tarball_name "_src" filename); [now right | exact Hlang].
Qed.

(** C9, as the code has it. In a structured log, a line whose filename
    contains sha256sum or begins with condordebugsyms or condor-drone- adds
    nothing to the store. In the digest, the filename that a line shows to
    the tarball family never begins with condordebugsyms or condor-drone-,
    and when it contains sha256sum the line is skipped. (The two package
    families of the digest read the whole line and have no such test.) *)
Theorem skip_list_guard (tz : Z) (args : Args) (log_row digest_row filename : string) :
  skip_listed filename = true ->
  (nth_error (PyStr.split_ws (PyStr.rstrip log_row)) 2 = Some filename ->
   (log_line tz args log_row = Ok None \/ log_line tz args log_row = Raise ValueError) /\
   forall data data', read_log_line tz args data log_row = Ok data' -> data' = data) /\
  (tarball_filename (PyStr.rstrip digest_row) = Some filename ->
   PyStr.startswith "condordebugsyms" filename = false /\
   PyStr.startswith "condor-drone-" filename = false /\
   forall date, body_line date digest_row = Ok None).
Proof.
  intros Hskip. split.
  - intros Hcol.
    pose proof (log_line_skip_listed tz args log_row filename Hcol Hskip) as H.
    split; [exact H|]. intros data data' Hr. unfold read_log_line in Hr.
    destruct H as [H | H]; rewrite H in Hr; [now injection Hr | discriminate].
  - intros Htar. destruct (tarball_filename_prefix _ _ Htar) as [Hd1 Hd2].
    split; [exact Hd1|]. split; [exact Hd2|]. intros date.
    unfold skip_listed in Hskip. rewrite Hd1, Hd2, !orb_false_r in Hskip.
    apply tarball_filename_match in Htar.
    destruct Htar as (E1 & E2 & p & m & Hp & Hm & E3 & Hg).
    unfold body_line.
    destruct (PyStr.startswith "/" digest_row) eqn:Hslash; [|reflexivity].
    destruct (index1_after_sep "/"%char digest_row Hslash) as (top & ->). simpl bind.
    destruct (negb _); [reflexivity|].
    rewrite E1, E2, E3.
    destruct (tarball_groups p _ m Hp Hm) as (f & c & g & w & -> & Hf & -> & _).
    assert (f = filename) by congruence. subst f.
    simpl bind. rewrite Hskip. reflexivity.
Qed.


Lemma skip_list_guard_witness :
  ((log_line 0 (MkArgs 0 2000000000) checksum_log_row = Ok None \/
    log_line 0 (MkArgs 0 2000000000) checksum_log_row = Raise ValueError) /\
   forall data data',
     read_log_line 0 (MkArgs 0 2000000000) data checksum_log_row = Ok data' -> data' = data) /\
  (PyStr.startswith "condordebugsyms" "condor-8.9.0.tar.gz.sha256sum" = false /\
   PyStr.startswith "condor-drone-" "condor-8.9.0.tar.gz.sha256sum" = false /\
   forall date, body_line date checksum_digest_row = Ok None).
Proof.
  destruct (skip_list_guard 0 (MkArgs 0 2000000000) checksum_log_row checksum_digest_row
              "condor-8.9.0.tar.gz.sha256sum") as [Hlog Hdigest].
  - vm_compute. reflexivity.
  - split; [apply Hlog | apply Hdigest]; vm_compute; reflexivity.
Defined.

(** C9 fails as stated: the digest decodes a binary package whose filename
    contains sha256sum, and stores its four Events. *)
Lemma checksum_package_counterexample :
  List.last (PyStr.split_on "/" "/condor/x/condor-8.9.0-1.sha256sum.x86_64.rpm") ""
    = "condor-8.9.0-1.sha256sum.x86_64.rpm" /\
  skip_listed "condor-8.9.0-1.sha256sum.x86_64.rpm" = true /\
  native_line 0 (MkArgs 0 2000000000) (NState (Some (Datetime 2021 3 6)) false (Some false))
    ("/condor/x/condor-8.9.0-1.sha256sum.x86_64.rpm (3 hits)" ++ nl)
  = Ok (NState (Some (Datetime 2021 3 6)) false (Some false),
        Some (Hit (Datetime 2021 3 6) "8.9.0" "8.9" "Linux" "x86-64" 3)).
Proof. repeat split; vm_compute; reflexivity. Qed.

(** A tarball line of the digest with a checksum file, for comparison. *)
Lemma checksum_tarball_skipped :
  tarball_filename "/s/tarball/8.9/condor-8.9.0.tar.gz.sha256sum (1 hit)"
    = Some "condor-8.9.0.tar.gz.sha256sum" /\
  body_line (Datetime 2021 3 6) ("/s/tarball/8.9/condor-8.9.0.tar.gz.sha256sum (1 hit)" ++ nl)
    = Ok None.
Proof. split; vm_compute; reflexivity. Qed.

(** ** The order of the inputs *)

Section Upd.

Context {K V : Type} `{Countable K}.

(** Two updates of a [defaultdict] commute when they touch different keys,
    or when the two changes of the value commute. *)
Lemma upd_commute (k1 k2 : K) (f g : V -> V) (d : V) (m : gmap K V) :
  (k1 = k2 -> forall v, f (g v) = g (f v)) ->
  upd k1 f d (upd k2 g d m) = upd k2 g d (upd k1 f d m).
Proof.
  intros Hfg. unfold upd. destruct (decide (k1 = k2)) as [<- | Hne].
  - rewrite !lookup_insert_eq, !insert_insert_eq. simpl. now rewrite Hfg.
  - rewrite (lookup_insert_ne _ k2 k1) by congruence.
    rewrite (lookup_insert_ne _ k1 k2) by congruence.
    apply insert_insert_ne. congruence.
Qed.

End Upd.

Lemma store_add_upd data date dim key w :
  store_add data date dim key w
  = upd date (upd dim (upd key (fun v => v + w) 0) ∅) ∅ data.
Proof. reflexivity. Qed.

(** Adding to two cells, the same or not, in either order. *)
Lemma store_add_commute data date1 dim1 key1 w1 date2 dim2 key2 w2 :
  store_add (store_add data date1 dim1 key1 w1) date2 dim2 key2 w2
  = store_add (store_add data date2 dim2 key2 w2) date1 dim1 key1 w1.
Proof.
  rewrite !store_add_upd. apply upd_commute. intros _ by_dim.
  apply upd_commute. intros _ by_key. apply upd_commute. intros _ v. lia.
Qed.

Lemma accumulate_commute data e1 e2 :
  accumulate (accumulate data e1) e2 = accumulate (accumulate data e2) e1.
Proof.
  destruct e1 as [[[d1 m1] k1] w1], e2 as [[[d2 m2] k2] w2]. apply store_add_commute.
Qed.

(** A fold of an operation whose steps commute does not depend on the order
    of the list. *)
Lemma fold_left_permutation {A B} (f : A -> B -> A) (l l' : list B) :
  (forall a x y, f (f a x) y = f (f a y) x) ->
  Permutation l l' -> forall a, fold_left f l a = fold_left f l' a.
Proof.
  intros Hf Hp. induction Hp as [| x l l' _ IH | x y l | l l' l'' _ IH1 _ IH2]; intros a; simpl.
  - reflexivity.
  - apply IH.
  - now rewrite Hf.
  - now rewrite IH1.
Qed.

Lemma store_hit_commute data h1 h2 :
  store_hit (store_hit data h1) h2 = store_hit (store_hit data h2) h1.
Proof.
  unfold store_hit. rewrite <- !fold_left_app.
  apply fold_left_permutation; [|apply Permutation_app_comm].
  intros a x y. apply accumulate_commute.
Qed.

Section Order.

Variable tz : Z.
Variable args : Args.

(** The store of a run: what its accepted records add, one after the
    other. *)
Lemma read_native_lines_hits lines : forall st data,
  read_native_lines tz args lines (st, data)
  = (r <- native_hits tz args lines st;; Ok (fst r, fold_left store_hit (snd r) data)).
Proof.
  induction lines as [|line lines IH]; intros st data; simpl; [reflexivity|].
  unfold read_native_line. simpl fst. simpl snd.
  destruct (native_line tz args st line) as [[st1 h]|e]; simpl; [|reflexivity].
  rewrite IH. destruct (native_hits tz args lines st1) as [[st2 hs]|e]; simpl; [|reflexivity].
  destruct h; reflexivity.
Qed.

Lemma read_log_file_hits lines : forall data,
  read_log_file tz args lines data
  = (hs <- log_hits tz args lines;; Ok (fold_left store_hit hs data)).
Proof.
  induction lines as [|line lines IH]; intros data; simpl; [reflexivity|].
  unfold read_log_line.
  destruct (log_line tz args line) as [h|e]; simpl; [|reflexivity].
  rewrite IH. destruct (log_hits tz args lines) as [hs|e]; simpl; [|reflexivity].
  destruct h; reflexivity.
Qed.

Lemma read_mixed_hits lines : forall st data,
  read_mixed tz args lines (st, data)
  = (r <- mixed_hits tz args lines st;; Ok (fst r, fold_left store_hit (snd r) data)).
Proof.
  induction lines as [|[line|line] lines IH]; intros st data; simpl; [reflexivity| |].
  - unfold read_native_line. simpl fst. simpl snd.
    destruct (native_line tz args st line) as [[st1 h]|e]; simpl; [|reflexivity].
    rewrite IH. destruct (mixed_hits tz args lines st1) as [[st2 hs]|e]; simpl; [|reflexivity].
    destruct h; reflexivity.
  - unfold read_log_line.
    destruct (log_line tz args line) as [h|e]; simpl; [|reflexivity].
    rewrite IH. destruct (mixed_hits tz args lines st) as [[st2 hs]|e]; simpl; [|reflexivity].
    destruct h; reflexivity.
Qed.

(** A merged run accepts the records of the two runs, and fails when one
    of them does. *)
Lemma mixed_hits_interleaving native log mixed :
  interleaving native log mixed -> forall st,
  match native_hits tz args native st, log_hits tz args log with
  | Ok (st', hn), Ok hl =>
      exists hz, mixed_hits tz args mixed st = Ok (st', hz) /\ Permutation hz (hn ++ hl)%list
  | _, _ => exists e, mixed_hits tz args mixed st = Raise e
  end.
Proof.
  induction 1 as [| x xs ys zs _ IH | y xs ys zs _ IH]; intros st; simpl.
  - exists []. split; [reflexivity | constructor].
  - destruct (native_line tz args st x) as [[st1 h]|e]; simpl; [|eauto].
    specialize (IH st1).
    destruct (native_hits tz args xs st1) as [[st2 hn]|e]; simpl.
    + destruct (log_hits tz args ys) as [hl|e]; simpl.
      * destruct IH as (hz & -> & Hp). simpl. eexists. split; [reflexivity|].
        rewrite <- app_assoc. now apply Permutation_app_head.
      * destruct IH as (e' & ->). simpl. eauto.
    + destruct IH as (e' & ->). simpl. eauto.
  - specialize (IH st).
    destruct (log_line tz args y) as [h|e]; simpl.
    + destruct (native_hits tz args xs st) as [[st2 hn]|e]; simpl.
      * destruct (log_hits tz args ys) as [hl|e]; simpl.
        -- destruct IH as (hz & -> & Hp). simpl. eexists. split; [reflexivity|].
           rewrite Hp. rewrite !app_assoc. apply Permutation_app_tail.
           apply Permutation_app_comm.
        -- destruct IH as (e' & ->). simpl. eauto.
      * destruct IH as (e' & ->). simpl. eauto.
    + destruct (native_hits tz args xs st) as [[st2 hn]|e']; simpl; eauto.
Qed.

(** C2. Reading the mailbox and then the logs, or the logs and then the
    mailbox, or their lines merged in any way, gives the same store: a run
    in turns completes exactly when the run of the program does, with the
    same store; adding to the cells commutes. *)
Theorem ingestion_order_irrelevant (native log : list string) (mixed : list source_line) :
  interleaving native log mixed ->
  (forall data,
     (d <- read_native_file tz args native;; read_log_file tz args log d) = Ok data <->
     exists st, read_mixed tz args mixed (nstate_init, ∅) = Ok (st, data)) /\
  interleaving native log (map Log log ++ map Native native)%list /\
  (forall data e1 e2,
     accumulate (accumulate data e1) e2 = accumulate (accumulate data e2) e1).
Proof.
  intros Hil. split; [|split].
  - intros data. unfold read_native_file.
    rewrite read_native_lines_hits, read_mixed_hits.
    pose proof (mixed_hits_interleaving native log mixed Hil nstate_init) as H.
    destruct (native_hits tz args native nstate_init) as [[st1 hn]|e]; simpl.
    + rewrite read_log_file_hits.
      destruct (log_hits tz args log) as [hl|e]; simpl.
      * destruct H as (hz & -> & Hp). simpl.
        assert (Heq : fold_left store_hit hz ∅ = fold_left store_hit hl (fold_left store_hit hn ∅)).
        { rewrite <- fold_left_app. apply fold_left_permutation; [|exact Hp].
          intros a x y. apply store_hit_commute. }
        rewrite Heq. split.
        -- intros [= <-]. eauto.
        -- intros (st & [= _ <-]). reflexivity.
      * destruct H as (e' & ->). simpl. split; [discriminate | intros (st & Hst); discriminate].
    + destruct H as (e' & ->). simpl. split; [discriminate | intros (st & Hst); discriminate].
  - clear Hil mixed. induction log as [|y ys IH]; simpl.
    + induction native as [|x xs IHx]; simpl; constructor. exact IHx.
    + constructor. exact IH.
  - intros. apply accumulate_commute.
Qed.

End Order.

Lemma ingestion_order_irrelevant_witness :
  exists st,
    read_mixed 0 (MkArgs 0 2000000000)
      [Native (example_from_line ++ nl); Log (example_log_line ++ nl);
       Native (example_date_header ++ nl); Native nl; Native (example_body_line ++ nl)]
      (nstate_init, ∅)
    = Ok (st, fold_left accumulate (example_events (Datetime 2019 3 1))
                (fold_left accumulate (example_digest_events (Datetime 2021 3 6)) ∅)).
Proof.
  assert (Hil : interleaving
            [example_from_line ++ nl; example_date_header ++ nl; nl; example_body_line ++ nl]
            [example_log_line ++ nl]
            [Native (example_from_line ++ nl); Log (example_log_line ++ nl);
             Native (example_date_header ++ nl); Native nl; Native (example_body_line ++ nl)])
    by repeat constructor.
  destruct (ingestion_order_irrelevant 0 (MkArgs 0 2000000000) _ _ _ Hil) as [H _].
  apply H.
  vm_cast_no_check
    (@eq_refl (result store)
       (Ok (fold_left accumulate (example_events (Datetime 2019 3 1))
              (fold_left accumulate (example_digest_events (Datetime 2021 3 6)) ∅)))).
Defined.

(** ** The cells of the store are sums of weights *)

Lemma cell_store_add data date dim key w date' dim' key' :
  cell (store_add data date dim key w) date' dim' key'
  = cell data date' dim' key'
    + (if decide (date = date' /\ dim = dim' /\ key = key') then w else 0).
Proof.
  unfold cell, store_add.
  destruct (decide (date = date')) as [<- | Hd].
  - rewrite lookup_insert_eq. simpl.
    destruct (decide (dim = dim')) as [<- | Hm].
    + rewrite lookup_insert_eq. simpl.
      destruct (decide (key = key')) as [<- | Hk].
      * rewrite lookup_insert_eq. simpl. rewrite decide_True by auto. reflexivity.
      * rewrite lookup_insert_ne by exact Hk. rewrite decide_False by tauto. lia.
    + rewrite lookup_insert_ne by exact Hm. rewrite decide_False by tauto. lia.
  - rewrite lookup_insert_ne by exact Hd. rewrite decide_False by tauto. lia.
Qed.


Lemma nonneg_empty : nonneg_store ∅.
Proof. intros date dim key. unfold cell. rewrite lookup_empty. simpl. rewrite lookup_empty. simpl. rewrite lookup_empty. simpl. lia. Qed.

Lemma nonneg_store_hit data h :
  nonneg_store data -> 0 <= h_weight h -> nonneg_store (store_hit data h).
Proof.
  intros Hd Hw. unfold store_hit, events. simpl.
  intros date dim key. rewrite !cell_store_add.
  specialize (Hd date dim key).
  repeat match goal with |- context [decide ?P] => destruct (decide P) end; lia.
Qed.

Lemma log_line_weight tz args line h :
  log_line tz args line = Ok (Some h) -> h_weight h = 1.
Proof.
  intros H. apply log_line_accepted in H.
  destruct H as (ts & filename & m & _ & _ & _ & _ & _ & _ & _ & ->). reflexivity.
Qed.

Lemma native_line_weight tz args st line st' h :
  native_line tz args st line = Ok (st', Some h) -> 0 <= h_weight h.
Proof.
  intros H. apply native_line_hit in H. destruct H as (date & _ & H).
  destruct (body_line_cases date line)
    as [Hn | (v & os & arch & c & g & w & Hb & _ & _ & _ & Hpos)]; [congruence|].
  rewrite Hb in H. injection H as <-. exact Hpos.
Qed.

Lemma read_log_file_nonneg tz args lines : forall data data',
  nonneg_store data -> read_log_file tz args lines data = Ok data' -> nonneg_store data'.
Proof.
  induction lines as [|line lines IH]; intros data data' Hd H; simpl in H.
  - now injection H as <-.
  - apply bind_Ok in H. destruct H as (d1 & H1 & H). apply (IH d1 data'); [|exact H].
    unfold read_log_line in H1. apply bind_Ok in H1. destruct H1 as ([h|] & Hh & H1);
      injection H1 as <-; [|exact Hd].
    apply nonneg_store_hit; [exact Hd|]. rewrite (log_line_weight _ _ _ _ Hh). lia.
Qed.

Lemma read_native_lines_nonneg tz args lines : forall s s',
  nonneg_store (snd s) -> read_native_lines tz args lines s = Ok s' -> nonneg_store (snd s').
Proof.
  induction lines as [|line lines IH]; intros s s' Hd H; simpl in H.
  - now injection H as <-.
  - apply bind_Ok in H. destruct H as (s1 & H1 & H). apply (IH s1 s'); [|exact H].
    unfold read_native_line in H1. apply bind_Ok in H1. destruct H1 as ([st1 [h|]] & Hh & H1);
      injection H1 as <-; simpl; [|exact Hd].
    apply nonneg_store_hit; [exact Hd|]. eapply native_line_weight. exact Hh.
Qed.

(** Every cell of the store that the ingestion builds is 0 or more. *)
Lemma ingest_nonneg tz args native logs data :
  ingest tz args native logs = Ok data -> nonneg_store data.
Proof.
  unfold ingest, read_native_file. intros H.
  apply bind_Ok in H. destruct H as (d0 & H0 & H).
  apply bind_Ok in H0. destruct H0 as (s & Hs & H0). injection H0 as <-.
  apply read_native_lines_nonneg in Hs; [|apply nonneg_empty].
  revert H. generalize (snd s) Hs. clear. revert data.
  induction logs as [|log logs IH]; intros data d Hd H; simpl in H.
  - now injection H as <-.
  - destruct (read_log_file tz args log d) as [d1|e] eqn:E.
    + simpl in H. apply (IH data d1); [|exact H]. eapply read_log_file_nonneg; eauto.
    + exfalso. clear - H. simpl in H. induction logs as [|l ls IHl]; simpl in H; [discriminate|auto].
Qed.

(** ** The running totals *)

Lemma cum_cell_add cum kn key w kn' key' :
  cum_cell (cum_add cum kn key w) kn' key'
  = cum_cell cum kn' key' + (if decide (kn = kn' /\ key = key') then w else 0).
Proof.
  unfold cum_cell, cum_add.
  destruct (decide (kn = kn')) as [<- | Hn].
  - rewrite lookup_insert_eq. simpl.
    destruct (decide (key = key')) as [<- | Hk].
    + rewrite lookup_insert_eq. simpl. rewrite decide_True by auto. reflexivity.
    + rewrite lookup_insert_ne by exact Hk. rewrite decide_False by tauto. lia.
  - rewrite lookup_insert_ne by exact Hn. rewrite decide_False by tauto. lia.
Qed.

(** The loop that adds the cells of a day to the running totals of a
    table: each key of the table once. *)
Lemma cum_cell_fold kn (v : string -> Z) (cols : list string) : forall cum kn' key',
  NoDup cols ->
  cum_cell (fold_left (fun c key => cum_add c kn key (v key)) cols cum) kn' key'
  = cum_cell cum kn' key' + (if decide (kn = kn' /\ key' ∈ cols) then v key' else 0).
Proof.
  induction cols as [|k cols IH]; intros cum kn' key' Hnd; simpl.
  - rewrite decide_False; [lia|]. intros [_ H]. inversion H.
  - apply NoDup_cons in Hnd. destruct Hnd as [Hnotin Hnd'].
    rewrite IH by exact Hnd'. rewrite cum_cell_add.
    destruct (decide (kn = kn' /\ k = key')) as [[-> ->] | Hne].
    + rewrite decide_False by tauto. rewrite decide_True; [lia|]. split; [reflexivity|]. left.
    + destruct (decide (kn = kn' /\ key' ∈ cols)) as [[-> Hin] | Hno].
      * rewrite decide_True; [lia|]. split; [reflexivity|]. now right.
      * rewrite decide_False; [lia|]. intros [-> Hin]. apply elem_of_cons in Hin.
        destruct Hin as [-> | Hin]; tauto.
Qed.

Lemma zip_with_add_map {A} (g v : A -> Z) (l : list A) :
  zip_with Z.add (map g l) (map v l) = map (fun k => g k + v k) l.
Proof. induction l as [|x l IH]; simpl; [reflexivity | now rewrite IH]. Qed.

Lemma cum_fold_cells kn v cols cum :
  NoDup cols ->
  map (cum_cell (fold_left (fun c key => cum_add c kn key (v key)) cols cum) kn) cols
  = zip_with Z.add (map (cum_cell cum kn) cols) (map v cols).
Proof.
  intros Hnd. rewrite zip_with_add_map. apply map_ext_in. intros key Hin.
  rewrite cum_cell_fold by exact Hnd. rewrite decide_True; [reflexivity|].
  split; [reflexivity|]. now apply list_elem_of_In.
Qed.

Lemma cum_fold_other kn v cols cum kn' :
  NoDup cols -> kn <> kn' -> forall l,
  map (cum_cell (fold_left (fun c key => cum_add c kn key (v key)) cols cum) kn') l
  = map (cum_cell cum kn') l.
Proof.
  intros Hnd Hne l. apply map_ext. intros key.
  rewrite cum_cell_fold by exact Hnd. rewrite decide_False by tauto. lia.
Qed.

(** ** The lines of a file *)

Lemma file_rows_write_line cum files tt name line name' :
  is_Some (files !! name) ->
  file_rows (WState cum (write_line name line files) tt) name'
  = (file_rows (WState cum files tt) name' ++ (if decide (name = name') then [line] else []))%list.
Proof.
  intros [t Ht]. unfold file_rows, write_line. simpl. rewrite Ht.
  destruct (decide (name = name')) as [<- | Hne].
  - rewrite lookup_insert_eq, Ht. reflexivity.
  - rewrite lookup_insert_ne by exact Hne. now rewrite app_nil_r.
Qed.

Lemma write_line_some name line files name' :
  is_Some (files !! name') -> is_Some (write_line name line files !! name').
Proof.
  intros Hs. unfold write_line. destruct (files !! name) as [t|] eqn:Ht; [|exact Hs].
  destruct (decide (name = name')) as [<- | Hne].
  - rewrite lookup_insert_eq. eauto.
  - now rewrite lookup_insert_ne.
Qed.

Lemma fold_bind_raise {A B} (f : A -> B -> result A) (l : list B) (e : exn) :
  fold_left (fun acc x => a <- acc;; f a x) l (Raise e) = Raise e.
Proof. induction l as [|x l IH]; simpl; [reflexivity | exact IH]. Qed.

Lemma fold_bind_cons {A B} (f : A -> B -> result A) (x : B) (l : list B) (a : A) :
  fold_left (fun acc x => a <- acc;; f a x) (x :: l) (Ok a)
  = (a' <- f a x;; fold_left (fun acc x => a <- acc;; f a x) l (Ok a')).
Proof.
  simpl. destruct (f a x) as [a'|e]; simpl; [reflexivity | apply fold_bind_raise].
Qed.

Section Rows.

Variable tz : Z.
Variable args : Args.
Variable data : store.
Variables c_vm c_v c_os c_oa : list string.



Hypothesis nodup_columns : forall dim cols, In (dim, cols) (the_columns c_vm c_v c_os c_oa) -> NoDup cols.




Lemma write_row_daily st date dim cols :
  In (dim, cols) (the_columns c_vm c_v c_os c_oa) ->
  write_row data (the_keys c_vm c_v c_os c_oa) date st dim
  = Ok (WState (w_cum st) (write_line dim (daily_row data dim cols date) (w_files st))
          (if String.eqb dim "os" then w_total_total st + r_total (daily_row data dim cols date)
           else w_total_total st)).
Proof.
  intros Hin. simpl in Hin.
  destruct Hin as [[= <- <-] | [[= <- <-] | [[= <- <-] | [[= <- <-] | []]]]]; reflexivity.
Qed.

Lemma write_row_cum st date dim cols :
  In (dim, cols) (the_columns c_vm c_v c_os c_oa) ->
  write_row data (the_keys c_vm c_v c_os c_oa) date st (cum_name dim)
  = Ok (WState
          (fold_left (fun c key => cum_add c (cum_name dim) key (cell data date dim key))
                     cols (w_cum st))
          (write_line (cum_name dim)
             (Row date (totals_after data (w_cum st) dim cols date)
                       (sumZ (totals_after data (w_cum st) dim cols date)))
             (w_files st))
          (w_total_total st)).
Proof.
  intros Hin. unfold totals_after.
  rewrite <- (cum_fold_cells (cum_name dim) (cell data date dim) cols (w_cum st))
    by (eapply nodup_columns; exact Hin).
  simpl in Hin.
  destruct Hin as [[= <- <-] | [[= <- <-] | [[= <- <-] | [[= <- <-] | []]]]]; reflexivity.
Qed.


Lemma file_rows_in cum files tt name : file_rows (WState cum files tt) name = rows_in files name.
Proof. reflexivity. Qed.

Lemma rows_in_write_line files name line name' :
  is_Some (files !! name) ->
  rows_in (write_line name line files) name'
  = (rows_in files name' ++ (if decide (name = name') then [line] else []))%list.
Proof.
  intros [t Ht]. unfold rows_in, write_line. rewrite Ht.
  destruct (decide (name = name')) as [<- | Hne].
  - rewrite lookup_insert_eq, Ht. reflexivity.
  - rewrite lookup_insert_ne by exact Hne. now rewrite app_nil_r.
Qed.

Lemma write_date_out st date :
  in_window tz args date = false -> write_date tz args data (the_keys c_vm c_v c_os c_oa) st date = Ok st.
Proof. intros H. unfold write_date. now rewrite H. Qed.

(** The eight lines of a day in the window. *)
Lemma write_date_in st date :
  in_window tz args date = true -> files_open st ->
  exists st',
    write_date tz args data (the_keys c_vm c_v c_os c_oa) st date = Ok st' /\ files_open st' /\
    forall dim cols, In (dim, cols) (the_columns c_vm c_v c_os c_oa) ->
      file_rows st' dim = (file_rows st dim ++ [daily_row data dim cols date])%list /\
      file_rows st' (cum_name dim)
      = (file_rows st (cum_name dim)
         ++ [Row date (totals_after data (w_cum st) dim cols date)
                      (sumZ (totals_after data (w_cum st) dim cols date))])%list /\
      map (cum_cell (w_cum st') (cum_name dim)) cols = totals_after data (w_cum st) dim cols date.
Proof.
  intros Hwin Hopen. unfold write_date. rewrite Hwin. cbn [negb]. unfold fs_names.
  destruct st as [cum0 files0 tt0].
  rewrite fold_bind_cons, (write_row_daily _ date "version_major" c_vm) by (simpl; auto).
  cbn [bind w_cum w_files w_total_total].
  rewrite fold_bind_cons, (write_row_daily _ date "version" c_v) by (simpl; auto).
  cbn [bind w_cum w_files w_total_total].
  rewrite fold_bind_cons, (write_row_daily _ date "os" c_os) by (simpl; auto).
  cbn [bind w_cum w_files w_total_total].
  rewrite fold_bind_cons, (write_row_daily _ date "osarch" c_oa) by (simpl; auto).
  cbn [bind w_cum w_files w_total_total].
  rewrite fold_bind_cons.
  change "cum_version_major" with (cum_name "version_major").
  rewrite (write_row_cum _ date "version_major" c_vm) by (simpl; auto).
  cbn [bind w_cum w_files w_total_total].
  rewrite fold_bind_cons.
  change "cum_version" with (cum_name "version").
  rewrite (write_row_cum _ date "version" c_v) by (simpl; auto).
  cbn [bind w_cum w_files w_total_total].
  rewrite fold_bind_cons.
  change "cum_os" with (cum_name "os").
  rewrite (write_row_cum _ date "os" c_os) by (simpl; auto).
  cbn [bind w_cum w_files w_total_total].
  rewrite fold_bind_cons.
  change "cum_osarch" with (cum_name "osarch").
  rewrite (write_row_cum _ date "osarch" c_oa) by (simpl; auto).
  cbn [bind w_cum w_files w_total_total fold_left].
  eexists. split; [reflexivity|].
  assert (N1 : NoDup c_vm) by (apply (nodup_columns "version_major"); simpl; auto).
  assert (N2 : NoDup c_v) by (apply (nodup_columns "version"); simpl; auto).
  assert (N3 : NoDup c_os) by (apply (nodup_columns "os"); simpl; auto).
  assert (N4 : NoDup c_oa) by (apply (nodup_columns "osarch"); simpl; auto 10).
  split.
  - intros name Hname. cbn [w_files]. repeat apply write_line_some. now apply Hopen.
  - assert (Hsome : forall name, In name fs_names -> is_Some (files0 !! name)) by exact Hopen.
    intros dim cols Hin. rewrite !file_rows_in. cbn [w_cum].
    repeat (rewrite rows_in_write_line
              by (repeat apply write_line_some; apply Hsome; simpl; auto 10)).
    unfold totals_after. unfold cum_name in *.
    simpl in Hin.
    destruct Hin as [[= <- <-] | [[= <- <-] | [[= <- <-] | [[= <- <-] | []]]]];
      cbn [String.append]; decide_names; rewrite ?app_nil_r;
      repeat first [ rewrite cum_fold_other by (assumption || discriminate)
                   | rewrite cum_fold_cells by assumption ];
      auto.
Qed.

(** The rows of the days of the window, in the order of [dates]. *)
Lemma write_dates_rows dates : forall st,
  files_open st ->
  exists st',
    write_dates tz args data (the_keys c_vm c_v c_os c_oa) dates st = Ok st' /\ files_open st' /\
    forall dim cols, In (dim, cols) (the_columns c_vm c_v c_os c_oa) ->
      file_rows st' dim
      = (file_rows st dim
         ++ map (daily_row data dim cols) (List.filter (in_window tz args) dates))%list /\
      file_rows st' (cum_name dim)
      = (file_rows st (cum_name dim)
         ++ cum_rows data dim cols (map (cum_cell (w_cum st) (cum_name dim)) cols)
              (List.filter (in_window tz args) dates))%list.
Proof.
  unfold write_dates. induction dates as [|d ds IH]; intros st Hopen.
  - exists st. split; [reflexivity|]. split; [exact Hopen|].
    intros dim cols _. simpl. now rewrite !app_nil_r.
  - rewrite fold_bind_cons. simpl List.filter.
    destruct (in_window tz args d) eqn:Hwin.
    + destruct (write_date_in st d Hwin Hopen) as (st1 & -> & Hopen1 & Hrows1).
      cbn [bind]. destruct (IH st1 Hopen1) as (st' & -> & Hopen' & Hrows').
      exists st'. split; [reflexivity|]. split; [exact Hopen'|].
      intros dim cols Hin.
      destruct (Hrows1 dim cols Hin) as (H1 & H2 & H3).
      destruct (Hrows' dim cols Hin) as (H1' & H2').
      rewrite H1', H2', H1, H2, H3, <- !app_assoc. split; reflexivity.
    + rewrite (write_date_out st d Hwin). cbn [bind]. apply IH. exact Hopen.
Qed.

End Rows.

(** ** Sorting *)

Lemma insert_by_perm {A} (le : A -> A -> bool) x l : Permutation (insert_by le x l) (x :: l).
Proof.
  induction l as [|y l IH]; simpl; [reflexivity|].
  destruct (le x y); [reflexivity|]. rewrite IH. apply perm_swap.
Qed.

Lemma sort_by_perm {A} (le : A -> A -> bool) l : Permutation (sort_by le l) l.
Proof.
  induction l as [|x l IH]; simpl; [reflexivity|].
  rewrite insert_by_perm. now constructor.
Qed.

Section Sorted.

Context {A : Type} (le : A -> A -> bool).
Hypothesis le_total : forall a b, le a b = true \/ le b a = true.
Hypothesis le_trans : forall a b c, le a b = true -> le b c = true -> le a c = true.

Lemma insert_by_sorted x l :
  StronglySorted (fun a b => le a b = true) l ->
  StronglySorted (fun a b => le a b = true) (insert_by le x l).
Proof.
  induction 1 as [|y l Hs IH Hall]; simpl; [repeat constructor|].
  destruct (le x y) eqn:Hxy.
  - pose proof Hall as Hall'. rewrite List.Forall_forall in Hall'.
    constructor; [now constructor|]. apply List.Forall_forall. intros z [<- | Hz]; [exact Hxy|].
    eapply le_trans; eauto.
  - rewrite List.Forall_forall in Hall.
    constructor; [exact IH|].
    assert (Hyx : le y x = true) by (destruct (le_total x y); congruence).
    apply List.Forall_forall. intros z Hz.
    apply (Permutation_in _ (insert_by_perm le x l)) in Hz. destruct Hz as [<- | Hz]; [exact Hyx|].
    auto.
Qed.

Lemma sort_by_sorted l : StronglySorted (fun a b => le a b = true) (sort_by le l).
Proof.
  induction l as [|x l IH]; simpl; [constructor | now apply insert_by_sorted].
Qed.

End Sorted.

Lemma date_le_spec a b :
  date_le a b = true <->
  year a < year b \/ (year a = year b /\
    (month a < month b \/ (month a = month b /\ day a <= day b))).
Proof.
  unfold date_le, ints_le.
  destruct (Z.ltb_spec (year a) (year b)), (Z.eqb_spec (year a) (year b)),
    (Z.ltb_spec (month a) (month b)), (Z.eqb_spec (month a) (month b)),
    (Z.ltb_spec (day a) (day b)), (Z.eqb_spec (day a) (day b));
    simpl; split; intros; try discriminate; try reflexivity; try lia.
Qed.

Lemma date_le_total a b : date_le a b = true \/ date_le b a = true.
Proof. rewrite !date_le_spec. lia. Qed.

Lemma date_le_trans a b c : date_le a b = true -> date_le b c = true -> date_le a c = true.
Proof. rewrite !date_le_spec. lia. Qed.

Lemma strongly_sorted_filter {A} (R : A -> A -> Prop) (f : A -> bool) l :
  StronglySorted R l -> StronglySorted R (List.filter f l).
Proof.
  induction 1 as [|x l Hs IH Hall]; simpl; [constructor|].
  destruct (f x); [|exact IH]. constructor; [exact IH|].
  rewrite List.Forall_forall in *. intros y Hy. apply filter_In in Hy. apply Hall. tauto.
Qed.

Lemma dates_ascending_sorted l :
  StronglySorted (fun a b => date_le a b = true) l -> NoDup l -> dates_ascending l.
Proof.
  induction 1 as [|x l Hs IH Hall]; intros Hnd; [exact I|].
  apply NoDup_cons in Hnd. destruct Hnd as [Hx Hnd].
  destruct l as [|y l]; [exact I|]. simpl. split; [|split].
  - rewrite List.Forall_forall in Hall. apply Hall. now left.
  - intros ->. apply Hx. left.
  - now apply IH.
Qed.

Lemma NoDup_filter_list {A} (f : A -> bool) (l : list A) : NoDup l -> NoDup (List.filter f l).
Proof.
  induction 1 as [|x l Hx Hnd IH]; simpl; [constructor|].
  destruct (f x); [|exact IH]. constructor; [|exact IH].
  intros Hin. apply Hx. apply list_elem_of_In in Hin. apply filter_In in Hin.
  apply list_elem_of_In. tauto.
Qed.

(** The days of the report: each once, each before the next. *)
Lemma report_dates_ascending tz args (data : store) :
  dates_ascending
    (List.filter (in_window tz args) (sort_by date_le (map fst (map_to_list data)))).
Proof.
  apply dates_ascending_sorted.
  - apply strongly_sorted_filter. apply sort_by_sorted; [apply date_le_total | apply date_le_trans].
  - apply NoDup_filter_list. rewrite sort_by_perm. apply NoDup_fst_map_to_list.
Qed.

(** ** The key index has each key once *)

Lemma map_result_keyed {A B} (f : A -> result B) (l : list A) (keyed : list (B * A)) :
  map_result (fun v => k <- f v;; Ok (k, v)) l = Ok keyed -> map snd keyed = l.
Proof.
  revert keyed. induction l as [|x l IH]; intros keyed H; simpl in H.
  - now injection H as <-.
  - apply bind_Ok in H. destruct H as ([k v] & Hkv & H).
    apply bind_Ok in Hkv. destruct Hkv as (k' & _ & Hkv). injection Hkv as <- <-.
    apply bind_Ok in H. destruct H as (ys & Hys & H). injection H as <-.
    simpl. now rewrite (IH ys Hys).
Qed.

Lemma sort_versions_perm l l' : sort_versions l = Ok l' -> Permutation l' l.
Proof.
  unfold sort_versions. intros H. apply bind_Ok in H. destruct H as (keyed & Hk & H).
  injection H as <-. apply map_result_keyed in Hk. rewrite <- Hk.
  apply Permutation_map. apply sort_by_perm.
Qed.

Lemma get_keys_columns data keys :
  get_keys data = Ok keys ->
  exists c_vm c_v c_os c_oa,
    keys = the_keys c_vm c_v c_os c_oa /\
    NoDup c_vm /\ NoDup c_v /\ NoDup c_os /\ NoDup c_oa.
Proof.
  unfold get_keys. intros H.
  apply bind_Ok in H. destruct H as (c_vm & Hvm & H).
  apply bind_Ok in H. destruct H as (c_v & Hv & H). injection H as <-.
  apply sort_versions_perm in Hvm, Hv.
  eexists c_vm, c_v, _, _. split; [reflexivity|].
  repeat split.
  - rewrite Hvm. apply NoDup_elements.
  - rewrite Hv. apply NoDup_elements.
  - rewrite sort_by_perm. apply NoDup_elements.
  - rewrite sort_by_perm. apply NoDup_elements.
Qed.

Lemma lookup_the_keys c_vm c_v c_os c_oa dim cols :
  In (dim, cols) (the_columns c_vm c_v c_os c_oa) ->
  lookup_keys (the_keys c_vm c_v c_os c_oa) dim = Ok cols.
Proof.
  intros Hin. simpl in Hin. unfold lookup_keys, the_keys.
  destruct Hin as [[= <- <-] | [[= <- <-] | [[= <- <-] | [[= <- <-] | []]]]];
    rewrite ?lookup_insert_ne by discriminate; rewrite lookup_insert_eq; reflexivity.
Qed.

Lemma write_headers_open c_vm c_v c_os c_oa :
  exists files,
    write_headers (the_keys c_vm c_v c_os c_oa) = Ok files /\
    forall name, In name fs_names -> exists t, files !! name = Some t /\ t_rows t = [].
Proof.
  unfold write_headers, fs_names. cbn [fold_left bind].
  change (lstrip_chars "cum_" "version_major") with "version_major".
  change (lstrip_chars "cum_" "version") with "version".
  change (lstrip_chars "cum_" "os") with "os".
  change (lstrip_chars "cum_" "osarch") with "osarch".
  change (lstrip_chars "cum_" "cum_version_major") with "version_major".
  change (lstrip_chars "cum_" "cum_version") with "version".
  change (lstrip_chars "cum_" "cum_os") with "os".
  change (lstrip_chars "cum_" "cum_osarch") with "osarch".
  rewrite (lookup_the_keys c_vm c_v c_os c_oa "version_major" c_vm) by (simpl; auto).
  cbn [bind].
  rewrite (lookup_the_keys c_vm c_v c_os c_oa "version" c_v) by (simpl; auto).
  cbn [bind].
  rewrite (lookup_the_keys c_vm c_v c_os c_oa "os" c_os) by (simpl; auto).
  cbn [bind].
  rewrite (lookup_the_keys c_vm c_v c_os c_oa "osarch" c_oa) by (simpl; auto 10).
  cbn [bind].
  eexists. split; [reflexivity|].
  intros name Hin. simpl in Hin.
  repeat (destruct Hin as [<- | Hin];
          [eexists; split;
           [rewrite ?lookup_insert_ne by discriminate; apply lookup_insert_eq | reflexivity]|]).
  destruct Hin.
Qed.

(** ** Columns of running totals *)

Lemma nth_zip_add (a b : list Z) : length a = length b ->
  forall j, nth j (zip_with Z.add a b) 0 = nth j a 0 + nth j b 0.
Proof.
  revert b. induction a as [|x a IH]; intros [|y b] Hlen j; simpl in Hlen; try discriminate.
  - destruct j; reflexivity.
  - destruct j as [|j]; simpl; [reflexivity|]. apply IH. lia.
Qed.

Lemma sumZ_zip_add (a b : list Z) : length a = length b ->
  sumZ (zip_with Z.add a b) = sumZ a + sumZ b.
Proof.
  revert b. induction a as [|x a IH]; intros [|y b] Hlen; simpl in Hlen; try discriminate.
  - reflexivity.
  - simpl. rewrite IH by lia. lia.
Qed.

Lemma length_zip_add (a b : list Z) : length a = length b ->
  length (zip_with Z.add a b) = length a.
Proof.
  revert b. induction a as [|x a IH]; intros [|y b] Hlen; simpl in Hlen; try discriminate.
  - reflexivity.
  - simpl. rewrite IH by lia. reflexivity.
Qed.

Lemma nth_nonneg (l : list Z) j : Forall (fun x => 0 <= x) l -> 0 <= nth j l 0.
Proof.
  intros H. revert j. induction H as [|x l Hx _ IH]; intros [|j]; simpl; auto; lia.
Qed.

Lemma sumZ_nonneg (l : list Z) : Forall (fun x => 0 <= x) l -> 0 <= sumZ l.
Proof. induction 1 as [|x l Hx _ IH]; simpl; lia. Qed.

Lemma ascending_cons a l : ascending (a :: l) -> ascending l.
Proof. destruct l; simpl; tauto. Qed.

Section Columns.

Variable data : store.
Variable dim : string.
Variable cols : list string.
Hypothesis data_nonneg : nonneg_store data.


Lemma cells_nonneg date : Forall (fun x => 0 <= x) (day_cells data dim cols date).
Proof. apply Forall_forall. intros x Hx. apply list_elem_of_In, in_map_iff in Hx.
  destruct Hx as (k & <- & _). apply data_nonneg. Qed.

Lemma cells_length date : length (day_cells data dim cols date) = length cols.
Proof. apply length_map. Qed.

Lemma daily_dates W : map r_date (map (daily_row data dim cols) W) = W.
Proof. induction W as [|d W IH]; simpl; [reflexivity | now rewrite IH]. Qed.

Lemma cum_dates W : forall acc, map r_date (cum_rows data dim cols acc W) = W.
Proof. induction W as [|d W IH]; intros acc; simpl; [reflexivity | now rewrite IH]. Qed.

(** A column of a cumulative table never goes down. *)
Lemma cum_column_ascending j W : forall acc,
  length acc = length cols ->
  ascending (nth j acc 0 :: column j (cum_rows data dim cols acc W)).
Proof.
  induction W as [|d W IH]; intros acc Hlen; [exact I|].
  simpl cum_rows. change (column j (?r :: ?rs)) with (nth j (r_cells r) 0 :: column j rs).
  cbn [r_cells]. split.
  - fold (day_cells data dim cols d). rewrite nth_zip_add by (now rewrite cells_length).
    pose proof (nth_nonneg (day_cells data dim cols d) j (cells_nonneg d)). lia.
  - apply IH. fold (day_cells data dim cols d). rewrite length_zip_add; [exact Hlen | now rewrite cells_length].
Qed.

Lemma cum_totals_ascending W : forall acc,
  length acc = length cols ->
  ascending (sumZ acc :: map r_total (cum_rows data dim cols acc W)).
Proof.
  induction W as [|d W IH]; intros acc Hlen; [exact I|].
  simpl cum_rows. cbn [map r_total]. split.
  - fold (day_cells data dim cols d). rewrite sumZ_zip_add by (now rewrite cells_length).
    pose proof (sumZ_nonneg (day_cells data dim cols d) (cells_nonneg d)). lia.
  - apply IH. fold (day_cells data dim cols d). rewrite length_zip_add; [exact Hlen | now rewrite cells_length].
Qed.

(** The last row of a cumulative table: the totals it began with and the
    sum of the daily rows, column by column. *)
Lemma cum_last W : forall acc r,
  length acc = length cols ->
  last (cum_rows data dim cols acc W) = Some r ->
  (forall j, nth j (r_cells r) 0
             = nth j acc 0 + sumZ (column j (map (daily_row data dim cols) W))) /\
  r_total r = sumZ acc + sumZ (map r_total (map (daily_row data dim cols) W)).
Proof.
  induction W as [|d W IH]; intros acc r Hlen Hlast; [discriminate|].
  simpl cum_rows in Hlast.
  assert (Hlen' : length (zip_with Z.add acc (day_cells data dim cols d)) = length cols).
  { rewrite length_zip_add; [exact Hlen | now rewrite cells_length]. }
  destruct W as [|d' W].
  - simpl in Hlast. injection Hlast as <-. cbn [r_cells r_total]. fold (day_cells data dim cols d). split.
    + intros j. rewrite nth_zip_add by (now rewrite cells_length).
      change (column j (map (daily_row data dim cols) [d])) with [nth j (day_cells data dim cols d) 0].
      unfold sumZ, fold_right. lia.
    + rewrite sumZ_zip_add by (now rewrite cells_length).
      change (map r_total (map (daily_row data dim cols) [d])) with [sumZ (day_cells data dim cols d)].
      change (sumZ [sumZ (day_cells data dim cols d)]) with (sumZ (day_cells data dim cols d) + 0). lia.
  - change (last (cum_rows data dim cols (zip_with Z.add acc (day_cells data dim cols d)) (d' :: W)) = Some r)
      in Hlast.
    destruct (IH _ r Hlen' Hlast) as [Hcells Htotal]. split.
    + intros j. rewrite Hcells. rewrite nth_zip_add by (now rewrite cells_length).
      change (column j (map (daily_row data dim cols) (d :: d' :: W)))
        with (nth j (day_cells data dim cols d) 0 :: column j (map (daily_row data dim cols) (d' :: W))).
      change (sumZ (?x :: ?l)) with (x + sumZ l). lia.
    + rewrite Htotal. rewrite sumZ_zip_add by (now rewrite cells_length).
      change (map r_total (map (daily_row data dim cols) (d :: d' :: W)))
        with (sumZ (day_cells data dim cols d) :: map r_total (map (daily_row data dim cols) (d' :: W))).
      change (sumZ (?x :: ?l)) with (x + sumZ l). lia.
Qed.

End Columns.

Lemma cum_cell_empty kn key : cum_cell ∅ kn key = 0.
Proof. unfold cum_cell. rewrite lookup_empty. simpl. now rewrite lookup_empty. Qed.

Lemma nth_zeros {A} (l : list A) j : nth j (map (fun _ => 0) l) 0 = 0.
Proof. revert j. induction l as [|x l IH]; intros [|j]; simpl; auto. Qed.

Lemma sumZ_zeros {A} (l : list A) : sumZ (map (fun _ => 0) l) = 0.
Proof. induction l as [|x l IH]; simpl; [reflexivity | now rewrite IH]. Qed.

(** The tables of [write_csvs], dimension by dimension. *)
Lemma write_csvs_tables tz args data out dim :
  write_csvs tz args data = Ok out -> In dim dims ->
  exists cols,
    NoDup cols /\
    file_rows out dim
    = map (daily_row data dim cols)
          (List.filter (in_window tz args) (sort_by date_le (map fst (map_to_list data)))) /\
    file_rows out ("cum_" ++ dim)
    = cum_rows data dim cols (map (fun _ => 0) cols)
          (List.filter (in_window tz args) (sort_by date_le (map fst (map_to_list data)))).
Proof.
  unfold write_csvs. intros H Hdim.
  apply bind_Ok in H. destruct H as (keys & Hkeys & H).
  apply bind_Ok in H. destruct H as (files & Hfiles & H).
  destruct (get_keys_columns data keys Hkeys) as (c_vm & c_v & c_os & c_oa & -> & N1 & N2 & N3 & N4).
  destruct (write_headers_open c_vm c_v c_os c_oa) as (files' & Hfiles' & Hopen).
  rewrite Hfiles' in Hfiles. injection Hfiles as ->.
  assert (Hnodup : forall d c, In (d, c) (the_columns c_vm c_v c_os c_oa) -> NoDup c).
  { intros d c Hin. simpl in Hin.
    destruct Hin as [[= <- <-] | [[= <- <-] | [[= <- <-] | [[= <- <-] | []]]]]; assumption. }
  assert (Hopen0 : files_open (WState ∅ files 0)).
  { intros name Hname. destruct (Hopen name Hname) as (t & Ht & _). simpl. eauto. }
  destruct (write_dates_rows tz args data c_vm c_v c_os c_oa Hnodup
              (sort_by date_le (map fst (map_to_list data))) _ Hopen0)
    as (st' & Hst' & _ & Hrows).
  rewrite Hst' in H. injection H as <-.
  assert (Hcols : exists cols, In (dim, cols) (the_columns c_vm c_v c_os c_oa)).
  { simpl in Hdim. destruct Hdim as [<- | [<- | [<- | [<- | []]]]]; eexists; simpl; eauto 10. }
  destruct Hcols as (cols & Hin). exists cols. split; [eapply Hnodup; exact Hin|].
  destruct (Hrows dim cols Hin) as [Hd Hc].
  assert (Hempty : forall name, In name fs_names -> file_rows (WState ∅ files 0) name = []).
  { intros name Hname. destruct (Hopen name Hname) as (t & Ht & Hr).
    unfold file_rows. simpl. now rewrite Ht. }
  change ("cum_" ++ dim) with (cum_name dim).
  rewrite Hd, Hc. unfold cum_name.
  rewrite !Hempty
    by (simpl in Hdim; destruct Hdim as [<- | [<- | [<- | [<- | []]]]]; simpl; auto 10).
  simpl w_cum. split; [reflexivity|].
  rewrite (map_ext (cum_cell ∅ ("cum_" ++ dim)) (fun _ => 0)); [reflexivity|].
  intros key. apply cum_cell_empty.
Qed.

(** C6. For each of the four dimensions, the cumulative table has the days
    of the daily table, each before the next; down its rows every key
    column and the Total column never decrease; and its last row is the
    sum of all rows of the daily table, column by column. *)
Theorem cumulative_tables (tz : Z) (args : Args) (native : list string)
    (logs : list (list string)) (data : store) (out : wstate) (dim : string) :
  ingest tz args native logs = Ok data ->
  write_csvs tz args data = Ok out ->
  In dim dims ->
  let daily := file_rows out dim in
  let cum := file_rows out ("cum_" ++ dim) in
  map r_date cum = map r_date daily /\
  dates_ascending (map r_date cum) /\
  (forall j, ascending (column j cum)) /\
  ascending (map r_total cum) /\
  (forall r, last cum = Some r ->
     (forall j, nth j (r_cells r) 0 = sumZ (column j daily)) /\
     r_total r = sumZ (map r_total daily)).
Proof.
  intros Hing Hout Hdim.
  pose proof (ingest_nonneg tz args native logs data Hing) as Hnn.
  destruct (write_csvs_tables tz args data out dim Hout Hdim) as (cols & Hnd & Hd & Hc).
  cbv zeta. rewrite Hd, Hc.
  set (W := List.filter (in_window tz args) (sort_by date_le (map fst (map_to_list data)))).
  assert (Hlen : length (map (fun _ : string => 0) cols) = length cols) by apply length_map.
  split; [|split; [|split; [|split]]].
  - now rewrite cum_dates, daily_dates.
  - rewrite cum_dates. apply report_dates_ascending.
  - intros j. eapply ascending_cons. apply (cum_column_ascending data dim cols Hnn j W _ Hlen).
  - eapply ascending_cons. apply (cum_totals_ascending data dim cols Hnn W _ Hlen).
  - intros r Hlast. destruct (cum_last data dim cols W _ r Hlen Hlast) as [Hcells Htotal].
    split.
    + intros j. rewrite Hcells, nth_zeros. lia.
    + rewrite Htotal, sumZ_zeros. lia.
Qed.

Lemma cumulative_tables_witness :
  map r_date (file_rows example_report ("cum_" ++ "os"))
    = map r_date (file_rows example_report "os") /\
  dates_ascending (map r_date (file_rows example_report ("cum_" ++ "os"))) /\
  (forall j, ascending (column j (file_rows example_report ("cum_" ++ "os")))) /\
  ascending (map r_total (file_rows example_report ("cum_" ++ "os"))) /\
  (forall r, last (file_rows example_report ("cum_" ++ "os")) = Some r ->
     (forall j, nth j (r_cells r) 0 = sumZ (column j (file_rows example_report "os"))) /\
     r_total r = sumZ (map r_total (file_rows example_report "os"))).
Proof.
  assert (Hrep : write_csvs 0 (MkArgs 0 2000000000) example_store = Ok example_report).
  { assert (Hok : is_ok (write_csvs 0 (MkArgs 0 2000000000) example_store) = true)
      by vm_cast_no_check (@eq_refl bool true).
    unfold example_report.
    destruct (write_csvs 0 (MkArgs 0 2000000000) example_store); [reflexivity | discriminate Hok]. }
  apply (cumulative_tables 0 (MkArgs 0 2000000000) example_mailbox [[example_log_line ++ nl]]
           example_store example_report "os").
  - vm_cast_no_check (@eq_refl (result store) (Ok example_store)).
  - exact Hrep.
  - simpl. auto.
Defined.

(** * More of the program *)

(** ** The digest, line by line *)

Lemma body_line_path (date : datetime) (line : string) :
  PyStr.startswith "/" line = false -> body_line date line = Ok None.
Proof. intros H. unfold body_line. rewrite H. reflexivity. Qed.


Lemma split_on_sep (sep : ascii) (s : string) :
  PyStr.contains (String sep "") s = true -> (2 <= length (PyStr.split_on sep s))%nat.
Proof.
  induction s as [|c s IH]; intros H.
  - discriminate.
  - rewrite split_on_step. destruct (Ascii.eqb c sep) eqn:E.
    + cbn [length]. pose proof (split_on_length sep s). lia.
    + rewrite contains_cons in H. rewrite startswith_one in H.
      rewrite Ascii.eqb_sym in H. rewrite E in H. cbn in H.
      specialize (IH H). destruct (PyStr.split_on sep s) as [|w ws]; cbn in *; lia.
Qed.

Lemma take5_eq (line p : string) :
  String.length p = 5%nat ->
  String.eqb (PyStr.take 5 line) p = true -> exists rest, line = p ++ rest.
Proof.
  intros Hp H. apply String.eqb_eq in H. subst p.
  destruct line as [|a [|b [|c [|d [|e rest]]]]]; try discriminate.
  exists rest. reflexivity.
Qed.

Lemma date_field (line : string) :
  String.eqb (PyStr.take 5 line) "Date:" = true ->
  exists field, index (PyStr.split_on ":" line) 1 = Ok field.
Proof.
  intros H. destruct (take5_eq line "Date:" eq_refl H) as (rest & ->).
  destruct (split_on_cons ":" rest) as (w & ws & E).
  exists w.
  repeat (rewrite app_cons_s, split_on_step; cbn [Ascii.eqb Bool.eqb]).
  rewrite app_nil_l_s, E. reflexivity.
Qed.

(** What one line of the mailbox can do, by the state it meets. *)
Lemma native_line_cases (tz : Z) (args : Args) (st : nstate) (line : string) :
  (exists st' h, native_line tz args st line = Ok (st', h)
      /\ (ns_date st' = None -> PyStr.startswith "From " line = true \/ ns_date st = None)
      /\ (ns_date_warning st' = None -> ns_date_warning st = None))
  \/ (native_line tz args st line = Raise AttributeError /\ ns_date st = None
      /\ PyStr.startswith "From " line = false)
  \/ (native_line tz args st line = Raise UnboundLocalError /\ ns_date_warning st = None
      /\ PyStr.startswith "From " line = false).
Proof.
  unfold native_line.
  destruct ((5 <=? String.length line)%nat && String.eqb (PyStr.take 5 line) "From ") eqn:Hfrom.
  { left. do 2 eexists. split; [reflexivity|]. cbn. split; [|discriminate].
    intros _. left. apply andb_true_iff in Hfrom. destruct Hfrom as [_ H].
    destruct (take5_eq line "From " eq_refl H) as (rest & ->). reflexivity. }
  assert (Hfrom' : PyStr.startswith "From " line = false).
  { destruct (PyStr.startswith "From " line) eqn:E; trivial.
    apply startswith_true in E. destruct E as (r & ->).
    cbn in Hfrom. discriminate. }
  destruct (PyStr.contains "From " line).
  { left. do 2 eexists. split; [reflexivity|]. cbn. tauto. }
  destruct ((5 <=? String.length line)%nat && String.eqb (PyStr.take 5 line) "Date:") eqn:Hdate.
  { apply andb_true_iff in Hdate. destruct Hdate as [_ H].
    destruct (date_field line H) as (field & ->). cbn [bind].
    destruct (Cal.strptime (PyStr.strip field)) as [[[[y m] d] hh]|].
    - left. do 2 eexists. split; [reflexivity|]. cbn. split; [discriminate|trivial].
    - destruct (ns_date st) as [d|] eqn:Hd.
      + left. do 2 eexists. split; [reflexivity|]. cbn. split; [discriminate|trivial].
      + right. left. auto. }
  destruct (ns_in_header st && String.eqb (PyStr.strip line) "").
  { left. do 2 eexists. split; [reflexivity|]. cbn. tauto. }
  destruct (ns_in_header st).
  { left. do 2 eexists. split; [reflexivity|]. cbn. tauto. }
  destruct (ns_date st) as [date|] eqn:Hd.
  2:{ right. left. auto. }
  destruct (outside_window args (Cal.timestamp tz date)).
  - destruct (ns_date_warning st) eqn:Hw.
    + left. do 2 eexists. split; [reflexivity|]. cbn. split; discriminate.
    + right. right. auto.
  - destruct (body_line_cases date line) as [H | (v & os & arch & c & g & w & H & _)];
      rewrite H; cbn [bind]; left; do 2 eexists; (split; [reflexivity|]); cbn;
      rewrite ?Hd; intuition congruence.
Qed.



(** [len(line) >= 5 and line[:5] == p] is [line.startswith(p)] for a [p]
    of five characters. *)
Lemma prefix5 (p line : string) :
  String.length p = 5%nat ->
  (5 <=? String.length line)%nat && String.eqb (PyStr.take 5 line) p = PyStr.startswith p line.
Proof.
  intros Hp.
  destruct (PyStr.startswith p line) eqn:E.
  - apply startswith_true in E. destruct E as (r & ->).
    destruct p as [|a [|b [|c [|d [|e [|]]]]]]; try discriminate.
    assert (T : PyStr.take 5 (String a (String b (String c (String d (String e "")))) ++ r)
                = String a (String b (String c (String d (String e ""))))) by reflexivity.
    rewrite T, String.eqb_refl. reflexivity.
  - destruct ((5 <=? String.length line)%nat && String.eqb (PyStr.take 5 line) p) eqn:F; trivial.
    apply andb_true_iff in F. destruct F as [_ F].
    destruct (take5_eq line p Hp F) as (r & ->).
    rewrite <- E. symmetry. clear. induction p as [|a p IH]; [reflexivity|].
    rewrite app_cons_s.
    change (PyStr.startswith (String a p) (String a (p ++ r)))
      with (Ascii.eqb a a && PyStr.startswith p (p ++ r)).
    now rewrite Ascii.eqb_refl, IH.
Qed.

Lemma read_native_lines_step (tz : Z) (args : Args) (line : string) (lines : list string)
    (st st' : nstate) (h : option hit) (data : store) :
  native_line tz args st line = Ok (st', h) ->
  read_native_lines tz args (line :: lines) (st, data) =
  read_native_lines tz args lines
    (st', match h with Some h => store_hit data h | None => data end).
Proof. intros H. cbn [read_native_lines]. unfold read_native_line. cbn [fst snd]. now rewrite H. Qed.



Lemma native_line_outside (tz : Z) (args : Args) (st : nstate) (line : string) (d : datetime) :
  ns_date st = Some d -> ns_date_warning st <> None ->
  outside_window args (Cal.timestamp tz d) = true ->
  PyStr.startswith "From " line = false -> PyStr.startswith "Date:" line = false ->
  exists st', native_line tz args st line = Ok (st', None)
    /\ ns_date st' = Some d /\ ns_date_warning st' <> None.
Proof.
  intros Hd Hw Hout Hf Hdl. unfold native_line.
  rewrite (prefix5 "From " line eq_refl), Hf, (prefix5 "Date:" line eq_refl), Hdl.
  cbn [andb].
  destruct (PyStr.contains "From " line); [eauto|].
  destruct (ns_in_header st && String.eqb (PyStr.strip line) ""); [eexists; split; [reflexivity|auto]|].
  destruct (ns_in_header st); [eauto|].
  rewrite Hd, Hout. destruct (ns_date_warning st); [|contradiction].
  eexists; split; [reflexivity|]. cbn. split; [reflexivity || assumption|discriminate].
Qed.



(** ** The structured log, line by line *)

Lemma log_line_cols (tz : Z) (args : Args) (line : string) :
  log_line tz args line =
  match log_columns line with
  | [] => Raise (KeyError "timestamp")
  | c :: rest =>
      ts <- or_raise ValueError (PyStr.int c);;
      if outside_window args ts then Ok None else
      match rest with
      | [] => Raise (KeyError "status")
      | status :: rest' =>
          if negb (String.eqb status "END") then Ok None else
          match rest' with
          | [] => Raise (KeyError "filename")
          | filename :: _ =>
              if skip_listed filename then Ok None else
              match log_family filename with
              | None => Ok None
              | Some m =>
                  version <- group_str 1 m;;
                  if weird_version (major_of version) then Ok None else
                  date <- Cal.fromtimestamp tz ts;;
                  Ok (Some (Hit date version (major_of version)
                              (get_os filename) (get_arch filename) 1))
              end
          end
      end
  end.
Proof.
  unfold log_line, log_columns.
  destruct (PyStr.split_ws (PyStr.rstrip line)) as [|c [|s [|f rest]]]; try reflexivity.
  change (getitem (zip headers (firstn (length headers) (c :: s :: f :: rest))) "timestamp")
      with (Ok c).
    change (getitem (zip headers (firstn (length headers) (c :: s :: f :: rest))) "status")
      with (Ok s).
    change (getitem (zip headers (firstn (length headers) (c :: s :: f :: rest))) "filename")
      with (Ok f).
    cbn [bind]. destruct (or_raise ValueError (PyStr.int c)); [|reflexivity]. cbn [bind].
    destruct (outside_window args a); [reflexivity|].
    destruct (negb (String.eqb s "END")); [reflexivity|].
    unfold skip_listed.
    destruct (PyStr.contains "sha256sum" f); [reflexivity|].
    destruct (PyStr.startswith "condordebugsyms" f); [reflexivity|].
    destruct (PyStr.startswith "condor-drone-" f); reflexivity.
Qed.



Lemma fold_logs_hits (tz : Z) (args : Args) (logs : list (list string)) (data : store) :
  fold_left (fun acc log => d <- acc;; read_log_file tz args log d) logs (Ok data) =
  (ls <- map_result (log_hits tz args) logs;; Ok (fold_left store_hit (concat ls) data)).
Proof.
  revert data. induction logs as [|log logs IH]; intros data; [reflexivity|].
  rewrite fold_bind_cons. cbn [map_result]. rewrite read_log_file_hits.
  destruct (log_hits tz args log) as [hs|e]; cbn [bind]; [|reflexivity].
  rewrite IH. destruct (map_result (log_hits tz args) logs) as [ls|e]; cbn [bind]; [|reflexivity].
  cbn [concat]. now rewrite fold_left_app.
Qed.

(** The ingestion stores the records it accepts, one after the other. *)
Lemma ingest_store (tz : Z) (args : Args) (native : list string) (logs : list (list string)) :
  ingest tz args native logs =
  (hs <- ingest_hits tz args native logs;; Ok (fold_left store_hit hs ∅)).
Proof.
  unfold ingest, ingest_hits, read_native_file.
  rewrite read_native_lines_hits.
  destruct (native_hits tz args native nstate_init) as [[st hs]|e]; cbn [bind fst snd]; [|reflexivity].
  rewrite fold_logs_hits.
  destruct (map_result (log_hits tz args) logs) as [ls|e]; cbn [bind]; [|reflexivity].
  now rewrite fold_left_app.
Qed.

Lemma tally_cons (e : event) (es : list event) (date : datetime) (dim key : string) :
  tally (e :: es) date dim key =
  (if event_at date dim key e then weight e else 0) + tally es date dim key.
Proof. unfold tally. cbn [List.filter]. destruct (event_at date dim key e); reflexivity. Qed.

Lemma tally_app (es1 es2 : list event) (date : datetime) (dim key : string) :
  tally (es1 ++ es2) date dim key = tally es1 date dim key + tally es2 date dim key.
Proof.
  induction es1 as [|e es1 IH]; [reflexivity|].
  rewrite <- app_comm_cons, !tally_cons, IH. lia.
Qed.

Lemma event_at_spec (date : datetime) (dim key : string) (d : datetime) (m k : string) (w : Z) :
  event_at date dim key (d, m, k, w) = true <-> d = date /\ m = dim /\ k = key.
Proof.
  unfold event_at. rewrite !andb_true_iff, bool_decide_eq_true, !String.eqb_eq. tauto.
Qed.

Lemma cell_accumulate (data : store) (e : event) (date : datetime) (dim key : string) :
  cell (accumulate data e) date dim key =
  cell data date dim key + (if event_at date dim key e then weight e else 0).
Proof.
  destruct e as [[[d m] k] w]. cbn [accumulate weight snd]. rewrite cell_store_add.
  destruct (decide (d = date /\ m = dim /\ k = key)) as [H|H];
    destruct (event_at date dim key (d, m, k, w)) eqn:E; trivial.
  - apply (event_at_spec date dim key d m k w) in H. congruence.
  - apply event_at_spec in E. contradiction.
Qed.

Lemma cell_accumulate_all (es : list event) (data : store) (date : datetime) (dim key : string) :
  cell (fold_left accumulate es data) date dim key = cell data date dim key + tally es date dim key.
Proof.
  revert data. induction es as [|e es IH]; intros data; cbn [fold_left].
  - unfold tally. cbn. lia.
  - rewrite IH, cell_accumulate, tally_cons. lia.
Qed.

Lemma store_hits_events (hs : list hit) (data : store) :
  fold_left store_hit hs data = fold_left accumulate (all_events hs) data.
Proof.
  revert data. induction hs as [|h hs IH]; intros data; [reflexivity|].
  cbn [fold_left]. rewrite IH. unfold all_events. cbn [map concat].
  rewrite fold_left_app. reflexivity.
Qed.

Lemma cell_empty (date : datetime) (dim key : string) : cell ∅ date dim key = 0.
Proof. unfold cell. rewrite lookup_empty. cbn. rewrite lookup_empty. cbn. now rewrite lookup_empty. Qed.

(** X6. The store that the ingestion builds is the tally of the events of
    the records it accepted: a cell holds the sum of the weights of the
    events with its day, dimension and key, and a cell no event names
    reads as 0. *)
Theorem store_is_tally (tz : Z) (args : Args) (native : list string)
    (logs : list (list string)) (data : store) :
  ingest tz args native logs = Ok data ->
  exists hs, ingest_hits tz args native logs = Ok hs
    /\ forall date dim key, cell data date dim key = tally (all_events hs) date dim key.
Proof.
  rewrite ingest_store. intros H. apply bind_Ok in H. destruct H as (hs & Hhs & H).
  injection H as <-. exists hs. split; [exact Hhs|]. intros date dim key.
  rewrite store_hits_events, cell_accumulate_all, cell_empty. lia.
Qed.

(** The run of the examples: one message of the mailbox and one line of a
    log. *)
Lemma example_ingest :
  ingest 0 (MkArgs 0 2000000000) example_mailbox [[example_log_line ++ nl]] = Ok example_store.
Proof. vm_cast_no_check (@eq_refl (result store) (Ok example_store)). Qed.

Lemma example_written :
  write_csvs 0 (MkArgs 0 2000000000) example_store = Ok example_report.
Proof.
  assert (Hok : is_ok (write_csvs 0 (MkArgs 0 2000000000) example_store) = true)
    by vm_cast_no_check (@eq_refl bool true).
  unfold example_report.
  destruct (write_csvs 0 (MkArgs 0 2000000000) example_store); [reflexivity | discriminate Hok].
Qed.

Lemma store_is_tally_witness :
  exists hs, ingest_hits 0 (MkArgs 0 2000000000) example_mailbox [[example_log_line ++ nl]] = Ok hs
    /\ forall date dim key, cell example_store date dim key = tally (all_events hs) date dim key.
Proof. exact (store_is_tally _ _ _ _ _ example_ingest). Defined.

(** ** The keys of the store *)

Lemma has_key_store_add (data : store) (date : datetime) (dim key : string) (w : Z)
    (date' : datetime) (dim' key' : string) :
  has_key (store_add data date dim key w) date' dim' key' <->
  has_key data date' dim' key' \/ (date = date' /\ dim = dim' /\ key = key').
Proof.
  unfold has_key, store_add.
  destruct (decide (date = date')) as [<- | Hd].
  - rewrite lookup_insert_eq. simpl.
    destruct (decide (dim = dim')) as [<- | Hm].
    + rewrite lookup_insert_eq. simpl.
      destruct (decide (key = key')) as [<- | Hk].
      * rewrite lookup_insert_eq. split; [auto | intros _; eexists; reflexivity].
      * rewrite lookup_insert_ne by exact Hk. tauto.
    + rewrite lookup_insert_ne by exact Hm. tauto.
  - rewrite lookup_insert_ne by exact Hd. tauto.
Qed.

Lemma has_key_empty (date : datetime) (dim key : string) : ~ has_key ∅ date dim key.
Proof.
  unfold has_key. rewrite lookup_empty. cbn. rewrite lookup_empty. cbn. rewrite lookup_empty.
  intros [x H]. discriminate.
Qed.

Lemma has_key_accumulate_all (es : list event) (data : store) (date : datetime) (dim key : string) :
  has_key (fold_left accumulate es data) date dim key <->
  has_key data date dim key \/ exists w, In (date, dim, key, w) es.
Proof.
  revert data. induction es as [|e es IH]; intros data; cbn [fold_left].
  - split; [auto | intros [H | (w & [])]; exact H].
  - rewrite IH. destruct e as [[[d m] k] w]. cbn [accumulate]. rewrite has_key_store_add.
    split.
    + intros [[H | (-> & -> & ->)] | (w' & H)]; [auto | right; exists w; now left |].
      right. exists w'. now right.
    + intros [H | (w' & [H | H])]; [auto | injection H as -> -> -> ->; auto |].
      right. exists w'. exact H.
Qed.

(** The keys of a dimension are the keys some day holds in it. *)
Lemma dim_keys_spec (data : store) (dim key : string) :
  key ∈ dim_keys data dim <-> exists date, has_key data date dim key.
Proof.
  unfold dim_keys, has_key. rewrite elem_of_union_list. split.
  - intros (X & HX & Hk). apply list_elem_of_fmap in HX. destruct HX as ([date by_dim] & -> & Hin).
    apply elem_of_map_to_list in Hin. exists date. rewrite Hin. simpl. simpl in Hk. now apply elem_of_dom in Hk.
  - intros (date & H). destruct (data !! date) as [by_dim|] eqn:E.
    + exists (dom (default ∅ (by_dim !! dim))). split.
      * apply list_elem_of_fmap. exists (date, by_dim). split; [reflexivity|].
        now apply elem_of_map_to_list.
      * apply elem_of_dom. exact H.
    + cbn in H. rewrite lookup_empty in H. cbn in H. rewrite lookup_empty in H.
      destruct H as [x H]. discriminate.
Qed.

Lemma ints_le_total (a b : list Z) : ints_le a b = true \/ ints_le b a = true.
Proof.
  revert b. induction a as [|x a IH]; intros [|y b]; cbn [ints_le]; auto.
  destruct (IH b) as [H | H]; rewrite H;
    destruct (Z.ltb_spec x y), (Z.ltb_spec y x), (Z.eqb_spec x y), (Z.eqb_spec y x);
    cbn; auto; lia.
Qed.

Lemma ints_le_trans (a b c : list Z) :
  ints_le a b = true -> ints_le b c = true -> ints_le a c = true.
Proof.
  revert b c. induction a as [|x a IH]; intros [|y b] [|z c]; cbn [ints_le]; try congruence.
  intros H1 H2.
  apply orb_true_iff in H1. apply orb_true_iff in H2. apply orb_true_iff.
  rewrite !andb_true_iff, !Z.ltb_lt, !Z.eqb_eq in *.
  destruct H1 as [H1 | [H1 H1']], H2 as [H2 | [H2 H2']]; try (left; lia).
  right. split; [lia|]. eapply IH; eauto.
Qed.

Lemma str_le_total (a b : string) : str_le a b = true \/ str_le b a = true.
Proof. exact (String.leb_total a b). Qed.

Lemma str_le_trans (a b c : string) : str_le a b = true -> str_le b c = true -> str_le a c = true.
Proof.
  intros H1 H2. apply Is_true_true. apply Is_true_true in H1, H2.
  exact (@transitivity _ String.le _ a b c H1 H2).
Qed.

Lemma map_result_Ok {A B} (f : A -> result B) (l : list A) (ys : list B) :
  map_result f l = Ok ys -> Forall2 (fun x y => f x = Ok y) l ys.
Proof.
  revert ys. induction l as [|x l IH]; intros ys H; cbn [map_result] in H.
  - injection H as <-. constructor.
  - apply bind_Ok in H. destruct H as (y & Hy & H).
    apply bind_Ok in H. destruct H as (ys' & Hys & H). injection H as <-.
    constructor; auto.
Qed.

Lemma map_result_cases {A B} (f : A -> result B) (l : list A) :
  (exists ys, map_result f l = Ok ys)
  \/ (exists x e, In x l /\ f x = Raise e /\ map_result f l = Raise e).
Proof.
  induction l as [|x l IH]; cbn [map_result]; [left; eauto|].
  destruct (f x) as [y|e] eqn:E; cbn [bind].
  - destruct IH as [(ys & ->) | (x' & e & Hin & Hx & ->)]; cbn [bind].
    + left. eauto.
    + right. exists x', e. repeat split; auto. now right.
  - right. exists x, e. repeat split; auto. now left.
Qed.

(** A sorted list of versions: each version before the ones after it. *)
Lemma sort_versions_sorted (l l' : list string) :
  sort_versions l = Ok l' -> StronglySorted (fun a b => version_le a b = true) l'.
Proof.
  unfold sort_versions. intros H. apply bind_Ok in H. destruct H as (keyed & Hk & H).
  injection H as <-.
  assert (Hkeys : Forall (fun p => version_key (snd p) = Ok (fst p)) keyed).
  { apply map_result_Ok in Hk. clear - Hk.
    induction Hk as [|v [k v'] l ys Hv _ IH]; constructor; [|exact IH].
    apply bind_Ok in Hv. destruct Hv as (k' & Hk' & Hv). injection Hv as <- <-. exact Hk'. }
  assert (Hsorted := sort_by_sorted (fun a b : list Z * string => ints_le (fst a) (fst b))
                       (fun a b => ints_le_total (fst a) (fst b))
                       (fun a b c => ints_le_trans (fst a) (fst b) (fst c)) keyed).
  assert (Hkeys' : Forall (fun p => version_key (snd p) = Ok (fst p))
                     (sort_by (fun a b : list Z * string => ints_le (fst a) (fst b)) keyed)).
  { rewrite List.Forall_forall in *. intros p Hp. apply Hkeys.
    apply list_elem_of_In. rewrite <- (sort_by_perm (fun a b => ints_le (fst a) (fst b)) keyed).
    now apply list_elem_of_In. }
  revert Hsorted Hkeys'.
  generalize (sort_by (fun a b : list Z * string => ints_le (fst a) (fst b)) keyed).
  intros s Hs. induction Hs as [|p s Hs IH Hall]; intros Hk'; cbn [map]; constructor.
  - apply IH. now inversion Hk'.
  - inversion Hk' as [|? ? Hp Hrest]; subst.
    rewrite List.Forall_forall in *. intros v Hv. apply in_map_iff in Hv.
    destruct Hv as (q & <- & Hq). unfold version_le.
    rewrite Hp, (Hrest q Hq). now apply Hall.
Qed.

Lemma sort_versions_cases (l : list string) :
  (exists l', sort_versions l = Ok l')
  \/ (exists v, In v l /\ version_key v = Raise ValueError /\ sort_versions l = Raise ValueError).
Proof.
  unfold sort_versions.
  destruct (map_result_cases (fun v => k <- version_key v;; Ok (k, v)) l)
    as [(ys & ->) | (v & e & Hin & Hv & ->)]; cbn [bind]; [left; eauto|].
  right. exists v. split; [exact Hin|].
  destruct (version_key v) as [k|e'] eqn:E; cbn [bind] in Hv; [discriminate|].
  injection Hv as <-.
  assert (e' = ValueError).
  { unfold version_key in E.
    destruct (map_result_cases (fun c => or_raise ValueError (PyStr.int c)) (PyStr.split_on "." v))
      as [(ys & Hys) | (c & e'' & _ & Hc & Hr)]; [congruence|].
    rewrite Hr in E. injection E as <-.
    destruct (PyStr.int c); cbn in Hc; congruence. }
  subst e'. auto.
Qed.

Lemma sorted_columns (le : string -> string -> bool) (X : gset string) (cols : list string) :
  Permutation cols (elements X) ->
  NoDup cols /\ (forall key, In key cols <-> key ∈ X).
Proof.
  intros Hp. split.
  - rewrite Hp. apply NoDup_elements.
  - intros key. rewrite <- list_elem_of_In, Hp. apply elem_of_elements.
Qed.

(** The columns of a dimension: the keys of the store, each once. *)
Lemma key_index_columns (data : store) (keys : gmap string (list string)) (dim : string) :
  get_keys data = Ok keys -> In dim dims ->
  exists cols, keys !! dim = Some cols
    /\ NoDup cols
    /\ (forall key, In key cols <-> exists date, has_key data date dim key).
Proof.
  unfold get_keys. intros H Hdim.
  apply bind_Ok in H. destruct H as (c_vm & Hvm & H).
  apply bind_Ok in H. destruct H as (c_v & Hv & H). injection H as <-.
  cbn in Hdim. destruct Hdim as [<- | [<- | [<- | [<- | []]]]];
    rewrite ?lookup_insert_ne by discriminate; rewrite lookup_insert_eq;
    eexists; (split; [reflexivity|]).
  - destruct (sorted_columns version_le _ _ (sort_versions_perm _ _ Hvm)) as [N I].
    split; [exact N|]. intros key; rewrite I; apply dim_keys_spec.
  - destruct (sorted_columns version_le _ _ (sort_versions_perm _ _ Hv)) as [N I].
    split; [exact N|]. intros key; rewrite I; apply dim_keys_spec.
  - destruct (sorted_columns str_le _ _ (sort_by_perm str_le (elements (dim_keys data "os"))))
      as [N I].
    split; [exact N|]. intros key; rewrite I; apply dim_keys_spec.
  - destruct (sorted_columns str_le _ _ (sort_by_perm str_le (elements (dim_keys data "osarch"))))
      as [N I].
    split; [exact N|]. intros key; rewrite I; apply dim_keys_spec.
Qed.

(** X7. The index of keys that [get_keys] returns has, for each of the four
    dimensions, each key that some day of the store holds in that
    dimension, once and no other; the versions stand in the order of their
    components read as integers, the systems in the order of their
    characters. *)
Theorem key_index_spec (data : store) (keys : gmap string (list string)) (dim : string) :
  get_keys data = Ok keys -> In dim dims ->
  exists cols, keys !! dim = Some cols
    /\ NoDup cols
    /\ (forall key, In key cols <-> exists date, has_key data date dim key)
    /\ StronglySorted (fun a b => column_le dim a b = true) cols.
Proof.
  unfold get_keys. intros H Hdim.
  apply bind_Ok in H. destruct H as (c_vm & Hvm & H).
  apply bind_Ok in H. destruct H as (c_v & Hv & H). injection H as <-.
  cbn in Hdim. destruct Hdim as [<- | [<- | [<- | [<- | []]]]];
    rewrite ?lookup_insert_ne by discriminate; rewrite lookup_insert_eq;
    eexists; (split; [reflexivity|]).
  - destruct (sorted_columns version_le _ _ (sort_versions_perm _ _ Hvm)) as [N I].
    split; [exact N|]. split; [intros key; rewrite I; apply dim_keys_spec|].
    exact (sort_versions_sorted _ _ Hvm).
  - destruct (sorted_columns version_le _ _ (sort_versions_perm _ _ Hv)) as [N I].
    split; [exact N|]. split; [intros key; rewrite I; apply dim_keys_spec|].
    exact (sort_versions_sorted _ _ Hv).
  - destruct (sorted_columns str_le _ _ (sort_by_perm str_le (elements (dim_keys data "os"))))
      as [N I].
    split; [exact N|]. split; [intros key; rewrite I; apply dim_keys_spec|].
    exact (sort_by_sorted str_le str_le_total str_le_trans _).
  - destruct (sorted_columns str_le _ _ (sort_by_perm str_le (elements (dim_keys data "osarch"))))
      as [N I].
    split; [exact N|]. split; [intros key; rewrite I; apply dim_keys_spec|].
    exact (sort_by_sorted str_le str_le_total str_le_trans _).
Qed.

Lemma key_index_spec_witness :
  exists keys cols, get_keys example_store = Ok keys
    /\ keys !! "version" = Some cols
    /\ NoDup cols
    /\ (forall key, In key cols <-> exists date, has_key example_store date "version" key)
    /\ StronglySorted (fun a b => column_le "version" a b = true) cols.
Proof.
  destruct (get_keys example_store) as [keys|e] eqn:E.
  - destruct (key_index_spec example_store keys "version" E) as (cols & H);
      [cbn; auto | exists keys, cols; auto].
  - exfalso. assert (Hok : is_ok (get_keys example_store) = true)
      by vm_cast_no_check (@eq_refl bool true).
    rewrite E in Hok. discriminate Hok.
Defined.


Lemma write_headers_tables (c_vm c_v c_os c_oa : list string) :
  exists files,
    write_headers (the_keys c_vm c_v c_os c_oa) = Ok files /\
    forall dim cols, In (dim, cols) (the_columns c_vm c_v c_os c_oa) ->
      files !! dim = Some (Table ("Date" :: cols ++ ["Total"]) []) /\
      files !! cum_name dim = Some (Table ("Date" :: cols ++ ["Total"]) []).
Proof.
  unfold write_headers, fs_names. cbn [fold_left bind].
  change (lstrip_chars "cum_" "version_major") with "version_major".
  change (lstrip_chars "cum_" "version") with "version".
  change (lstrip_chars "cum_" "os") with "os".
  change (lstrip_chars "cum_" "osarch") with "osarch".
  change (lstrip_chars "cum_" "cum_version_major") with "version_major".
  change (lstrip_chars "cum_" "cum_version") with "version".
  change (lstrip_chars "cum_" "cum_os") with "os".
  change (lstrip_chars "cum_" "cum_osarch") with "osarch".
  rewrite (lookup_the_keys c_vm c_v c_os c_oa "version_major" c_vm) by (simpl; auto).
  cbn [bind].
  rewrite (lookup_the_keys c_vm c_v c_os c_oa "version" c_v) by (simpl; auto).
  cbn [bind].
  rewrite (lookup_the_keys c_vm c_v c_os c_oa "os" c_os) by (simpl; auto).
  cbn [bind].
  rewrite (lookup_the_keys c_vm c_v c_os c_oa "osarch" c_oa) by (simpl; auto 10).
  cbn [bind].
  eexists. split; [reflexivity|].
  intros dim cols Hin. simpl in Hin. unfold cum_name.
  destruct Hin as [[= <- <-] | [[= <- <-] | [[= <- <-] | [[= <- <-] | []]]]];
    cbn [String.append]; split;
    rewrite ?lookup_insert_ne by discriminate; apply lookup_insert_eq.
Qed.

Lemma header_write_line (cum : bins) (files : gmap string table) (tt : Z)
    (keyname : string) (line : row) (name : string) :
  file_header (WState cum (write_line keyname line files) tt) name
  = file_header (WState cum files tt) name.
Proof.
  unfold file_header, write_line. cbn [w_files].
  destruct (files !! keyname) as [t|] eqn:Ht; [|reflexivity].
  destruct (decide (keyname = name)) as [<- | Hne].
  - rewrite lookup_insert_eq, Ht. reflexivity.
  - now rewrite lookup_insert_ne.
Qed.

Lemma file_header_files (cum cum' : bins) (files : gmap string table) (tt tt' : Z) (name : string) :
  file_header (WState cum files tt) name = file_header (WState cum' files tt') name.
Proof. reflexivity. Qed.

Section Totals.

Variable tz : Z.
Variable args : Args.
Variable data : store.
Variables c_vm c_v c_os c_oa : list string.
Hypothesis nodup_columns :
  forall dim cols, In (dim, cols) (the_columns c_vm c_v c_os c_oa) -> NoDup cols.

(** What the eight lines of a day add to the total of the summary, and
    that they leave the headers alone. *)
Lemma write_date_total (st st' : wstate) (date : datetime) :
  in_window tz args date = true ->
  write_date tz args data (the_keys c_vm c_v c_os c_oa) st date = Ok st' ->
  w_total_total st' = w_total_total st + r_total (daily_row data "os" c_os date)
  /\ forall name, file_header st' name = file_header st name.
Proof.
  intros Hwin. unfold write_date. rewrite Hwin. cbn [negb]. unfold fs_names.
  destruct st as [cum0 files0 tt0].
  rewrite fold_bind_cons, (write_row_daily _ _ _ _ _ _ date "version_major" c_vm) by (simpl; auto).
  cbn [bind w_cum w_files w_total_total].
  rewrite fold_bind_cons, (write_row_daily _ _ _ _ _ _ date "version" c_v) by (simpl; auto).
  cbn [bind w_cum w_files w_total_total].
  rewrite fold_bind_cons, (write_row_daily _ _ _ _ _ _ date "os" c_os) by (simpl; auto).
  cbn [bind w_cum w_files w_total_total].
  rewrite fold_bind_cons, (write_row_daily _ _ _ _ _ _ date "osarch" c_oa) by (simpl; auto).
  cbn [bind w_cum w_files w_total_total].
  rewrite fold_bind_cons.
  change "cum_version_major" with (cum_name "version_major").
  rewrite (write_row_cum _ _ _ _ _ nodup_columns _ date "version_major" c_vm) by (simpl; auto).
  cbn [bind w_cum w_files w_total_total].
  rewrite fold_bind_cons.
  change "cum_version" with (cum_name "version").
  rewrite (write_row_cum _ _ _ _ _ nodup_columns _ date "version" c_v) by (simpl; auto).
  cbn [bind w_cum w_files w_total_total].
  rewrite fold_bind_cons.
  change "cum_os" with (cum_name "os").
  rewrite (write_row_cum _ _ _ _ _ nodup_columns _ date "os" c_os) by (simpl; auto).
  cbn [bind w_cum w_files w_total_total].
  rewrite fold_bind_cons.
  change "cum_osarch" with (cum_name "osarch").
  rewrite (write_row_cum _ _ _ _ _ nodup_columns _ date "osarch" c_oa) by (simpl; auto).
  cbn [bind w_cum w_files w_total_total fold_left].
  intros H. injection H as <-. cbn [w_total_total].
  split.
  - change (String.eqb "version_major" "os") with false.
    change (String.eqb "version" "os") with false.
    change (String.eqb "osarch" "os") with false.
    change (String.eqb "os" "os") with true. cbv iota. reflexivity.
  - intros name. rewrite !header_write_line. reflexivity.
Qed.

Lemma write_dates_total (dates : list datetime) : forall st st',
  files_open st ->
  write_dates tz args data (the_keys c_vm c_v c_os c_oa) dates st = Ok st' ->
  w_total_total st'
  = w_total_total st
    + sumZ (map r_total (map (daily_row data "os" c_os) (List.filter (in_window tz args) dates)))
  /\ forall name, file_header st' name = file_header st name.
Proof.
  unfold write_dates. induction dates as [|d ds IH]; intros st st' Hopen H.
  - injection H as <-. cbn. split; [lia | reflexivity].
  - rewrite fold_bind_cons in H. cbn [List.filter].
    destruct (in_window tz args d) eqn:Hwin.
    + destruct (write_date_in tz args data c_vm c_v c_os c_oa nodup_columns st d Hwin Hopen)
        as (st1 & H1 & Hopen1 & _).
      rewrite H1 in H. cbn [bind] in H.
      destruct (write_date_total st st1 d Hwin H1) as [T1 Hd1].
      destruct (IH st1 st' Hopen1 H) as [T Hd].
      split.
      * rewrite T, T1. cbn [map sumZ fold_right]. unfold sumZ. lia.
      * intros name. now rewrite Hd, Hd1.
    + rewrite (write_date_out tz args data c_vm c_v c_os c_oa st d Hwin) in H. cbn [bind] in H.
      now apply IH.
Qed.

End Totals.

(** The whole of what [write_csvs] returns. *)
Lemma write_csvs_report (tz : Z) (args : Args) (data : store) (out : wstate) :
  write_csvs tz args data = Ok out ->
  exists c_vm c_v c_os c_oa,
    get_keys data = Ok (the_keys c_vm c_v c_os c_oa)
    /\ (forall dim cols, In (dim, cols) (the_columns c_vm c_v c_os c_oa) ->
          NoDup cols
          /\ file_header out dim = Some ("Date" :: cols ++ ["Total"])%list
          /\ file_header out (cum_name dim) = Some ("Date" :: cols ++ ["Total"])%list
          /\ file_rows out dim = map (daily_row data dim cols) (report_days tz args data)
          /\ file_rows out (cum_name dim)
             = cum_rows data dim cols (map (fun _ => 0) cols) (report_days tz args data))
    /\ w_total_total out = sumZ (map r_total (file_rows out "os")).
Proof.
  unfold write_csvs. intros H.
  apply bind_Ok in H. destruct H as (keys & Hkeys & H).
  apply bind_Ok in H. destruct H as (files & Hfiles & H).
  destruct (get_keys_columns data keys Hkeys) as (c_vm & c_v & c_os & c_oa & -> & N1 & N2 & N3 & N4).
  exists c_vm, c_v, c_os, c_oa. split; [exact Hkeys|].
  destruct (write_headers_tables c_vm c_v c_os c_oa) as (files' & Hfiles' & Hheaders).
  rewrite Hfiles' in Hfiles. injection Hfiles as ->.
  assert (Hnodup : forall d c, In (d, c) (the_columns c_vm c_v c_os c_oa) -> NoDup c).
  { intros d c Hin. simpl in Hin.
    destruct Hin as [[= <- <-] | [[= <- <-] | [[= <- <-] | [[= <- <-] | []]]]]; assumption. }
  assert (Hnames : forall name, In name fs_names ->
            exists dim cols, In (dim, cols) (the_columns c_vm c_v c_os c_oa)
              /\ (name = dim \/ name = cum_name dim)).
  { intros name Hname. simpl in Hname.
    destruct Hname as [<- | [<- | [<- | [<- | [<- | [<- | [<- | [<- | []]]]]]]]].
    - exists "version_major", c_vm. simpl. auto.
    - exists "version", c_v. simpl. auto.
    - exists "os", c_os. simpl. auto.
    - exists "osarch", c_oa. simpl. auto 10.
    - exists "version_major", c_vm. simpl. auto.
    - exists "version", c_v. simpl. auto.
    - exists "os", c_os. simpl. auto.
    - exists "osarch", c_oa. simpl. auto 10. }
  assert (Hopen0 : files_open (WState ∅ files 0)).
  { intros name Hname. destruct (Hnames name Hname) as (dim & cols & Hin & [-> | ->]);
      destruct (Hheaders dim cols Hin) as [H1 H2]; cbn [w_files]; eauto. }
  destruct (write_dates_rows tz args data c_vm c_v c_os c_oa Hnodup
              (sort_by date_le (map fst (map_to_list data))) _ Hopen0)
    as (st' & Hst' & _ & Hrows).
  destruct (write_dates_total tz args data c_vm c_v c_os c_oa Hnodup _ _ _ Hopen0 Hst')
    as [Htotal Hhead].
  rewrite Hst' in H. injection H as <-.
  assert (Hempty : forall dim cols, In (dim, cols) (the_columns c_vm c_v c_os c_oa) ->
            file_rows (WState ∅ files 0) dim = []
            /\ file_rows (WState ∅ files 0) (cum_name dim) = []).
  { intros dim cols Hin. destruct (Hheaders dim cols Hin) as [H1 H2].
    unfold file_rows. cbn [w_files]. now rewrite H1, H2. }
  split.
  - intros dim cols Hin. split; [eapply Hnodup; exact Hin|].
    destruct (Hheaders dim cols Hin) as [H1 H2].
    destruct (Hrows dim cols Hin) as [Hd Hc].
    destruct (Hempty dim cols Hin) as [E1 E2].
    rewrite !Hhead. unfold file_header. cbn [w_files]. rewrite H1, H2.
    split; [reflexivity|]. split; [reflexivity|].
    rewrite Hd, Hc, E1, E2. cbn [w_cum app]. split; [reflexivity|].
    unfold report_days.
    rewrite (map_ext (cum_cell ∅ (cum_name dim)) (fun _ => 0)); [reflexivity|].
    intros key. apply cum_cell_empty.
  - rewrite Htotal. cbn [w_total_total].
    destruct (Hrows "os" c_os) as [Hd _]; [simpl; auto|].
    destruct (Hempty "os" c_os) as [E1 _]; [simpl; auto|].
    rewrite Hd, E1. reflexivity.
Qed.

Lemma report_days_spec (tz : Z) (args : Args) (data : store) (d : datetime) :
  In d (report_days tz args data) <-> is_Some (data !! d) /\ in_window tz args d = true.
Proof.
  unfold report_days. rewrite filter_In.
  rewrite <- list_elem_of_In, (sort_by_perm date_le (map fst (map_to_list data))).
  rewrite list_elem_of_fmap. split.
  - intros [([d' x] & -> & Hin) Hw]. apply elem_of_map_to_list in Hin. cbn. eauto.
  - intros [[x Hx] Hw]. split; [|exact Hw]. exists (d, x). split; [reflexivity|].
    now apply elem_of_map_to_list.
Qed.

Lemma fs_names_dims (name : string) :
  In name fs_names -> exists dim, In dim dims /\ (name = dim \/ name = cum_name dim).
Proof.
  intros H. simpl in H.
  destruct H as [<- | [<- | [<- | [<- | [<- | [<- | [<- | [<- | []]]]]]]]].
  - exists "version_major". simpl. auto.
  - exists "version". simpl. auto.
  - exists "os". simpl. auto.
  - exists "osarch". simpl. auto 10.
  - exists "version_major". simpl. auto.
  - exists "version". simpl. auto.
  - exists "os". simpl. auto.
  - exists "osarch". simpl. auto 10.
Qed.

Lemma dims_columns (c_vm c_v c_os c_oa : list string) (dim : string) :
  In dim dims -> exists cols, In (dim, cols) (the_columns c_vm c_v c_os c_oa).
Proof.
  intros H. simpl in H. destruct H as [<- | [<- | [<- | [<- | []]]]]; eexists; simpl; eauto 10.
Qed.

(** X9. Each of the eight tables has one line for each day of the store
    whose midnight lies in the window, and no other line; the lines stand
    in the order of their days, no day twice. *)
Theorem report_lines_days (tz : Z) (args : Args) (data : store) (out : wstate) (name : string) :
  write_csvs tz args data = Ok out -> In name fs_names ->
  dates_ascending (map r_date (file_rows out name))
  /\ forall d, In d (map r_date (file_rows out name))
       <-> is_Some (data !! d) /\ in_window tz args d = true.
Proof.
  intros H Hname.
  destruct (write_csvs_report tz args data out H) as (c_vm & c_v & c_os & c_oa & _ & Htab & _).
  destruct (fs_names_dims name Hname) as (dim & Hdim & Hn).
  destruct (dims_columns c_vm c_v c_os c_oa dim Hdim) as (cols & Hin).
  destruct (Htab dim cols Hin) as (_ & _ & _ & Hd & Hc).
  assert (E : map r_date (file_rows out name) = report_days tz args data).
  { destruct Hn as [-> | ->]; [rewrite Hd; apply daily_dates | rewrite Hc; apply cum_dates]. }
  rewrite E. split; [apply report_dates_ascending|].
  intros d. apply report_days_spec.
Qed.

Lemma report_lines_days_witness :
  dates_ascending (map r_date (file_rows example_report "cum_version"))
  /\ forall d, In d (map r_date (file_rows example_report "cum_version"))
       <-> is_Some (example_store !! d) /\ in_window 0 (MkArgs 0 2000000000) d = true.
Proof.
  apply (report_lines_days 0 (MkArgs 0 2000000000) example_store example_report "cum_version");
    [exact example_written | simpl; auto 10].
Defined.

(** X10. The shape of the tables of a dimension. The daily and the
    cumulative file have the same header: Date, the keys of the dimension
    in the order of the index, and Total. A line of the daily file holds,
    under each key, the cell of its day, and every line of either file ends
    with the sum of its cells. *)
Theorem report_table_shape (tz : Z) (args : Args) (data : store) (out : wstate)
    (keys : gmap string (list string)) (dim : string) :
  write_csvs tz args data = Ok out -> get_keys data = Ok keys -> In dim dims ->
  exists cols, keys !! dim = Some cols
    /\ file_header out dim = Some ("Date" :: cols ++ ["Total"])%list
    /\ file_header out ("cum_" ++ dim) = Some ("Date" :: cols ++ ["Total"])%list
    /\ (forall r, In r (file_rows out dim) ->
          r_cells r = map (cell data (r_date r) dim) cols /\ r_total r = sumZ (r_cells r))
    /\ (forall r, In r (file_rows out ("cum_" ++ dim)) ->
          length (r_cells r) = length cols /\ r_total r = sumZ (r_cells r)).
Proof.
  intros H Hkeys Hdim.
  destruct (write_csvs_report tz args data out H) as (c_vm & c_v & c_os & c_oa & Hk & Htab & _).
  rewrite Hk in Hkeys. injection Hkeys as <-.
  destruct (dims_columns c_vm c_v c_os c_oa dim Hdim) as (cols & Hin).
  destruct (Htab dim cols Hin) as (_ & Hh & Hhc & Hd & Hc).
  exists cols. split.
  { pose proof (lookup_the_keys c_vm c_v c_os c_oa dim cols Hin) as L. unfold lookup_keys in L.
    destruct (the_keys c_vm c_v c_os c_oa !! dim); cbn in L; congruence. }
  split; [exact Hh|]. split; [exact Hhc|]. split.
  - intros r Hr. rewrite Hd in Hr. apply in_map_iff in Hr. destruct Hr as (d & <- & _).
    split; reflexivity.
  - intros r Hr. change ("cum_" ++ dim) with (cum_name dim) in Hr. rewrite Hc in Hr.
    revert Hr. generalize (report_days tz args data).
    assert (Hlen : length (map (fun _ : string => 0) cols) = length cols) by apply length_map.
    revert Hlen. generalize (map (fun _ : string => 0) cols).
    intros acc Hlen W. revert acc Hlen. induction W as [|d W IH]; intros acc Hlen Hr; [destruct Hr|].
    assert (Hlen' : length (zip_with Z.add acc (map (cell data d dim) cols)) = length cols).
    { rewrite length_zip_add; [exact Hlen | now rewrite length_map]. }
    cbn [cum_rows] in Hr. destruct Hr as [<- | Hr].
    + cbn [r_cells r_total]. split; [exact Hlen' | reflexivity].
    + exact (IH _ Hlen' Hr).
Qed.

Lemma report_table_shape_witness :
  exists keys cols, get_keys example_store = Ok keys /\ keys !! "os" = Some cols
    /\ file_header example_report "os" = Some ("Date" :: cols ++ ["Total"])%list
    /\ file_header example_report ("cum_" ++ "os") = Some ("Date" :: cols ++ ["Total"])%list
    /\ (forall r, In r (file_rows example_report "os") ->
          r_cells r = map (cell example_store (r_date r) "os") cols
          /\ r_total r = sumZ (r_cells r))
    /\ (forall r, In r (file_rows example_report ("cum_" ++ "os")) ->
          length (r_cells r) = length cols /\ r_total r = sumZ (r_cells r)).
Proof.
  destruct (get_keys example_store) as [keys|e] eqn:E.
  - destruct (report_table_shape 0 (MkArgs 0 2000000000) example_store example_report keys "os"
                example_written E) as (cols & H); [simpl; auto | exists keys, cols; auto].
  - exfalso. assert (Hok : is_ok (get_keys example_store) = true)
      by vm_cast_no_check (@eq_refl bool true).
    rewrite E in Hok. discriminate Hok.
Defined.

(** X11. The total of the summary is the sum of the Total column of the
    daily table of the systems. *)
Theorem summary_total_of_os_rows (tz : Z) (args : Args) (data : store) (out : wstate) :
  write_csvs tz args data = Ok out ->
  w_total_total out = sumZ (map r_total (file_rows out "os")).
Proof.
  intros H. destruct (write_csvs_report tz args data out H) as (? & ? & ? & ? & _ & _ & T).
  exact T.
Qed.

Lemma summary_total_of_os_rows_witness :
  w_total_total example_report = sumZ (map r_total (file_rows example_report "os")).
Proof. exact (summary_total_of_os_rows 0 (MkArgs 0 2000000000) example_store example_report example_written). Defined.

Lemma sumZ_map_add {A} (f g : A -> Z) (l : list A) :
  sumZ (map (fun x => f x + g x) l) = sumZ (map f l) + sumZ (map g l).
Proof. induction l as [|x l IH]; cbn; [reflexivity|]. unfold sumZ in *. lia. Qed.

(** A sum that only one place of a list without repeats contributes to. *)
Lemma sumZ_indicator {A} `{EqDecision A} (x : A) (w : Z) (l : list A) :
  NoDup l -> In x l -> sumZ (map (fun y => if decide (x = y) then w else 0) l) = w.
Proof.
  induction 1 as [|y l Hy Hnd IH]; intros Hin; [destruct Hin|].
  cbn [map sumZ fold_right]. destruct Hin as [-> | Hin].
  - rewrite decide_True by reflexivity.
    assert (Z : fold_right Z.add 0 (map (fun y => if decide (x = y) then w else 0) l) = 0).
    { clear - Hy. induction l as [|z l IH]; [reflexivity|]. cbn [map fold_right].
      rewrite decide_False.
      - rewrite IH; [reflexivity|]. intros H. apply Hy. now right.
      - intros ->. apply Hy. now left. }
    rewrite Z. lia.
  - rewrite decide_False.
    + specialize (IH Hin). unfold sumZ in IH. rewrite IH. lia.
    + intros <-. apply Hy. now apply list_elem_of_In.
Qed.

Lemma sumZ_zero {A} (l : list A) : sumZ (map (fun _ => 0) l) = 0.
Proof. induction l as [|x l IH]; cbn; [reflexivity|]. unfold sumZ in IH. now rewrite IH. Qed.

(** The events of one record, seen from a cell of one of the four
    dimensions. *)
Lemma tally_events (h : hit) (date : datetime) (dim key : string) :
  In dim dims ->
  tally (events h) date dim key
  = if decide (h_date h = date) then (if decide (hit_key dim h = key) then h_weight h else 0)
    else 0.
Proof.
  intros Hdim. unfold events. rewrite !tally_cons. unfold tally. cbn [List.filter map sumZ fold_right weight snd].
  repeat match goal with
  | |- context [event_at ?d ?m ?k ?e] =>
      let E := fresh "E" in
      destruct (event_at d m k e) eqn:E;
      [apply event_at_spec in E; destruct E as (? & ? & ?) |]
  end;
  simpl in Hdim; destruct Hdim as [<- | [<- | [<- | [<- | []]]]]; try discriminate;
  change (hit_key "version_major" h) with (h_version_major h) in *;
  change (hit_key "version" h) with (h_version h) in *;
  change (hit_key "os" h) with (h_os h) in *;
  change (hit_key "osarch" h) with (osarch h) in *;
  repeat match goal with
  | |- context [decide ?P] => destruct (decide P)
  end; try lia; try congruence;
  exfalso;
  match goal with
  | E : event_at _ _ _ _ = false |- _ =>
      solve [apply not_true_iff_false in E; apply E; apply event_at_spec; auto]
  end.
Qed.

Lemma day_weight_cons (h : hit) (hs : list hit) (date : datetime) :
  day_weight (h :: hs) date
  = (if decide (h_date h = date) then h_weight h else 0) + day_weight hs date.
Proof.
  unfold day_weight. cbn [List.filter].
  destruct (decide (h_date h = date)) as [E | E].
  - rewrite bool_decide_eq_true_2 by exact E. reflexivity.
  - rewrite bool_decide_eq_false_2 by exact E. reflexivity.
Qed.

(** The cells of a day under the keys of a dimension add up to the weight
    of the records of the day. *)
Lemma sum_tally (hs : list hit) (cols : list string) (date : datetime) (dim : string) :
  In dim dims -> NoDup cols ->
  (forall h, In h hs -> In (hit_key dim h) cols) ->
  sumZ (map (tally (all_events hs) date dim) cols) = day_weight hs date.
Proof.
  intros Hdim Hnd. induction hs as [|h hs IH]; intros Hall.
  - unfold all_events, tally, day_weight. cbn. apply sumZ_zero.
  - unfold all_events. cbn [map concat]. fold (all_events hs).
    rewrite (map_ext _ (fun key => tally (events h) date dim key + tally (all_events hs) date dim key))
      by (intros key; apply tally_app).
    rewrite sumZ_map_add, IH by (intros h' Hh'; apply Hall; now right).
    rewrite day_weight_cons. f_equal.
    rewrite (map_ext _ (fun key => if decide (h_date h = date)
                                   then (if decide (hit_key dim h = key) then h_weight h else 0)
                                   else 0))
      by (intros key; now apply tally_events).
    destruct (decide (h_date h = date)); [|apply sumZ_zero].
    apply sumZ_indicator; [exact Hnd|]. apply Hall. now left.
Qed.

Lemma events_hit_key (h : hit) (dim : string) :
  In dim dims -> In (h_date h, dim, hit_key dim h, h_weight h) (events h).
Proof.
  intros Hdim. simpl in Hdim. unfold events.
  destruct Hdim as [<- | [<- | [<- | [<- | []]]]]; simpl; auto.
Qed.

Lemma has_key_hit (hs : list hit) (h : hit) (dim : string) :
  In dim dims -> In h hs ->
  has_key (fold_left store_hit hs ∅) (h_date h) dim (hit_key dim h).
Proof.
  intros Hdim Hin. rewrite store_hits_events. apply has_key_accumulate_all. right.
  exists (h_weight h). unfold all_events. apply in_concat.
  exists (events h). split; [now apply in_map | now apply events_hit_key].
Qed.

Lemma has_key_day (data : store) (date : datetime) (dim key : string) :
  has_key data date dim key -> is_Some (data !! date).
Proof.
  unfold has_key. destruct (data !! date); [eauto|].
  simpl. rewrite lookup_empty. simpl. rewrite lookup_empty. intros [x H]. discriminate.
Qed.

(** The cells of a day under the columns of the index add up to the
    weight of the records of the day. *)
Lemma day_cells_weight (hs : list hit) (keys : gmap string (list string)) (dim : string)
    (cols : list string) (d : datetime) :
  get_keys (fold_left store_hit hs ∅) = Ok keys -> In dim dims -> keys !! dim = Some cols ->
  sumZ (map (cell (fold_left store_hit hs ∅) d dim) cols) = day_weight hs d.
Proof.
  intros Hk Hdim Hcols.
  destruct (key_index_columns _ keys dim Hk Hdim) as (cols' & E & Hnd & Hin).
  rewrite Hcols in E. injection E as <-.
  rewrite (map_ext (cell (fold_left store_hit hs ∅) d dim) (tally (all_events hs) d dim)).
  - apply sum_tally; [exact Hdim | exact Hnd |].
    intros h Hh. apply Hin. exists (h_date h). now apply has_key_hit.
  - intros key. rewrite store_hits_events, cell_accumulate_all, cell_empty. lia.
Qed.

(** A run of [main]: the records, their store and its report. *)
Lemma main_run (tz : Z) (args : Args) (native : list string) (logs : list (list string))
    (out : wstate) :
  main tz args native logs = Ok out ->
  exists hs, ingest_hits tz args native logs = Ok hs
    /\ write_csvs tz args (fold_left store_hit hs ∅) = Ok out.
Proof.
  unfold main. intros H. apply bind_Ok in H. destruct H as (data & Hdata & H).
  rewrite ingest_store in Hdata. apply bind_Ok in Hdata. destruct Hdata as (hs & Hhs & Hdata).
  injection Hdata as <-. eauto.
Qed.

Lemma sumZ_indicator_out {A} `{EqDecision A} (x : A) (w : Z) (l : list A) :
  ~ In x l -> sumZ (map (fun y => if decide (x = y) then w else 0) l) = 0.
Proof.
  induction l as [|y l IH]; intros Hx; [reflexivity|].
  cbn [map sumZ fold_right]. rewrite decide_False by (intros ->; apply Hx; now left).
  unfold sumZ in IH. rewrite IH; [reflexivity|]. intros H. apply Hx. now right.
Qed.

(** The weights of the days of a list without repeats add up to the weight
    of the records of those days. *)
Lemma sum_day_weights (hs : list hit) (days : list datetime) (f : datetime -> bool) :
  NoDup days -> (forall d, In d days -> f d = true) ->
  (forall h, In h hs -> f (h_date h) = true -> In (h_date h) days) ->
  sumZ (map (day_weight hs) days)
  = sumZ (map h_weight (List.filter (fun h => f (h_date h)) hs)).
Proof.
  intros Hnd Hf. induction hs as [|h hs IH]; intros Hall.
  - unfold day_weight. cbn. apply sumZ_zero.
  - rewrite (map_ext _ (fun d => (if decide (h_date h = d) then h_weight h else 0)
                                 + day_weight hs d))
      by (intros d; apply day_weight_cons).
    rewrite sumZ_map_add, IH by (intros h' Hh'; apply Hall; now right).
    cbn [List.filter]. destruct (f (h_date h)) eqn:E.
    + rewrite sumZ_indicator; [reflexivity | exact Hnd |]. apply Hall; [now left | exact E].
    + rewrite sumZ_indicator_out; [reflexivity|]. intros Hin. rewrite (Hf _ Hin) in E. discriminate.
Qed.

(** X12. In a run of [main], the Total of a line of each of the four daily
    tables is the total weight of the records accepted for the day of the
    line: the four tables agree on the total of every day. *)
Theorem daily_totals_are_day_weights (tz : Z) (args : Args) (native : list string)
    (logs : list (list string)) (out : wstate) (dim : string) :
  main tz args native logs = Ok out -> In dim dims ->
  exists hs, ingest_hits tz args native logs = Ok hs
    /\ forall r, In r (file_rows out dim) -> r_total r = day_weight hs (r_date r).
Proof.
  intros H Hdim. destruct (main_run tz args native logs out H) as (hs & Hhs & Hw).
  exists hs. split; [exact Hhs|]. intros r Hr.
  destruct (write_csvs_report tz args _ out Hw) as (c_vm & c_v & c_os & c_oa & Hk & Htab & _).
  destruct (dims_columns c_vm c_v c_os c_oa dim Hdim) as (cols & Hin).
  destruct (Htab dim cols Hin) as (_ & _ & _ & Hd & _).
  rewrite Hd in Hr. apply in_map_iff in Hr. destruct Hr as (d & <- & _).
  cbn [daily_row r_total r_date].
  apply (day_cells_weight hs _ dim cols d Hk Hdim).
  pose proof (lookup_the_keys c_vm c_v c_os c_oa dim cols Hin) as L. unfold lookup_keys in L.
  destruct (the_keys c_vm c_v c_os c_oa !! dim); cbn in L; congruence.
Qed.

(** X13. In a run of [main], the total of the summary is the total weight
    of the accepted records whose day starts inside the window. *)
Theorem summary_total_is_window_weight (tz : Z) (args : Args) (native : list string)
    (logs : list (list string)) (out : wstate) :
  main tz args native logs = Ok out ->
  exists hs, ingest_hits tz args native logs = Ok hs
    /\ w_total_total out
       = sumZ (map h_weight (List.filter (fun h => in_window tz args (h_date h)) hs)).
Proof.
  intros H. destruct (main_run tz args native logs out H) as (hs & Hhs & Hw).
  exists hs. split; [exact Hhs|].
  destruct (write_csvs_report tz args _ out Hw) as (c_vm & c_v & c_os & c_oa & Hk & Htab & ->).
  destruct (Htab "os" c_os) as (_ & _ & _ & -> & _); [simpl; auto|].
  rewrite map_map.
  rewrite (map_ext _ (day_weight hs)).
  - apply sum_day_weights.
    + unfold report_days. apply NoDup_filter_list. rewrite sort_by_perm.
      apply NoDup_fst_map_to_list.
    + intros d Hd. now apply report_days_spec in Hd.
    + intros h Hh Hwin. apply report_days_spec. split; [|exact Hwin].
      apply (has_key_day _ _ "os" (hit_key "os" h)). apply has_key_hit; [simpl; auto | exact Hh].
  - intros d. cbn [daily_row r_total].
    apply (day_cells_weight hs _ "os" c_os d Hk); [simpl; auto|].
    pose proof (lookup_the_keys c_vm c_v c_os c_oa "os" c_os) as L. unfold lookup_keys in L.
    destruct (the_keys c_vm c_v c_os c_oa !! "os"); cbn in L;
      [specialize (L ltac:(simpl; auto)); congruence | specialize (L ltac:(simpl; auto)); discriminate].
Qed.

Lemma example_main :
  main 0 (MkArgs 0 2000000000) example_mailbox [[example_log_line ++ nl]] = Ok example_report.
Proof. unfold main. rewrite example_ingest. exact example_written. Qed.

Lemma daily_totals_are_day_weights_witness :
  exists hs, ingest_hits 0 (MkArgs 0 2000000000) example_mailbox [[example_log_line ++ nl]] = Ok hs
    /\ forall r, In r (file_rows example_report "osarch") -> r_total r = day_weight hs (r_date r).
Proof.
  apply (daily_totals_are_day_weights 0 (MkArgs 0 2000000000) example_mailbox
           [[example_log_line ++ nl]] example_report "osarch");
    [exact example_main | simpl; auto 10].
Defined.

Lemma summary_total_is_window_weight_witness :
  exists hs, ingest_hits 0 (MkArgs 0 2000000000) example_mailbox [[example_log_line ++ nl]] = Ok hs
    /\ w_total_total example_report
       = sumZ (map h_weight
                 (List.filter (fun h => in_window 0 (MkArgs 0 2000000000) (h_date h)) hs)).
Proof.
  exact (summary_total_is_window_weight 0 (MkArgs 0 2000000000) example_mailbox
           [[example_log_line ++ nl]] example_report example_main).
Defined.

(** *** The classifier only answers with the labels of its table *)

Lemma first_label_in (table : list (pattern * string)) (token : string) :
  In (first_label table token) ("Unknown" :: map snd table).
Proof.
  induction table as [|[re label] table IH]; cbn [first_label]; [now left|].
  destruct (search re token); cbn [map snd]; [right; now left|].
  destruct IH as [IH | IH]; [now left | right; now right].
Qed.

Lemma get_os_label (filename : string) : In (get_os filename) os_labels.
Proof.
  assert (H : forall x, In x ("Unknown" :: map snd OS_MAP) -> In x os_labels).
  { rewrite OS_MAP_items, map_map. cbn [snd map OS_MAP_rules].
    intros x Hx. unfold os_labels. cbn [In] in *. intuition auto 10. }
  apply H, first_label_in.
Qed.

Lemma get_arch_label (token : string) : In (get_arch token) arch_labels.
Proof.
  assert (H : forall x, In x ("Unknown" :: map snd ARCH_MAP) -> In x arch_labels).
  { rewrite ARCH_MAP_items, map_map. cbn [snd map ARCH_MAP_rules].
    intros x Hx. unfold arch_labels. cbn [In] in *. intuition auto 10. }
  apply H, first_label_in.
Qed.

(** *** Where the version of a record comes from *)

Lemma log_family_pattern (filename : string) (m : mstate) :
  log_family filename = Some m ->
  exists p, In p version_patterns /\ match_ p filename = Some m.
Proof.
  unfold log_family, version_patterns. intros H.
  destruct (_ || _) in H; [exists re_binary; simpl; auto|].
  destruct (_ || _) in H; [exists re_source; simpl; auto|].
  exists re_binary_deb; simpl; auto.
Qed.

Lemma tarball_family_pattern (filename : string) (m : mstate) :
  tarball_family filename = Some m ->
  exists p, In p version_patterns /\ match_ p filename = Some m.
Proof.
  unfold tarball_family, version_patterns. intros H.
  destruct (_ || _) in H; [exists re_binary; simpl; auto|].
  destruct (_ || _) in H; [exists re_source; simpl; auto|].
  apply or_else_match in H. destruct H as [H | H];
    [exists re_binary_deb | exists re_source_deb]; simpl; auto 10.
Qed.

(** A record of the digest: its fields. *)
Lemma body_line_record (date : datetime) (line : string) (h : hit) :
  body_line date line = Ok (Some h) ->
  (exists p s m, In p version_patterns /\ match_ p s = Some m
                 /\ group_str 1 m = Ok (h_version h))
  /\ In (h_os h) os_labels /\ In (h_arch h) arch_labels.
Proof.
  unfold body_line.
  destruct (PyStr.startswith "/" line) eqn:Hslash; [|discriminate].
  destruct (index1_after_sep "/"%char line Hslash) as (top & ->). simpl bind.
  destruct (negb _); [discriminate|].
  set (l := PyStr.rstrip line).
  destruct (or_else (match_ re_rpm l) (match_ re_deb l)) as [m|] eqn:E1.
  { apply (or_else_match_in _ _ _ _ [re_rpm; re_deb; re_src_rpm; re_src_deb]) in E1;
      [|simpl; auto..].
    destruct E1 as (p & Hin & Hm).
    destruct (package_groups p l m Hin Hm)
      as (v1 & v2 & c & g & w & Hv1 & -> & -> & Hc & Hg & Hw & Hpos).
    rewrite Hv1. simpl bind. rewrite Hw. simpl. intros [= <-]. cbn [h_version h_os h_arch].
    split; [|split; [simpl; auto | apply get_arch_label]].
    exists p, l, m. split; [|auto]. unfold version_patterns. simpl in Hin |- *. tauto. }
  destruct (or_else (match_ re_src_rpm l) (match_ re_src_deb l)) as [m|] eqn:E2.
  { apply (or_else_match_in _ _ _ _ [re_rpm; re_deb; re_src_rpm; re_src_deb]) in E2;
      [|simpl; auto..].
    destruct E2 as (p & Hin & Hm).
    destruct (package_groups p l m Hin Hm)
      as (v1 & v2 & c & g & w & Hv1 & _ & -> & Hc & Hg & Hw & Hpos).
    rewrite Hv1. simpl bind. rewrite Hw. simpl. intros [= <-]. cbn [h_version h_os h_arch].
    split; [|split; simpl; auto 10].
    exists p, l, m. split; [|auto]. unfold version_patterns. simpl in Hin |- *. tauto. }
  destruct (or_else (match_ re_tarball l) (match_ re_src_tarball l)) as [m|] eqn:E3; [|discriminate].
  apply (or_else_match_in _ _ _ _ [re_tarball; re_src_tarball]) in E3; [|simpl; auto..].
  destruct E3 as (p & Hin & Hm).
  destruct (tarball_groups p l m Hin Hm) as (filename & c & g & w & -> & _ & -> & Hc & Hg & Hw & Hpos).
  simpl bind.
  destruct (PyStr.contains "sha256sum" filename); [discriminate|].
  destruct (tarball_family filename) as [m'|] eqn:Hfam; [|discriminate].
  destruct (tarball_family_version filename m' Hfam) as (v & Hv). rewrite Hv. simpl bind.
  rewrite Hw. simpl. intros [= <-]. cbn [h_version h_os h_arch].
  split; [|split; [apply get_os_label | apply get_arch_label]].
  destruct (tarball_family_pattern filename m' Hfam) as (p' & Hp' & Hm').
  exists p', filename, m'. auto.
Qed.

(** A record of either reader: its fields. *)
Lemma accepted_record (tz : Z) (args : Args) (h : hit) :
  accepted tz args h ->
  (exists p s m, In p version_patterns /\ match_ p s = Some m
                 /\ group_str 1 m = Ok (h_version h))
  /\ h_version_major h = major_of (h_version h)
  /\ In (h_os h) os_labels /\ In (h_arch h) arch_labels.
Proof.
  intros [(line & H) | (st & line & st' & H)].
  - destruct (log_line_accepted tz args line h H)
      as (ts & filename & m & _ & _ & _ & Hm & Hv & _ & _ & Hh).
    rewrite Hh. cbn [h_version h_version_major h_os h_arch].
    split; [|split; [reflexivity | split; [apply get_os_label | apply get_arch_label]]].
    destruct (log_family_pattern filename m Hm) as (p & Hp & Hm'). exists p, filename, m. auto.
  - apply native_line_hit in H. destruct H as (date & _ & H).
    destruct (body_line_record date line h H) as (Hv & Hos & Harch).
    split; [exact Hv|]. split; [|auto].
    destruct (body_line_cases date line)
      as [Hn | (v & os & arch & c & g & w & Hb & _)]; [congruence|].
    rewrite Hb in H. injection H as <-. reflexivity.
Qed.

(** X14. The systems and the architectures of the tables. A record that
    either reader accepts has a system among Windows, Linux, MacOS, Other,
    All and Unknown and an architecture among x86, x86-64, Other, All and
    Unknown; its osarch key is the two joined by a slash. *)
Theorem record_labels (tz : Z) (args : Args) (h : hit) :
  accepted tz args h ->
  In (h_os h) os_labels /\ In (h_arch h) arch_labels
  /\ hit_key "osarch" h = h_os h ++ "/" ++ h_arch h.
Proof.
  intros H. destruct (accepted_record tz args h H) as (_ & _ & Hos & Harch).
  split; [exact Hos|]. split; [exact Harch | reflexivity].
Qed.

Lemma record_labels_witness :
  In "Linux" os_labels /\ In "x86-64" arch_labels
  /\ hit_key "osarch" (Hit (Datetime 2021 3 6) "8.9.0" "8.9" "Linux" "x86-64" 12)
     = "Linux" ++ "/" ++ "x86-64".
Proof.
  apply (record_labels 0 (MkArgs 0 2000000000)
           (Hit (Datetime 2021 3 6) "8.9.0" "8.9" "Linux" "x86-64" 12)).
  right. exists (NState (Some (Datetime 2021 3 6)) false (Some false)), (example_body_line ++ nl).
  eexists. apply native_line_body. vm_compute. reflexivity.
Defined.

(** *** The text of a version *)

Lemma verchars_test (c : ascii) :
  set_test false false [("0", "9"); (".", ".")]%char c = true ->
  PyStr.is_digit c || Ascii.eqb c "." = true.
Proof.
  rewrite set_test_plain. unfold in_ranges. cbn [existsb]. rewrite orb_false_r.
  intros H. apply orb_true_iff in H. apply orb_true_iff. destruct H as [H | H].
  - left. exact H.
  - right. apply Ascii.eqb_eq. apply (in_ranges_one "."%char c).
    unfold in_ranges. cbn [existsb]. now rewrite orb_false_r.
Qed.

Lemma version_text_two (c d : ascii) :
  version_text (String c (String d "")) = (PyStr.is_digit c || Ascii.eqb c ".") && PyStr.is_digit d.
Proof. reflexivity. Qed.

Lemma version_text_more (c d : ascii) (v : string) :
  v <> "" ->
  version_text (String c (String d v)) = (PyStr.is_digit c || Ascii.eqb c ".") && version_text (String d v).
Proof. destruct v; [contradiction | reflexivity]. Qed.

Lemma version_text_tail (b : string) :
  star_of (lang false verchars) b ->
  forall c d, PyStr.is_digit c || Ascii.eqb c "." = true -> PyStr.is_digit d = true ->
  version_text (String c (b ++ String d "")) = true.
Proof.
  induction 1 as [|w1 w2 Hw1 _ IH]; intros c d Hc Hd.
  - rewrite app_nil_l_s, version_text_two, Hc, Hd. reflexivity.
  - destruct Hw1 as (c' & -> & Hc'). apply verchars_test in Hc'.
    rewrite app_cons_s, app_nil_l_s, app_cons_s.
    rewrite version_text_more by (destruct w2; discriminate).
    rewrite Hc. cbn [andb]. now apply IH.
Qed.

(** What [[\d.]+\d] matches is a version text. *)
Lemma lang_version_re (v : string) : lang false version_re v -> version_text v = true.
Proof.
  intros (w1 & w2 & -> & (a & b & -> & Ha & Hb) & Hd).
  destruct Ha as (c & -> & Hc). apply verchars_test in Hc.
  apply lang_digit in Hd. destruct Hd as (d & -> & Hd).
  rewrite app_cons_s, app_nil_l_s, app_cons_s. now apply version_text_tail.
Qed.

Lemma version_group (p : pattern) (s : string) (m : mstate) (v : string) :
  In p version_patterns -> match_ p s = Some m -> group_str 1 m = Ok v ->
  version_text v = true.
Proof.
  intros Hp Hm Hv. destruct (match_sound p s m Hm) as (_ & Hg & _).
  unfold group_str in Hv. destruct (group 1 m) as [g|] eqn:E; cbn in Hv; [|discriminate].
  injection Hv as ->. destruct (Hg 1%nat v E) as (b & Hb & Hl).
  apply lang_version_re.
  unfold version_patterns in Hp. cbn [In] in Hp.
  repeat (destruct Hp as [<- | Hp];
          [cbn in Hb; destruct Hb as [<- | []]; exact Hl|]).
  destruct Hp.
Qed.

Lemma join_cons (sep w : string) (ws : list string) :
  PyStr.join sep (w :: ws) = match ws with [] => w | _ :: _ => w ++ sep ++ PyStr.join sep ws end.
Proof. destruct ws; reflexivity. Qed.

(** Joining the pieces of a split gives the string back. *)
Lemma join_split (sep : ascii) (s : string) :
  PyStr.join (String sep "") (PyStr.split_on sep s) = s.
Proof.
  induction s as [|c s IH]; [reflexivity|].
  rewrite split_on_step. destruct (split_on_cons sep s) as (w & ws & E). rewrite E in *.
  destruct (Ascii.eqb c sep) eqn:Hc.
  - apply Ascii.eqb_eq in Hc. subst c. rewrite join_cons, IH. reflexivity.
  - rewrite join_cons. rewrite join_cons in IH. destruct ws as [|w' ws].
    + now rewrite IH.
    + rewrite app_cons_s. now rewrite IH.
Qed.

Lemma startswith_app (p r : string) : PyStr.startswith p (p ++ r) = true.
Proof.
  induction p as [|a p IH]; [reflexivity|].
  rewrite app_cons_s.
  change (PyStr.startswith (String a p) (String a (p ++ r)))
    with (Ascii.eqb a a && PyStr.startswith p (p ++ r)).
  now rewrite Ascii.eqb_refl, IH.
Qed.

(** The first two components of a version, joined by a dot, begin the
    version. *)
Lemma major_of_prefix (v : string) : PyStr.startswith (major_of v) v = true.
Proof.
  unfold major_of. pose proof (join_split "." v) as J.
  destruct (PyStr.split_on "." v) as [|a [|b [|c rest]]]; cbn [firstn].
  - rewrite <- J. reflexivity.
  - rewrite J. rewrite <- (app_nil_r_s v) at 2. apply startswith_app.
  - rewrite J. rewrite <- (app_nil_r_s v) at 2. apply startswith_app.
  - rewrite <- J. rewrite !join_cons.
    rewrite <- (app_assoc_s a "." (b ++ _)), <- (app_assoc_s (a ++ ".") b _).
    rewrite (app_assoc_s a "." b). apply startswith_app.
Qed.

(** X15. The versions of the tables. A record that either reader accepts
    has a version of digits and dots that ends with a digit and has two
    characters or more; its version_major is the first two dot-separated
    components of the version joined by a dot, and so begins the
    version. *)
Theorem record_versions (tz : Z) (args : Args) (h : hit) :
  accepted tz args h ->
  version_text (h_version h) = true
  /\ h_version_major h = major_of (h_version h)
  /\ PyStr.startswith (h_version_major h) (h_version h) = true.
Proof.
  intros H. destruct (accepted_record tz args h H) as ((p & s & m & Hp & Hm & Hv) & Hmaj & _).
  split; [exact (version_group p s m _ Hp Hm Hv)|]. split; [exact Hmaj|].
  rewrite Hmaj. apply major_of_prefix.
Qed.

Lemma record_versions_witness :
  version_text "8.9.0" = true
  /\ "8.9" = major_of "8.9.0"
  /\ PyStr.startswith "8.9" "8.9.0" = true.
Proof.
  apply (record_versions 0 (MkArgs 0 2000000000)
           (Hit (Datetime 2019 3 1) "8.9.0" "8.9" "Windows" "x86-64" 1)).
  left. exists example_log_line.
  rewrite <- (app_nil_r_s example_log_line).
  rewrite (log_line_example 0 (MkArgs 0 2000000000) "" (or_introl eq_refl)).
  vm_compute. reflexivity.
Defined.

(** ** The day of an instant *)

Lemma days_before_year_split (n400 n100 n4 n1 : Z) :
  0 <= n100 <= 3 -> 0 <= n4 <= 24 -> 0 <= n1 <= 3 ->
  Cal.days_before_year (n400 * 400 + 1 + n100 * 100 + n4 * 4 + n1)
  = n400 * 146097 + n100 * 36524 + n4 * 1461 + n1 * 365.
Proof.
  intros H100 H4 H1. unfold Cal.days_before_year. cbv zeta.
  Z.div_mod_to_equations. lia.
Qed.

Lemma is_leap_split (n400 n100 n4 n1 : Z) :
  0 <= n100 <= 3 -> 0 <= n4 <= 24 -> 0 <= n1 <= 3 ->
  Cal.is_leap (n400 * 400 + 1 + n100 * 100 + n4 * 4 + n1)
  = (n1 =? 3) && (negb (n4 =? 24) || (n100 =? 3)).
Proof.
  intros H100 H4 H1. unfold Cal.is_leap.
  set (y := n400 * 400 + 1 + n100 * 100 + n4 * 4 + n1).
  destruct (Z.eqb_spec (y mod 4) 0), (Z.eqb_spec (y mod 100) 0), (Z.eqb_spec (y mod 400) 0),
    (Z.eqb_spec n1 3), (Z.eqb_spec n4 24), (Z.eqb_spec n100 3);
    cbn; try reflexivity; exfalso; subst y; Z.div_mod_to_equations; lia.
Qed.

(** The month and the day of the [n]-th day of a year, counted from 0. *)
Lemma month_day_of (leap : bool) (n : Z) :
  0 <= n <= 364 ->
  let m := Z.shiftr (n + 50) 5 in
  let preceding := Cal.days_before_month_of leap m in
  (if n <? preceding
   then Cal.days_before_month_of leap (m - 1)
        + (n - (preceding - Cal.days_in_month_of leap (m - 1)) + 1)
   else preceding + (n - preceding + 1)) = n + 1.
Proof.
  intros Hn. cbv zeta. rewrite Z.shiftr_div_pow2 by lia. change (2 ^ 5) with 32.
  pose proof (Z.div_mod (n + 50) 32 ltac:(lia)) as Hdm.
  pose proof (Z.mod_pos_bound (n + 50) 32 ltac:(lia)) as Hm.
  remember ((n + 50) / 32) as m eqn:Em. clear Em.
  remember ((n + 50) mod 32) as r eqn:Er. clear Er.
  assert (Hcases : m = 1 \/ m = 2 \/ m = 3 \/ m = 4 \/ m = 5 \/ m = 6 \/ m = 7 \/ m = 8
                   \/ m = 9 \/ m = 10 \/ m = 11 \/ m = 12) by lia.
  destruct leap;
    repeat (destruct Hcases as [-> | Hcases]);
    try subst m;
    match goal with
    | |- context [n <? ?p] =>
        let v := eval vm_compute in p in change p with v
    end;
    match goal with
    | |- context [n <? ?p] => destruct (Z.ltb_spec n p)
    end;
    vm_compute Cal.days_before_month_of; vm_compute Cal.days_in_month_of; lia.
Qed.

(** The ordinal of the date of an ordinal is the ordinal. *)
Lemma ord2ymd_ymd2ord (ord y m d : Z) :
  1 <= ord -> Cal.ord2ymd ord = (y, m, d) -> Cal.ymd2ord y m d = ord.
Proof.
  intros Hord. unfold Cal.ord2ymd, Cal.DI400Y, Cal.DI100Y, Cal.DI4Y. cbv zeta.
  pose proof (Z.div_mod (ord - 1) 146097 ltac:(lia)) as D400.
  pose proof (Z.mod_pos_bound (ord - 1) 146097 ltac:(lia)) as B400.
  assert (Q400 : 0 <= (ord - 1) / 146097) by (apply Z.div_pos; lia).
  remember ((ord - 1) / 146097) as n400 eqn:E1. clear E1.
  remember ((ord - 1) mod 146097) as r400 eqn:E2. clear E2.
  pose proof (Z.div_mod r400 36524 ltac:(lia)) as D100.
  pose proof (Z.mod_pos_bound r400 36524 ltac:(lia)) as B100.
  remember (r400 / 36524) as n100 eqn:E3. clear E3.
  remember (r400 mod 36524) as r100 eqn:E4. clear E4.
  pose proof (Z.div_mod r100 1461 ltac:(lia)) as D4.
  pose proof (Z.mod_pos_bound r100 1461 ltac:(lia)) as B4.
  remember (r100 / 1461) as n4 eqn:E5. clear E5.
  remember (r100 mod 1461) as r4 eqn:E6. clear E6.
  pose proof (Z.div_mod r4 365 ltac:(lia)) as D1.
  pose proof (Z.mod_pos_bound r4 365 ltac:(lia)) as B1.
  remember (r4 / 365) as n1 eqn:E7. clear E7.
  remember (r4 mod 365) as r1 eqn:E8. clear E8.
  assert (H100 : 0 <= n100 <= 4) by lia.
  assert (H4 : 0 <= n4 <= 24) by lia.
  assert (H1 : 0 <= n1 <= 4) by lia.
  destruct (Z.eqb_spec n1 4) as [N1 | N1]; [|destruct (Z.eqb_spec n100 4) as [N100 | N100]];
    cbn [orb].
  - (* the last day of a leap year that ends a cycle of four years *)
    intros [= <- <- <-]. subst n1.
    assert (r1 = 0) by lia. subst r1.
    assert (n100 <= 3) by lia.
    assert (n4 <= 23) by lia.
    replace (n400 * 400 + 1 + n100 * 100 + n4 * 4 + 4 - 1)
      with (n400 * 400 + 1 + n100 * 100 + n4 * 4 + 3) by lia.
    unfold Cal.ymd2ord, Cal.days_before_month.
    rewrite days_before_year_split, is_leap_split by lia.
    replace (3 =? 3) with true by reflexivity.
    destruct (Z.eqb_spec n4 24) as [?|_]; [lia|]. cbn [negb orb andb].
    change (Cal.days_before_month_of true 12) with 335. lia.
  - (* the last day of a cycle of four hundred years *)
    intros [= <- <- <-]. subst n100.
    assert (r100 = 0) by lia. subst r100.
    assert (n4 = 0) by lia. subst n4.
    assert (r4 = 0) by lia. subst r4.
    assert (n1 = 0) by lia. subst n1.
    replace (n400 * 400 + 1 + 4 * 100 + 0 * 4 + 0 - 1)
      with (n400 * 400 + 1 + 3 * 100 + 24 * 4 + 3) by lia.
    unfold Cal.ymd2ord, Cal.days_before_month.
    rewrite days_before_year_split, is_leap_split by lia.
    change (Cal.days_before_month_of ((3 =? 3) && (negb (24 =? 24) || (3 =? 3))) 12) with 335.
    lia.
  - assert (H100' : 0 <= n100 <= 3) by lia.
    assert (H1' : 0 <= n1 <= 3) by lia.
    assert (Hr1 : 0 <= r1 <= 364) by lia.
    pose proof (month_day_of ((n1 =? 3) && (negb (n4 =? 24) || (n100 =? 3))) r1 Hr1) as MD.
    cbv zeta in MD.
    pose proof (days_before_year_split n400 n100 n4 n1 H100' H4 H1') as DY.
    pose proof (is_leap_split n400 n100 n4 n1 H100' H4 H1') as LP.
    revert MD.
    generalize (Z.shiftr (r1 + 50) 5). intros mm.
    destruct (r1 <? Cal.days_before_month_of ((n1 =? 3) && (negb (n4 =? 24) || (n100 =? 3))) mm);
      intros MD [= <- <- <-];
      unfold Cal.ymd2ord, Cal.days_before_month; rewrite LP, DY; lia.
Qed.

(** The midnight of the day of an instant is the instant less the seconds
    since its local midnight. *)
Lemma fromtimestamp_midnight (tz ts : Z) (date : datetime) :
  Cal.fromtimestamp tz ts = Ok date ->
  Cal.timestamp tz date = ts - (ts + tz) mod 86400.
Proof.
  unfold Cal.fromtimestamp.
  destruct (Z.ltb_spec ((ts + tz) / 86400 + Cal.EPOCH_ORD) 1) as [?|Hlo]; [discriminate|].
  destruct (Cal.MAX_ORD <? (ts + tz) / 86400 + Cal.EPOCH_ORD); [discriminate|]. cbn [orb].
  destruct (Cal.ord2ymd ((ts + tz) / 86400 + Cal.EPOCH_ORD)) as [[y m] d] eqn:E.
  intros [= <-]. apply ord2ymd_ymd2ord in E; [|exact Hlo].
  unfold Cal.timestamp. cbn [year month day]. rewrite E.
  pose proof (Z.div_mod (ts + tz) 86400 ltac:(lia)). lia.
Qed.

Lemma in_window_outside (tz : Z) (args : Args) (date : datetime) :
  in_window tz args date = negb (outside_window args (Cal.timestamp tz date)).
Proof.
  unfold in_window, outside_window.
  destruct (Z.leb_spec (start args) (Cal.timestamp tz date)),
           (Z.ltb_spec (Cal.timestamp tz date) (start args)),
           (Z.leb_spec (Cal.timestamp tz date) (end_ args)),
           (Z.ltb_spec (end_ args) (Cal.timestamp tz date)); cbn; lia || reflexivity.
Qed.



Lemma native_line_hit_window (tz : Z) (args : Args) (st st' : nstate) (line : string) (h : hit) :
  native_line tz args st line = Ok (st', Some h) ->
  exists date, ns_date st = Some date
    /\ outside_window args (Cal.timestamp tz date) = false
    /\ body_line date line = Ok (Some h).
Proof.
  unfold native_line.
  destruct ((5 <=? String.length line)%nat && String.eqb (PyStr.take 5 line) "From ");
    [discriminate|].
  destruct (PyStr.contains "From " line); [discriminate|].
  destruct ((5 <=? String.length line)%nat && String.eqb (PyStr.take 5 line) "Date:").
  { destruct (index (PyStr.split_on ":" line) 1); cbn [bind]; [|discriminate].
    destruct (Cal.strptime (PyStr.strip a)) as [[[[y m] d] hh]|]; [discriminate|].
    destruct (ns_date st); discriminate. }
  destruct (ns_in_header st && String.eqb (PyStr.strip line) ""); [discriminate|].
  destruct (ns_in_header st); [discriminate|].
  destruct (ns_date st) as [date|]; [|discriminate].
  destruct (outside_window args (Cal.timestamp tz date)) eqn:Hw.
  { destruct (ns_date_warning st); discriminate. }
  destruct (body_line date line) as [[h'|]|] eqn:Hb; cbn [bind]; [|discriminate..].
  intros [= <- <-]. exists date. auto.
Qed.

(** X17. The day of a record of the mailbox. A record is only accepted
    while the loop holds the day of its message, it is filed under that
    day, and the midnight of that day lies in the window: [write_csvs]
    reports every record of the mailbox. *)
Theorem mailbox_record_day (tz : Z) (args : Args) (st st' : nstate) (line : string) (h : hit) :
  native_line tz args st line = Ok (st', Some h) ->
  ns_date st = Some (h_date h)
  /\ start args <= Cal.timestamp tz (h_date h) <= end_ args
  /\ in_window tz args (h_date h) = true
  /\ st' = st.
Proof.
  intros H. pose proof H as H0.
  apply native_line_hit_window in H. destruct H as (date & Hd & Hw & Hb).
  assert (Hdate : h_date h = date).
  { destruct (body_line_cases date line)
      as [Hn | (v & os & arch & c & g & w & Hb' & _)]; [congruence|].
    rewrite Hb' in Hb. injection Hb as <-. reflexivity. }
  rewrite Hdate. split; [exact Hd|].
  assert (Hin : in_window tz args date = true) by (rewrite in_window_outside, Hw; reflexivity).
  split; [|split; [exact Hin|]].
  - unfold in_window in Hin. apply andb_true_iff in Hin. rewrite !Z.leb_le in Hin. exact Hin.
  - revert H0. unfold native_line.
    destruct ((5 <=? String.length line)%nat && String.eqb (PyStr.take 5 line) "From ");
      [discriminate|].
    destruct (PyStr.contains "From " line); [discriminate|].
    destruct ((5 <=? String.length line)%nat && String.eqb (PyStr.take 5 line) "Date:").
    { destruct (index (PyStr.split_on ":" line) 1); cbn [bind]; [|discriminate].
      destruct (Cal.strptime (PyStr.strip a)) as [[[[y m] d] hh]|]; [discriminate|].
      destruct (ns_date st); discriminate. }
    destruct (ns_in_header st && String.eqb (PyStr.strip line) ""); [discriminate|].
    destruct (ns_in_header st); [discriminate|].
    rewrite Hd, Hw, Hb. cbn [bind]. intros [= <-]. reflexivity.
Qed.

Lemma mailbox_record_day_witness :
  ns_date (NState (Some (Datetime 2021 3 6)) false (Some false)) = Some (Datetime 2021 3 6)
  /\ start (MkArgs 0 2000000000) <= Cal.timestamp 0 (Datetime 2021 3 6) <= end_ (MkArgs 0 2000000000)
  /\ in_window 0 (MkArgs 0 2000000000) (Datetime 2021 3 6) = true
  /\ NState (Some (Datetime 2021 3 6)) false (Some false)
     = NState (Some (Datetime 2021 3 6)) false (Some false).
Proof.
  apply (mailbox_record_day 0 (MkArgs 0 2000000000) _ _ (example_body_line ++ nl)
           (Hit (Datetime 2021 3 6) "8.9.0" "8.9" "Linux" "x86-64" 12)).
  apply native_line_body. vm_compute. reflexivity.
Defined.

(** ** No count of the report is negative *)

Lemma zip_add_nonneg (a b : list Z) :
  Forall (fun x => 0 <= x) a -> Forall (fun x => 0 <= x) b ->
  Forall (fun x => 0 <= x) (zip_with Z.add a b).
Proof.
  intros Ha. revert b. induction Ha as [|x a Hx _ IH]; intros b Hb; [constructor|].
  destruct Hb as [|y b Hy Hb]; cbn [zip_with]; constructor; [lia | now apply IH].
Qed.

Lemma cum_rows_nonneg (data : store) (dim : string) (cols : list string) (W : list datetime) :
  nonneg_store data ->
  forall acc r, Forall (fun x => 0 <= x) acc -> In r (cum_rows data dim cols acc W) ->
    Forall (fun x => 0 <= x) (r_cells r) /\ 0 <= r_total r.
Proof.
  intros Hd. induction W as [|d W IH]; intros acc r Hacc Hr; [destruct Hr|].
  assert (Hacc' : Forall (fun x => 0 <= x) (zip_with Z.add acc (map (cell data d dim) cols))).
  { apply zip_add_nonneg; [exact Hacc|]. exact (cells_nonneg data dim cols Hd d). }
  cbn [cum_rows] in Hr. destruct Hr as [<- | Hr].
  - cbn [r_cells r_total]. split; [exact Hacc' | now apply sumZ_nonneg].
  - exact (IH _ r Hacc' Hr).
Qed.

(** X18. In a run of [main] no count is negative: every cell and every
    Total of every line of the eight tables is 0 or more, and so is the
    total of the summary. *)
Theorem report_counts_nonneg (tz : Z) (args : Args) (native : list string)
    (logs : list (list string)) (out : wstate) :
  main tz args native logs = Ok out ->
  0 <= w_total_total out
  /\ forall name r, In name fs_names -> In r (file_rows out name) ->
       Forall (fun x => 0 <= x) (r_cells r) /\ 0 <= r_total r.
Proof.
  unfold main. intros H. apply bind_Ok in H. destruct H as (data & Hdata & H).
  pose proof (ingest_nonneg tz args native logs data Hdata) as Hd.
  destruct (write_csvs_report tz args data out H) as (c_vm & c_v & c_os & c_oa & _ & Htab & Ht).
  assert (Hdaily : forall dim cols r,
            In r (map (daily_row data dim cols) (report_days tz args data)) ->
            Forall (fun x => 0 <= x) (r_cells r) /\ 0 <= r_total r).
  { intros dim cols r Hr. apply in_map_iff in Hr. destruct Hr as (d & <- & _).
    cbn [daily_row r_cells r_total].
    pose proof (cells_nonneg data dim cols Hd d) as Hc. unfold day_cells in Hc.
    split; [exact Hc | now apply sumZ_nonneg]. }
  split.
  - rewrite Ht. destruct (Htab "os" c_os) as (_ & _ & _ & -> & _); [simpl; auto|].
    apply sumZ_nonneg. apply Forall_forall. intros x Hx.
    apply list_elem_of_In, in_map_iff in Hx. destruct Hx as (r & <- & Hr).
    exact (proj2 (Hdaily "os" c_os r Hr)).
  - intros name r Hname Hr.
    destruct (fs_names_dims name Hname) as (dim & Hdim & Hn).
    destruct (dims_columns c_vm c_v c_os c_oa dim Hdim) as (cols & Hin).
    destruct (Htab dim cols Hin) as (_ & _ & _ & Hday & Hcum).
    destruct Hn as [-> | ->].
    + rewrite Hday in Hr. exact (Hdaily dim cols r Hr).
    + rewrite Hcum in Hr.
      apply (cum_rows_nonneg data dim cols (report_days tz args data) Hd
               (map (fun _ => 0) cols) r); [|exact Hr].
      apply Forall_forall. intros x Hx. apply list_elem_of_In, in_map_iff in Hx.
      destruct Hx as (k & <- & _). lia.
Qed.

Lemma report_counts_nonneg_witness :
  0 <= w_total_total example_report
  /\ forall name r, In name fs_names -> In r (file_rows example_report name) ->
       Forall (fun x => 0 <= x) (r_cells r) /\ 0 <= r_total r.
Proof.
  exact (report_counts_nonneg 0 (MkArgs 0 2000000000) example_mailbox
           [[example_log_line ++ nl]] example_report example_main).
Defined.

Lemma rmatch_chr (c : ascii) (pos : nat) (s : string) (g : list (nat * string))
    (k : mstate -> option mstate) :
  rmatch false (chr c) (MState pos (String c s) g) k = k (MState (S pos) s g).
Proof.
  unfold chr. cbn [rmatch m_rest]. rewrite set_test_plain. unfold in_ranges. cbn [existsb].
  rewrite Nat.leb_refl. reflexivity.
Qed.

Lemma rmatch_digit (c : ascii) (pos : nat) (s : string) (g : list (nat * string))
    (k : mstate -> option mstate) :
  PyStr.is_digit c = true ->
  rmatch false digit (MState pos (String c s) g) k = k (MState (S pos) s g).
Proof. intros Hc. unfold digit. cbn [rmatch m_rest]. rewrite digit_test, Hc. reflexivity. Qed.

(** The greedy loop over a run of digits finds a match if the rest
    matches after the run. *)
Lemma star_loop_digits (ds : string) (rest : string) (g : list (nat * string))
    (k : mstate -> option mstate) :
  all_digits ds ->
  (forall pos, k (MState pos rest g) <> None) ->
  forall fuel pos, (String.length ds < fuel)%nat ->
    star_loop (rmatch false digit) k fuel (MState pos (ds ++ rest) g) <> None.
Proof.
  intros Hds Hk. induction ds as [|c ds IH]; intros fuel pos Hfuel.
  - rewrite app_nil_l_s. destruct fuel as [|fuel]; cbn [star_loop]; [apply Hk|].
    pose proof (Hk pos) as Hk'.
    destruct (rmatch false digit _ _); cbn [or_else]; [discriminate | exact Hk'].
  - destruct fuel as [|fuel]; [cbn in Hfuel; lia|]. cbn [star_loop].
    apply all_digits_cons in Hds. destruct Hds as [Hc Hds].
    rewrite app_cons_s, (rmatch_digit c pos _ g _ Hc). cbn [m_pos].
    rewrite (proj2 (Nat.ltb_lt pos (S pos))) by lia.
    specialize (IH Hds fuel (S pos) ltac:(cbn in Hfuel; lia)).
    destruct (star_loop (rmatch false digit) k fuel (MState (S pos) (ds ++ rest) g));
      [cbn [or_else]; discriminate | contradiction].
Qed.

Lemma sendfile_name_matches (name : string) :
  sendfile_name name -> match_ sendfile_re name <> None.
Proof.
  intros (c & ds & d & rest & -> & Hc & Hds & Hd).
  unfold match_, sendfile_re, compile. cbn [p_re p_ic seqs].
  change (lit "sendfile-v")
    with (Seq (chr "s") (Seq (chr "e") (Seq (chr "n") (Seq (chr "d") (Seq (chr "f")
          (Seq (chr "i") (Seq (chr "l") (Seq (chr "e") (Seq (chr "-") (chr "v")))))))))).
  change ("sendfile-v" ++ String c ds ++ "." ++ String d rest)
    with (String "s" (String "e" (String "n" (String "d" (String "f" (String "i" (String "l"
           (String "e" (String "-" (String "v" (String c (ds ++ "." ++ String d rest)))))))))))).
  cbn [rmatch]. rewrite !rmatch_chr.
  unfold plus at 1. cbn [rmatch]. rewrite (rmatch_digit c _ _ _ _ Hc).
  cbn [m_rest].
  apply star_loop_digits; [exact Hds | | rewrite length_app_s; lia].
  intros pos. change ("." ++ String d rest) with (String "." (String d rest)).
  change (lit ".") with (chr "."). rewrite rmatch_chr.
  unfold plus. cbn [rmatch]. rewrite (rmatch_digit d _ _ _ _ Hd). cbn [m_rest star_loop].
  destruct (rmatch false digit _ _); cbn [or_else]; discriminate.
Qed.

Lemma sendfile_match_name (name : string) (m : mstate) :
  match_ sendfile_re name = Some m -> sendfile_name name.
Proof.
  intros H. destruct (match_sound sendfile_re name m H) as ((w & -> & Hw) & _).
  unfold sendfile_re, compile in Hw. cbn [p_re p_ic seqs] in Hw.
  destruct Hw as (w1 & w2 & -> & Hw1 & (w3 & w4 & -> & Hw3 & (w5 & w6 & -> & Hw5 & Hw6))).
  apply lang_lit in Hw1, Hw5. subst w1 w5.
  apply lang_plus_digit in Hw3, Hw6.
  destruct Hw3 as (c & ds & -> & Hc & Hds). destruct Hw6 as (d & ds' & -> & Hd & _).
  exists c, ds, d, (ds' ++ m_rest m). split; [|auto].
  rewrite !app_assoc_s. reflexivity.
Qed.

(** X19. The log files [main] reads are the entries of the directory whose
    name begins with sendfile-v, a run of digits, a dot and a digit, and
    no others: what follows the digit after the dot is not looked at. *)
Theorem get_log_files_spec (names : list string) (name : string) :
  In name (get_log_files names) <-> In name names /\ sendfile_name name.
Proof.
  unfold get_log_files. rewrite filter_In. split; intros [Hin H]; (split; [exact Hin|]).
  - apply andb_true_iff in H. destruct H as [_ H].
    destruct (match_ sendfile_re name) as [m|] eqn:E; [|discriminate].
    exact (sendfile_match_name name m E).
  - apply andb_true_iff. split.
    + destruct H as (c & ds & d & rest & -> & _). apply startswith_app.
    + pose proof (sendfile_name_matches name H) as Hm.
      destruct (match_ sendfile_re name); [reflexivity | contradiction].
Qed.

Lemma upper_lower (c : ascii) : PyStr.upper (PyStr.lower c) = PyStr.upper c.
Proof. destruct c as [[] [] [] [] [] [] [] []]; vm_compute; reflexivity. Qed.

Lemma lower_or_upper (c : ascii) : c = PyStr.lower c \/ c = PyStr.upper c.
Proof. destruct c as [[] [] [] [] [] [] [] []]; vm_compute; auto. Qed.

Lemma lower_lower (c : ascii) : PyStr.lower (PyStr.lower c) = PyStr.lower c.
Proof. destruct c as [[] [] [] [] [] [] [] []]; vm_compute; reflexivity. Qed.

Lemma lower_newline (c : ascii) : PyStr.lower c = newline -> c = newline.
Proof. destruct c as [[] [] [] [] [] [] [] []]; vm_compute; intros H; congruence. Qed.

Lemma newline_lower : PyStr.lower newline = newline.
Proof. reflexivity. Qed.

(** Under IGNORECASE a class only sees the letter, not its case. *)
Lemma set_test_lower (neg : bool) (rs : list (ascii * ascii)) (c : ascii) :
  set_test true neg rs c = set_test true neg rs (PyStr.lower c).
Proof.
  unfold set_test. f_equal. cbn [andb]. rewrite lower_lower, upper_lower.
  destruct (lower_or_upper c) as [E | E].
  - rewrite <- E. destruct (in_ranges rs c), (in_ranges rs (PyStr.upper c)); reflexivity.
  - rewrite <- E.
    destruct (in_ranges rs c), (in_ranges rs (PyStr.lower c)); reflexivity.
Qed.

Lemma set_test_case (neg : bool) (rs : list (ascii * ascii)) (c c' : ascii) :
  PyStr.lower c = PyStr.lower c' -> set_test true neg rs c = set_test true neg rs c'.
Proof. intros H. rewrite (set_test_lower neg rs c), (set_test_lower neg rs c'), H. reflexivity. Qed.

Lemma newline_case (c c' : ascii) :
  PyStr.lower c = PyStr.lower c' -> Ascii.eqb c newline = Ascii.eqb c' newline.
Proof.
  intros H. destruct (Ascii.eqb_spec c newline) as [-> | N], (Ascii.eqb_spec c' newline) as [-> | N'];
    try reflexivity; exfalso.
  - apply N'. apply lower_newline. rewrite <- H. reflexivity.
  - apply N. apply lower_newline. rewrite H. reflexivity.
Qed.

Lemma str_lower_length (s s' : string) :
  Cal.str_lower s = Cal.str_lower s' -> String.length s = String.length s'.
Proof.
  revert s'. induction s as [|c s IH]; intros [|c' s'] H; cbn in H; try discriminate; [reflexivity|].
  injection H as _ H. cbn [String.length]. f_equal. now apply IH.
Qed.

Lemma or_else_None {A} (x y : option A) : or_else x y = None <-> x = None /\ y = None.
Proof. destruct x; cbn; split; [discriminate | intros []; discriminate | auto | tauto]. Qed.

Lemma star_loop_case (m m' : mstate -> (mstate -> option mstate) -> option mstate)
    (k k' : mstate -> option mstate) :
  (forall st st' k k', same_place st st' -> fail_together k k' ->
     (m st k = None <-> m' st' k' = None)) ->
  fail_together k k' ->
  forall fuel, fail_together (star_loop m k fuel) (star_loop m' k' fuel).
Proof.
  intros Hm Hk. induction fuel as [|fuel IH]; intros st st' Hst; cbn [star_loop].
  - now apply Hk.
  - rewrite !or_else_None. rewrite (Hk st st' Hst).
    rewrite (Hm st st' _ (fun st1 => if (m_pos st' <? m_pos st1)%nat
                                     then star_loop m' k' fuel st1 else None) Hst).
    + tauto.
    + intros s1 s1' Hs1. destruct Hst as [Hp _]. destruct Hs1 as [Hp1 Hr1].
      rewrite Hp, Hp1. destruct (m_pos st' <? m_pos s1')%nat; [|tauto].
      apply IH. split; assumption.
Qed.

(** A pattern compiled with IGNORECASE fails on a subject if and only if
    it fails on the subject in another case. *)
Lemma rmatch_case (r : regex) : forall st st' k k',
  same_place st st' -> fail_together k k' ->
  (rmatch true r st k = None <-> rmatch true r st' k' = None).
Proof.
  induction r as [| neg rs | | | | r1 IH1 r2 IH2 | r1 IH1 r2 IH2 | r1 IH1 | n r1 IH1];
    intros st st' k k' Hst Hk; cbn [rmatch].
  - now apply Hk.
  - destruct Hst as [Hp Hr].
    destruct st as [p [|c s] g], st' as [p' [|c' s'] g']; cbn [m_rest m_pos] in *;
      try discriminate; [tauto|].
    cbn [Cal.str_lower] in Hr. injection Hr as Hc Hs.
    rewrite (set_test_case neg rs c c' Hc). destruct (set_test true neg rs c'); [|tauto].
    apply Hk. split; cbn; [now f_equal | exact Hs].
  - destruct Hst as [Hp Hr].
    destruct st as [p [|c s] g], st' as [p' [|c' s'] g']; cbn [m_rest m_pos] in *;
      try discriminate; [tauto|].
    cbn [Cal.str_lower] in Hr. injection Hr as Hc Hs.
    rewrite (newline_case c c' Hc). destruct (Ascii.eqb c' newline); [tauto|].
    apply Hk. split; cbn; [now f_equal | exact Hs].
  - destruct (Hst) as [Hp _]. rewrite Hp. destruct (m_pos st' =? 0)%nat; [now apply Hk | tauto].
  - pose proof (Hk st st' Hst) as Hkk. destruct Hst as [Hp Hr].
    destruct st as [p [|c [|d s]] g], st' as [p' [|c' [|d' s']] g']; cbn [m_rest m_pos] in *;
      try discriminate; try tauto.
    cbn [Cal.str_lower] in Hr. injection Hr as Hc.
    rewrite (newline_case c c' Hc). destruct (Ascii.eqb c' newline); tauto.
  - apply IH1; [exact Hst|]. intros s1 s1' Hs1. now apply IH2.
  - rewrite !or_else_None. rewrite (IH1 st st' k k' Hst Hk), (IH2 st st' k k' Hst Hk). tauto.
  - destruct (Hst) as [_ Hr]. rewrite (str_lower_length _ _ Hr).
    apply star_loop_case; [exact IH1 | exact Hk | exact Hst].
  - apply IH1; [exact Hst|]. intros s1 s1' Hs1. apply Hk.
    destruct Hs1 as [Hp1 Hr1]. split; cbn; assumption.
Qed.

Lemma search_from_case (p : pattern) (s s' : string) :
  p_ic p = true -> Cal.str_lower s = Cal.str_lower s' ->
  forall i, search_from p i s = None <-> search_from p i s' = None.
Proof.
  intros Hic. revert s'. induction s as [|c s IH]; intros [|c' s'] H i; cbn in H; try discriminate.
  - tauto.
  - cbn [search_from]. rewrite !or_else_None, Hic. injection H as Hc Hs.
    rewrite (IH s' Hs (S i)).
    rewrite (rmatch_case (p_re p) (MState i (String c s) []) (MState i (String c' s') []) Some Some).
    + tauto.
    + split; [reflexivity|]. cbn. now f_equal.
    + intros st st' _. split; discriminate.
Qed.

Lemma first_label_case (table : list (pattern * string)) (token token' : string) :
  Forall (fun r => p_ic (fst r) = true) table ->
  Cal.str_lower token = Cal.str_lower token' ->
  first_label table token = first_label table token'.
Proof.
  intros Hall H. induction Hall as [|[re label] table Hre _ IH]; [reflexivity|].
  cbn [first_label]. cbn [fst] in Hre.
  pose proof (search_from_case re token token' Hre H 0%nat) as Hs. unfold search.
  destruct (search_from re 0 token), (search_from re 0 token'); try reflexivity.
  - destruct Hs as [_ Hs]. specialize (Hs eq_refl). discriminate.
  - destruct Hs as [Hs _]. specialize (Hs eq_refl). discriminate.
  - exact IH.
Qed.

Lemma compiled_ic (rules : list (regex * string)) :
  Forall (fun r : pattern * string => p_ic (fst r) = true)
    (map (fun rule => (compile_ic (fst rule), snd rule)) rules).
Proof. induction rules as [|r rules IH]; constructor; [reflexivity | exact IH]. Qed.

(** X20. The classification does not look at the case of letters: two
    names that are equal once lower-cased get the same system and the same
    architecture. *)
Theorem classification_ignores_case (token token' : string) :
  Cal.str_lower token = Cal.str_lower token' ->
  get_os token = get_os token' /\ get_arch token = get_arch token'.
Proof.
  intros H. unfold get_os, get_arch. rewrite OS_MAP_items, ARCH_MAP_items.
  split; apply first_label_case; try exact H; apply compiled_ic.
Qed.

Lemma classification_ignores_case_witness :
  get_os "CONDOR-8.9.0-Windows-X64.ZIP" = get_os "condor-8.9.0-windows-x64.zip"
  /\ get_arch "CONDOR-8.9.0-Windows-X64.ZIP" = get_arch "condor-8.9.0-windows-x64.zip".
Proof.
  apply (classification_ignores_case "CONDOR-8.9.0-Windows-X64.ZIP" "condor-8.9.0-windows-x64.zip").
  reflexivity.
Defined.
